(** * Verification of the lextech-dotnet PostToolUse hooks

    A shallow embedding of the five hook scripts under [src/hooks]
    ([coding_standards_hook.py], [layer_dependency_hook.py],
    [openapi_contract_hook.py], [serilog_enforcer_hook.py] and
    [sql_format_hook.py]) together with the properties the design document
    states about them.

    Modelling conventions.
    - Text is [string]; the alphabet is 7-bit ASCII.  Code points above 127
      are ordinary symbols here (no case, not white space, not word
      characters); Python's Unicode tables are not modelled.
    - A hook process is [main], a function from the result of [json.loads]
      on standard input to either an [outcome] (exit status and the lines
      written to standard error) or an uncaught exception.
    - The iteration order of a Python [set] of strings depends on the hash
      seed of the process; it is a parameter of the one check that iterates
      over a set.
    - Python's [re] module is modelled by a backtracking matcher over a
      first-order syntax of the patterns that occur in the hooks.
    - [int] converts a string of at most 4300 digits, the default of
      [sys.int_info.default_max_str_digits], and raises ValueError on a
      longer one. *)

From stdpp Require Import gmap strings list sorting pretty.
From Stdlib Require Import Ascii ZArith Lia.

Set Default Proof Using "Type".
Set Warnings "-register-all".

(** ** Characters *)

Module Char.

Definition code (c : ascii) : N := Ascii.N_of_ascii c.

Definition between (lo hi : N) (c : ascii) : bool :=
  ((lo <=? code c) && (code c <=? hi))%N.

Definition eqb (a b : ascii) : bool := (code a =? code b)%N.

(** [str.isspace] on ASCII: TAB, LF, VT, FF, CR, FS, GS, RS, US, SPACE. *)
Definition is_space (c : ascii) : bool :=
  between 9 13 c || between 28 32 c.

Definition is_digit (c : ascii) : bool := between 48 57 c.
Definition is_upper (c : ascii) : bool := between 65 90 c.
Definition is_lower (c : ascii) : bool := between 97 122 c.
Definition is_alpha (c : ascii) : bool := is_upper c || is_lower c.

(** The class [\w]: letters, digits and the underscore. *)
Definition is_word (c : ascii) : bool :=
  is_alpha c || is_digit c || eqb c "_".

Definition upper (c : ascii) : ascii :=
  if is_lower c then Ascii.ascii_of_N (code c - 32) else c.
Definition lower (c : ascii) : ascii :=
  if is_upper c then Ascii.ascii_of_N (code c + 32) else c.
Definition swapcase (c : ascii) : ascii :=
  if is_lower c then upper c else lower c.

Definition LF : ascii := "010".
Definition CR : ascii := "013".

(** Line boundaries recognised by [str.splitlines] (ASCII part):
    LF, VT, FF, CR, FS, GS, RS. *)
Definition is_linebreak (c : ascii) : bool :=
  between 10 13 c || between 28 30 c.

Definition digit_value (c : ascii) : N := (code c - 48)%N.

End Char.

(** ** The [str] methods used by the hooks *)

Module Str.

Fixpoint startswith (s pre : string) : bool :=
  match pre with
  | "" => true
  | String a pre' =>
      match s with
      | "" => false
      | String c s' => Char.eqb a c && startswith s' pre'
      end
  end.

Definition endswith (s suf : string) : bool :=
  startswith (String.rev s) (String.rev suf).

(** [sub in s] *)
Fixpoint contains (sub s : string) : bool :=
  startswith s sub ||
  match s with
  | "" => false
  | String _ s' => contains sub s'
  end.

Fixpoint lstrip (s : string) : string :=
  match s with
  | "" => ""
  | String c s' => if Char.is_space c then lstrip s' else s
  end.

Definition rstrip (s : string) : string :=
  String.rev (lstrip (String.rev s)).

Definition strip (s : string) : string := rstrip (lstrip s).

Fixpoint map (f : ascii → ascii) (s : string) : string :=
  match s with
  | "" => ""
  | String c s' => String (f c) (map f s')
  end.

Definition upper : string → string := map Char.upper.
Definition lower : string → string := map Char.lower.

(** [s.splitlines()]: CR LF counts as one boundary and a final boundary
    does not open an empty last line.  [cur] is the current line,
    reversed. *)
Fixpoint splitlines_go (cur : string) (s : string) : list string :=
  match s with
  | "" => match cur with "" => [] | _ => [String.rev cur] end
  | String c s' =>
      if Char.is_linebreak c then
        String.rev cur ::
          (if Char.eqb c Char.CR then
             match s' with
             | String d s'' =>
                 if Char.eqb d Char.LF then splitlines_go "" s''
                 else splitlines_go "" s'
             | "" => splitlines_go "" s'
             end
           else splitlines_go "" s')
      else splitlines_go (String c cur) s'
  end.

Definition splitlines (s : string) : list string := splitlines_go "" s.

(** [s.split(sep)] for a one-character separator: the pieces between
    the separators, empty pieces included. *)
Fixpoint split (sep : ascii) (s : string) : list string :=
  match s with
  | "" => [""]
  | String c s' =>
      if Char.eqb c sep then "" :: split sep s'
      else
        match split sep s' with
        | piece :: rest => String c piece :: rest
        | [] => [String c ""]
        end
  end.

(** [sep.join(l)] *)
Fixpoint join (sep : string) (l : list string) : string :=
  match l with
  | [] => ""
  | [x] => x
  | x :: rest => x +:+ sep +:+ join sep rest
  end.

(** [s.count(c)] for a one-character needle. *)
Fixpoint count (c : ascii) (s : string) : nat :=
  match s with
  | "" => 0
  | String d s' => (if Char.eqb c d then 1 else 0) + count c s'
  end.

(** [sys.int_info.default_max_str_digits]: the interpreter converts no
    more digits than this, leading zeros counted. *)
Definition int_max_str_digits : N := 4300.

Fixpoint int_go (acc : N) (s : string) : N :=
  match s with
  | "" => acc
  | String d s' => int_go (10 * acc + Char.digit_value d)%N s'
  end.

(** [int(s)] on a string of decimal digits, which is what the hooks
    convert.  [None] stands for the ValueError that [int] raises on a
    string of more than [int_max_str_digits] digits. *)
Definition int (s : string) : option N :=
  if (int_max_str_digits <? N.of_nat (String.length s))%N then None
  else Some (int_go 0 s).

(** The first [n] characters of [s]. *)
Fixpoint take (n : nat) (s : string) : string :=
  match n, s with
  | S n', String c s' => String c (take n' s')
  | _, _ => ""
  end.

(** [os.path.basename] (POSIX): what follows the last slash. *)
Fixpoint basename_go (cur : string) (s : string) : string :=
  match s with
  | "" => String.rev cur
  | String c s' =>
      if Char.eqb c "/" then basename_go "" s'
      else basename_go (String c cur) s'
  end.

Definition basename (s : string) : string := basename_go "" s.

(** [bool(s)] *)
Definition nonempty (s : string) : bool :=
  match s with "" => false | _ => true end.

End Str.

(** ** Regular expressions

    The fragment of Python's pattern language the hooks use.  Repetition is
    only ever applied to a single character class, and optional parts are
    groups; both are greedy and backtrack, as in [re]. *)

Module Re.

Inductive atom :=
| Lit (c : ascii)          (* a literal character inside [...] *)
| Range (lo hi : ascii)    (* a-z *)
| Word                     (* \w *)
| Space                    (* \s *)
| Digit.                   (* \d *)

Inductive cclass :=
| AnyChar                  (* .  (anything but a newline) *)
| OneOf (l : list atom)    (* [...] *)
| NoneOf (l : list atom).  (* [^...] *)

Inductive regex :=
| Eps
| Chr (cl : cclass)        (* one character of the class *)
| Star (cl : cclass)       (* cl* *)
| Plus (cl : cclass)       (* cl+ *)
| Text (s : string)        (* a literal string *)
| Seq (r1 r2 : regex)
| Alt (r1 r2 : regex)      (* r1|r2 *)
| Opt (r : regex)          (* (?:r)? *)
| Group (n : nat) (r : regex)  (* capturing group number n *)
| WordB                    (* \b *)
| Bol.                     (* ^ *)

(** [seq [r1; ...; rn]] is the concatenation r1...rn and
    [alt [r1; ...; rn]] the alternation r1|...|rn. *)
Definition seq (l : list regex) : regex := foldr Seq Eps l.
Definition alt (l : list regex) : regex :=
  match l with
  | [] => Eps
  | r :: rest => foldl (λ acc x, Alt acc x) r rest
  end.

(** Shorthands for the classes that occur as patterns of their own. *)
Definition w : cclass := OneOf [Word].
Definition s : cclass := OneOf [Space].
Definition d : cclass := OneOf [Digit].
Definition ch (c : ascii) : regex := Chr (OneOf [Lit c]).

Definition atom_match (a : atom) (c : ascii) : bool :=
  match a with
  | Lit x => Char.eqb x c
  | Range lo hi => Char.between (Char.code lo) (Char.code hi) c
  | Word => Char.is_word c
  | Space => Char.is_space c
  | Digit => Char.is_digit c
  end.

(** [ic] is the IGNORECASE flag. *)
Definition atom_match_ic (ic : bool) (a : atom) (c : ascii) : bool :=
  atom_match a c || (ic && atom_match a (Char.swapcase c)).

Definition cclass_match (ic : bool) (cl : cclass) (c : ascii) : bool :=
  match cl with
  | AnyChar => negb (Char.eqb c Char.LF)
  | OneOf l => existsb (λ a, atom_match_ic ic a c) l
  | NoneOf l => negb (existsb (λ a, atom_match_ic ic a c) l)
  end.

(** Captured groups, most recent first. *)
Definition captures := list (nat * string).

Fixpoint group (n : nat) (caps : captures) : option string :=
  match caps with
  | [] => None
  | (m, x) :: rest => if Nat.eqb n m then Some x else group n rest
  end.

Definition is_word_opt (c : option ascii) : bool :=
  match c with Some x => Char.is_word x | None => false end.

Definition head (s : string) : option ascii :=
  match s with "" => None | String c _ => Some c end.

Section Matcher.
Context {R : Type}.
Variable ic : bool.

(** The matcher is written in continuation-passing style: [k] receives
    the character before the current position, the rest of the subject
    and the captures, and a [None] from it makes the matcher try the
    next alternative. *)

Fixpoint star (cl : cclass) (prev : option ascii) (s : string)
    (k : option ascii → string → option R) : option R :=
  match s with
  | String c s' =>
      if cclass_match ic cl c then
        match star cl (Some c) s' k with
        | Some r => Some r
        | None => k prev s
        end
      else k prev s
  | "" => k prev s
  end.

Fixpoint lit (p : string) (prev : option ascii) (s : string)
    (k : option ascii → string → option R) : option R :=
  match p with
  | "" => k prev s
  | String a p' =>
      match s with
      | String c s' =>
          if atom_match_ic ic (Lit a) c then lit p' (Some c) s' k else None
      | "" => None
      end
  end.

Fixpoint rmatch (r : regex) (prev : option ascii) (s : string)
    (caps : captures)
    (k : option ascii → string → captures → option R) : option R :=
  match r with
  | Eps => k prev s caps
  | Chr cl =>
      match s with
      | String c s' =>
          if cclass_match ic cl c then k (Some c) s' caps else None
      | "" => None
      end
  | Star cl => star cl prev s (λ p' s', k p' s' caps)
  | Plus cl =>
      match s with
      | String c s' =>
          if cclass_match ic cl c
          then star cl (Some c) s' (λ p' s', k p' s' caps)
          else None
      | "" => None
      end
  | Text p => lit p prev s (λ p' s', k p' s' caps)
  | Seq r1 r2 =>
      rmatch r1 prev s caps (λ p' s' caps', rmatch r2 p' s' caps' k)
  | Alt r1 r2 =>
      match rmatch r1 prev s caps k with
      | Some x => Some x
      | None => rmatch r2 prev s caps k
      end
  | Opt r1 =>
      match rmatch r1 prev s caps k with
      | Some x => Some x
      | None => k prev s caps
      end
  | Group n r1 =>
      rmatch r1 prev s caps (λ p' s' caps',
        k p' s'
          ((n, Str.take (String.length s - String.length s') s) :: caps'))
  | WordB =>
      if xorb (is_word_opt prev) (is_word_opt (head s))
      then k prev s caps else None
  | Bol =>
      match prev with
      | None => k prev s caps
      | Some _ => None
      end
  end.
End Matcher.

(** A match: the captures and what is left of the subject after it. *)
Definition found := (captures * string)%type.

Definition match_here (ic : bool) (r : regex) (prev : option ascii)
    (s : string) : option found :=
  rmatch ic r prev s [] (λ _ s' caps, Some (caps, s')).

(** [re.match(r, s)] *)
Definition match_ (ic : bool) (r : regex) (s : string) : option captures :=
  fst <$> match_here ic r None s.

Fixpoint search_from (ic : bool) (r : regex) (prev : option ascii)
    (s : string) : option captures :=
  match match_here ic r prev s with
  | Some m => Some (fst m)
  | None =>
      match s with
      | "" => None
      | String c s' => search_from ic r (Some c) s'
      end
  end.

(** [re.search(r, s)] *)
Definition search (ic : bool) (r : regex) (s : string) : option captures :=
  search_from ic r None s.

(** [re.findall(r, s)] for a pattern with one group: the text of group 1
    of every match, left to right, matches not overlapping.  [skip] counts
    the positions still covered by the previous match. *)
Fixpoint findall_go (ic : bool) (r : regex) (skip : nat)
    (prev : option ascii) (s : string) : list string :=
  match s with
  | "" =>
      match skip, match_here ic r prev s with
      | 0, Some (caps, _) => [default "" (group 1 caps)]
      | _, _ => []
      end
  | String c s' =>
      match skip with
      | S n => findall_go ic r n (Some c) s'
      | 0 =>
          match match_here ic r prev s with
          | Some (caps, rest) =>
              default "" (group 1 caps) ::
                findall_go ic r
                  (String.length s - String.length rest - 1) (Some c) s'
          | None => findall_go ic r 0 (Some c) s'
          end
      end
  end.

Definition findall (ic : bool) (r : regex) (s : string) : list string :=
  findall_go ic r 0 None s.

End Re.

(** ** Python values and exceptions *)

Module Py.

(** The exceptions the hooks can leave uncaught. *)
Inductive exn := AttributeError | TypeError | ValueError.

Inductive result (A : Type) :=
| Ok (a : A)
| Raise (e : exn).
Global Arguments Ok {A} a.
Global Arguments Raise {A} e.

Global Instance result_ret : MRet result := λ A a, Ok a.
Global Instance result_bind : MBind result := λ A B f m,
  match m with
  | Ok a => f a
  | Raise e => Raise e
  end.

(** A builtin that raises [e] where its model has no value. *)
Definition or_raise {A : Type} (e : exn) (o : option A) : result A :=
  match o with
  | Some a => Ok a
  | None => Raise e
  end.

(** What [json.loads] returns.  A [JObj] lists the items of the dict; a
    lookup takes the first item with the key. *)
Inductive json :=
| JNull
| JBool (b : bool)
| JNum (z : Z)
| JStr (s : string)
| JArr (l : list json)
| JObj (items : list (string * json)).

Fixpoint lookup (k : string) (items : list (string * json)) : option json :=
  match items with
  | [] => None
  | (k', v) :: rest => if decide (k = k') then Some v else lookup k rest
  end.

(** [o.get(k, dflt)]: only a dict has the method. *)
Definition get (o : json) (k : string) (dflt : json) : result json :=
  match o with
  | JObj items => Ok (default dflt (lookup k items))
  | _ => Raise AttributeError
  end.

(** [v == s] for a string literal [s]. *)
Definition eq_str (v : json) (s : string) : bool :=
  match v with
  | JStr x => bool_decide (x = s)
  | _ => false
  end.

(** [bool(v)] *)
Definition truthy (v : json) : bool :=
  match v with
  | JNull => false
  | JBool b => b
  | JNum z => negb (z =? 0)%Z
  | JStr s => Str.nonempty s
  | JArr l => match l with [] => false | _ => true end
  | JObj items => match items with [] => false | _ => true end
  end.

Fixpoint chars (s : string) : list json :=
  match s with
  | "" => []
  | String c s' => JStr (String c "") :: chars s'
  end.

(** [for e in v]: a list yields its elements, a dict its keys, a string
    its characters; nothing else is iterable. *)
Definition iter (v : json) : result (list json) :=
  match v with
  | JArr l => Ok l
  | JObj items => Ok ((λ kv, JStr kv.1) <$> items)
  | JStr s => Ok (chars s)
  | _ => Raise TypeError
  end.

(** The operand of a [str] method: on anything but a string the attribute
    lookup fails. *)
Definition str_method (v : json) : result string :=
  match v with
  | JStr s => Ok s
  | _ => Raise AttributeError
  end.

(** The argument of [os.path.basename], and the text handed to the
    substring tests and to [re.search] of the endpoint checks: a number
    or a boolean is refused by [in], a list or a dict by [re.search]. *)
Definition str_arg (v : json) : result string :=
  match v with
  | JStr s => Ok s
  | _ => Raise TypeError
  end.

(** An item of the sequence given to [str.join]. *)
Definition join_item (v : json) : result string :=
  match v with
  | JStr s => Ok s
  | _ => Raise TypeError
  end.

(** What a hook process leaves behind: its exit status and the lines it
    printed on standard error. *)
Record outcome := Outcome { exit_code : Z; stderr : list string }.

Global Instance outcome_eq_dec : EqDecision outcome.
Proof. solve_decision. Defined.

End Py.

Import Py.

(** ** The event normaliser

    Each of the five scripts carries its own copy of
    [extract_file_and_content]; the copies are the same text. *)

Definition extract_file_and_content (payload : json) : result (json * json) :=
  tool_name ← get payload "tool_name" (JStr "");
  tool_input ← get payload "tool_input" (JObj []);
  file_path ← get tool_input "file_path" (JStr "");
  content ←
    (if eq_str tool_name "Write" then
       get tool_input "content" (JStr "")
     else if eq_str tool_name "Edit" then
       get tool_input "new_string" (JStr "")
     else if eq_str tool_name "MultiEdit" then
       edits ← get tool_input "edits" (JArr []);
       es ← iter edits;
       news ← mapM (λ e, get e "new_string" (JStr "")) es;
       parts ← mapM join_item news;
       mret (JStr (Str.join (String Char.LF "") parts))
     else mret (JStr ""));
  mret (file_path, content).

(** [for i, line in enumerate(lines, start)]: the body sees the loop's
    variables [st], the index and the line; it returns the updated
    variables and the messages it appended. *)
Fixpoint for_enumerate {St Out : Type}
    (body : St → nat → string → St * list Out)
    (st : St) (start : nat) (lines : list string) : list Out :=
  match lines with
  | [] => []
  | line :: rest =>
      let '(st', out) := body st start line in
      out ++ for_enumerate body st' (S start) rest
  end.

(** The same loop with a body that can raise: the exception ends the loop
    and the messages appended so far are lost with it. *)
Fixpoint for_enumerate_raising {St Out : Type}
    (body : St → nat → string → result (St * list Out))
    (st : St) (start : nat) (lines : list string) : result (list Out) :=
  match lines with
  | [] => Ok []
  | line :: rest =>
      '(st', out) ← body st start line;
      outs ← for_enumerate_raising body st' (S start) rest;
      Ok (out ++ outs)
  end.

(** A loop without variables of its own. *)
Definition for_each_line {Out : Type} (body : nat → string → list Out)
    (start : nat) (lines : list string) : list Out :=
  for_enumerate (λ (_ : unit) i line, (tt, body i line)) tt start lines.

(** [if cond: warnings.append(msg)] *)
Definition when {A : Type} (cond : bool) (msg : A) : list A :=
  if cond then [msg] else [].

Definition is_some {A} (o : option A) : bool :=
  match o with Some _ => true | None => false end.

(** ** sql_format_hook.py *)

Module SqlFormatHook.
Import Re.

Definition check_header_comment (content : string) : list string :=
  let stripped := Str.lstrip content in
  when (negb (Str.startswith stripped "--") &&
        negb (Str.startswith stripped "/*"))
    ("  SQL file is missing a header comment block. " +:+
     "Add a comment describing the query's purpose, parameters, and author.").

(** [@(\w+)] *)
Definition PARAM : regex := seq [ch "@"; Group 1 (Plus w)].

Definition builtin : gset string :=
  {[ "ROWCOUNT"; "ERROR"; "IDENTITY"; "SCOPE_IDENTITY"; "TRANCOUNT" ]}.

(** The comment lines that open the file: the loop stops at the first
    line that is neither a comment nor blank. *)
Fixpoint comment_section (lines : list string) : list string :=
  match lines with
  | [] => []
  | line :: rest =>
      let stripped := Str.strip line in
      if Str.startswith stripped "--" || Str.startswith stripped "/*" ||
         Str.startswith stripped "*" || Str.startswith stripped "*/"
      then stripped :: comment_section rest
      else if bool_decide (stripped = "") then comment_section rest
      else []
  end.

(** [sorted(l)] on strings. *)
Definition sorted (l : list string) : list string := merge_sort String.le l.

Section SetOrder.
(** [for param in params]: the order in which a set of strings is
    visited. *)
Variable set_iter : gset string → list string.

Definition check_parameter_documentation (content : string)
    : list string :=
  let params : gset string :=
    list_to_set (findall false PARAM content) ∖ builtin in
  if decide (params = ∅) then []
  else
    let comment_text :=
      Str.lower
        (Str.join (String Char.LF "")
           (comment_section (Str.splitlines content))) in
    let undocumented :=
      (λ param, "@" +:+ param) <$>
        filter (λ param, Str.contains (Str.lower param) comment_text = false)
               (set_iter params) in
    when (match undocumented with [] => false | _ => true end)
      ("  Undocumented SQL parameters: " +:+
       Str.join ", " (sorted undocumented) +:+ ". " +:+
       "Add parameter descriptions to the header comment.").
End SetOrder.

Definition is_comment (stripped : string) : bool :=
  Str.startswith stripped "--" || Str.startswith stripped "/*" ||
  Str.startswith stripped "*".

(** [\+\s*@] *)
Definition PLUS_AT : regex := seq [ch "+"; Star s; ch "@"].
(** ['\s*\+] *)
Definition QUOTE_PLUS : regex := seq [ch "'"; Star s; ch "+"].
(** [\bCONCAT\s*\(], IGNORECASE *)
Definition CONCAT : regex := seq [WordB; Text "CONCAT"; Star s; ch "("].

Definition check_string_concatenation (content : string) : list string :=
  for_each_line (λ i line,
    let stripped := Str.strip line in
    if is_comment stripped then []
    else
      when (is_some (search false PLUS_AT stripped) ||
            is_some (search false QUOTE_PLUS stripped))
        ("  Line " +:+ pretty i +:+ ": String concatenation detected. " +:+
         "Use parameterized queries with @-prefixed parameters only.") ++
      when (is_some (search true CONCAT stripped))
        ("  Line " +:+ pretty i +:+ ": CONCAT() function detected in SQL. " +:+
         "Use parameterized queries instead of building strings.") ++
      when (Str.contains "string.Format" stripped ||
            Str.contains "String.Format" stripped)
        ("  Line " +:+ pretty i +:+ ": string.Format detected. " +:+
         "Use parameterized queries with @-prefixed parameters."))
    1 (Str.splitlines content).

Definition WHERE_END : list string :=
  ["ORDER BY"; "GROUP BY"; "HAVING"; "LIMIT"; "OFFSET"; "UNION";
   "INSERT"; "UPDATE"; "DELETE"].

(** [=\s*'[^'@][^']*'] *)
Definition EQ_STRING : regex :=
  seq [ch "="; Star s; ch "'"; Chr (NoneOf [Lit "'"; Lit "@"]);
       Star (NoneOf [Lit "'"]); ch "'"].
(** [=\s*(\d+)] *)
Definition EQ_NUMBER : regex := seq [ch "="; Star s; Group 1 (Plus d)].

(** The body of the loop of [check_non_parameterized_where]; the loop's
    variable is [in_where].  The call of [int] is not guarded: its
    ValueError leaves the function and, uncaught in [main], the script. *)
Definition where_line (in_where : bool) (i : nat) (line : string)
    : result (bool * list string) :=
  let stripped := Str.upper (Str.strip line) in
  if is_comment stripped then Ok (in_where, [])
  else
    let in_where := if Str.contains "WHERE" stripped then true else in_where in
    if in_where then
      if existsb (λ kw, Str.contains kw stripped) WHERE_END then Ok (false, [])
      else
        let original := Str.strip line in
        let string_literal :=
          when (is_some (search false EQ_STRING original))
            ("  Line " +:+ pretty i +:+
             ": Hardcoded string literal in WHERE clause. " +:+
             "Use a @-prefixed parameter instead.") in
        match search false EQ_NUMBER original with
        | Some numeric_match =>
            value ← or_raise ValueError
                      (Str.int (default "" (group 1 numeric_match)));
            Ok (in_where,
                string_literal ++
                when (1 <? value)%N
                  ("  Line " +:+ pretty i +:+
                   ": Hardcoded numeric literal (" +:+
                   pretty value +:+ ") in WHERE clause. " +:+
                   "Use a @-prefixed parameter instead."))
        | None => Ok (in_where, string_literal)
        end
    else Ok (in_where, []).

Definition check_non_parameterized_where (content : string)
    : result (list string) :=
  for_enumerate_raising where_line false 1 (Str.splitlines content).

(** The reporting part of [main], from the two lists it has collected. *)
Definition report (file_path : string) (warnings blockers : list string)
    : outcome :=
  let printed_warnings :=
    match warnings with
    | [] => []
    | _ => ("[lextech-dotnet] SQL format warnings for " +:+ file_path +:+ ":")
             :: warnings
    end in
  match blockers with
  | [] => Outcome 0 printed_warnings
  | _ =>
      Outcome 2
        (printed_warnings ++
         ("[lextech-dotnet] BLOCKED: SQL injection risk in " +:+
            file_path +:+ ":") :: blockers ++
         ["  Use parameterized queries with @-prefixed parameters. " +:+
          "Never concatenate user input into SQL strings."])
  end.

Section Main.
Variable set_iter : gset string → list string.

Definition warnings (content : string) : list string :=
  check_header_comment content ++
  check_parameter_documentation set_iter content.

(** What [main] has in [blockers] after the two blocking checks; the
    concatenation check has run when the WHERE check raises. *)
Definition blockers (content : string) : result (list string) :=
  let concatenation := check_string_concatenation content in
  literals ← check_non_parameterized_where content;
  Ok (concatenation ++ literals).

(** [stdin] is [None] when [json.loads] raises. *)
Definition main (stdin : option json) : result outcome :=
  match stdin with
  | None => Ok (Outcome 0 [])
  | Some payload =>
      '(file_path, content) ← extract_file_and_content payload;
      file_path ← str_method file_path;
      if negb (Str.endswith file_path ".sql") then Ok (Outcome 0 [])
      else if negb (Str.contains "Infrastructure" file_path) &&
              negb (Str.contains "infrastructure" file_path)
      then Ok (Outcome 0 [])
      else if negb (truthy content) then Ok (Outcome 0 [])
      else
        content ← str_method content;
        let warnings := warnings content in
        blockers ← blockers content;
        Ok (report file_path warnings blockers)
  end.
End Main.

End SqlFormatHook.

(** ** layer_dependency_hook.py *)

Module LayerDependencyHook.
Import Re.

(** A dict literal is visited in the order it is written. *)
Definition LAYER_PATTERNS : list (string * list string) :=
  [("Domain", [".Domain/"; ".Domain\"; "/Domain/"; "\Domain\"]);
   ("Application",
    [".Application/"; ".Application\"; "/Application/"; "\Application\"]);
   ("Infrastructure",
    [".Infrastructure/"; ".Infrastructure\"; "/Infrastructure/";
     "\Infrastructure\"]);
   ("Api",
    [".Api/"; ".Api\"; ".API/"; ".API\"; "/Api/"; "\Api\"; "/API/";
     "\API\"])].

Definition DOMAIN_FORBIDDEN : list string :=
  ["Infrastructure"; "Microsoft.AspNetCore"; "Microsoft.EntityFrameworkCore";
   "Dapper"; "System.Data"; "Newtonsoft.Json"; "System.Text.Json"].

Definition APPLICATION_FORBIDDEN : list string := ["Infrastructure"].

Definition API_WARN_PATTERNS : list string :=
  ["Repository"; "Repositories"; "Persistence"].

Fixpoint detect_layer_in (table : list (string * list string))
    (file_path : string) : option string :=
  match table with
  | [] => None
  | (layer, patterns) :: rest =>
      if existsb (λ pattern, Str.contains pattern file_path) patterns
      then Some layer
      else detect_layer_in rest file_path
  end.

Definition detect_layer (file_path : string) : option string :=
  detect_layer_in LAYER_PATTERNS file_path.

(** [^using\s+([\w.]+)\s*;] *)
Definition USING : regex :=
  seq [Bol; Text "using"; Plus s; Group 1 (Plus (OneOf [Word; Lit "."]));
       Star s; ch ";"].
(** [^using\s+\w+\s*=\s*([\w.]+)\s*;] *)
Definition USING_ALIAS : regex :=
  seq [Bol; Text "using"; Plus s; Plus w; Star s; ch "="; Star s;
       Group 1 (Plus (OneOf [Word; Lit "."])); Star s; ch ";"].

Definition matched_namespace (i : nat) (m : option captures)
    : list (nat * string) :=
  match m with
  | Some caps => [(i, default "" (group 1 caps))]
  | None => []
  end.

Definition extract_usings (content : string) : list (nat * string) :=
  for_each_line (λ i line,
    let stripped := Str.strip line in
    matched_namespace i (match_ false USING stripped) ++
    matched_namespace i (match_ false USING_ALIAS stripped))
    1 (Str.splitlines content).

(** A violation is a pair of a level, BLOCK or WARN, and a message. *)
Definition violation := (string * string)%type.

Definition check_domain_layer (usings : list (nat * string))
    (file_path : string) : list violation :=
  '(line_num, namespace) ← usings;
  forbidden ← DOMAIN_FORBIDDEN;
  when (Str.contains forbidden namespace)
    ("BLOCK",
     "  Line " +:+ pretty line_num +:+ ": Domain layer cannot reference '" +:+
     namespace +:+ "'. " +:+
     "Domain must be pure -- no infrastructure, ORM, ASP.NET, " +:+
     "or serialization dependencies.").

Definition check_application_layer (usings : list (nat * string))
    (file_path : string) : list violation :=
  '(line_num, namespace) ← usings;
  forbidden ← APPLICATION_FORBIDDEN;
  let segments := Str.split "." namespace in
  when (bool_decide (forbidden ∈ segments))
    ("BLOCK",
     "  Line " +:+ pretty line_num +:+
     ": Application layer cannot reference " +:+
     "'" +:+ namespace +:+ "'. Application must not depend on " +:+
     "Infrastructure. Use interfaces defined in Application.").

Definition check_api_layer (usings : list (nat * string))
    (file_path : string) : list violation :=
  '(line_num, namespace) ← usings;
  pattern ← API_WARN_PATTERNS;
  when (Str.contains pattern namespace)
    ("WARN",
     "  Line " +:+ pretty line_num +:+ ": API layer references '" +:+
     namespace +:+ "'. " +:+
     "Endpoints should dispatch via IMessageBus, not call " +:+
     "repositories directly.").

(** The violations [main] collects for a file of the given layer. *)
Definition check_layer (layer : string) (usings : list (nat * string))
    (file_path : string) : list violation :=
  if bool_decide (layer = "Domain") then check_domain_layer usings file_path
  else if bool_decide (layer = "Application")
  then check_application_layer usings file_path
  else if bool_decide (layer = "Api") then check_api_layer usings file_path
  else [].

Definition has_blockers (violations : list violation) : bool :=
  existsb (λ v, bool_decide (v.1 = "BLOCK")) violations.

(** The reporting part of [main]. *)
Definition report (file_path layer : string) (violations : list violation)
    : outcome :=
  match violations with
  | [] => Outcome 0 []
  | _ =>
      let blocked := has_blockers violations in
      Outcome (if blocked then 2 else 0)
        ((if blocked
          then "[lextech-dotnet] BLOCKED: Layer dependency violation in " +:+
               file_path +:+ " (" +:+ layer +:+ " layer):"
          else "[lextech-dotnet] Layer dependency warnings for " +:+
               file_path +:+ " (" +:+ layer +:+ " layer):") ::
         ((λ v, "  [" +:+ v.1 +:+ "] " +:+ v.2) <$> violations) ++
         (if blocked
          then ["  Dependency direction: Domain (pure) -> Application -> " +:+
                "Infrastructure -> API. Inner layers must not reference outer layers."]
          else []))
  end.

Definition main (stdin : option json) : result outcome :=
  match stdin with
  | None => Ok (Outcome 0 [])
  | Some payload =>
      '(file_path, content) ← extract_file_and_content payload;
      file_path ← str_method file_path;
      if negb (Str.endswith file_path ".cs") then Ok (Outcome 0 [])
      else if negb (truthy content) then Ok (Outcome 0 [])
      else
        match detect_layer file_path with
        | None => Ok (Outcome 0 [])
        | Some layer =>
            content ← str_method content;
            let usings := extract_usings content in
            match usings with
            | [] => Ok (Outcome 0 [])
            | _ => Ok (report file_path layer
                         (check_layer layer usings file_path))
            end
        end
  end.

End LayerDependencyHook.

(** The one-character string holding a double quote. *)
Definition dquote : string := String "034" "".

(** ** coding_standards_hook.py *)

Module CodingStandardsHook.
Import Re.

(** [\bvar\s+[a-zA-Z_]] *)
Definition VAR : regex :=
  seq [WordB; Text "var"; Plus s;
       Chr (OneOf [Range "a" "z"; Range "A" "Z"; Lit "_"])].

Definition check_var_usage (content : string) : list string :=
  for_each_line (λ i line,
    let stripped := Str.lstrip line in
    if Str.startswith stripped "//" || Str.startswith stripped "///" ||
       Str.startswith stripped "/*" || Str.startswith stripped "*"
    then []
    else if Str.startswith stripped dquote || Str.startswith stripped "'"
    then []
    else
      when (is_some (search false VAR line))
        ("  Line " +:+ pretty i +:+ ": Use explicit type instead of 'var'. " +:+
         "Lextech standard forbids var usage."))
    1 (Str.splitlines content).

(** [^public\s+(sealed\s+)?(partial\s+)?(static\s+)?(class|record|struct|interface|enum)\s+] *)
Definition PUBLIC_TYPE : regex :=
  seq [Bol; Text "public"; Plus s;
       Opt (Group 1 (seq [Text "sealed"; Plus s]));
       Opt (Group 2 (seq [Text "partial"; Plus s]));
       Opt (Group 3 (seq [Text "static"; Plus s]));
       Group 4 (alt [Text "class"; Text "record"; Text "struct";
                     Text "interface"; Text "enum"]);
       Plus s].

(** [^public\s+(sealed\s+)?(static\s+)?(override\s+)?(virtual\s+)?(async\s+)?[\w<>\[\]?,\s]+\s+\w+\s*\(] *)
Definition PUBLIC_METHOD : regex :=
  seq [Bol; Text "public"; Plus s;
       Opt (Group 1 (seq [Text "sealed"; Plus s]));
       Opt (Group 2 (seq [Text "static"; Plus s]));
       Opt (Group 3 (seq [Text "override"; Plus s]));
       Opt (Group 4 (seq [Text "virtual"; Plus s]));
       Opt (Group 5 (seq [Text "async"; Plus s]));
       Plus (OneOf [Word; Lit "<"; Lit ">"; Lit "["; Lit "]"; Lit "?";
                    Lit ","; Space]);
       Plus s; Plus w; Star s; ch "("].

(** The backward scan for a doc comment, over the lines above the
    declaration, nearest first. *)
Fixpoint has_doc (above : list string) : bool :=
  match above with
  | [] => false
  | l :: rest =>
      let prev := Str.strip l in
      if Str.startswith prev "/// <summary>" ||
         Str.startswith prev "/// <inheritdoc"
      then true
      else if Str.startswith prev "///" then has_doc rest
      else if bool_decide (prev = "") || Str.startswith prev "["
      then has_doc rest
      else false
  end.

(** [lines[j] for j in range(i - 1, max(i - 5, -1), -1)] *)
Definition lookback (lines : list string) (i : nat) : list string :=
  take 4 (reverse (take i lines)).

Definition check_xml_docs (content : string) : list string :=
  let lines := Str.splitlines content in
  for_each_line (λ i line,
    let stripped := Str.strip line in
    when (is_some (match_ false PUBLIC_TYPE stripped) &&
          negb (has_doc (lookback lines i)))
      ("  Line " +:+ pretty (i + 1) +:+
       ": Public type declaration missing XML documentation. " +:+
       "Add /// <summary> above the declaration.") ++
    if is_some (match_ false PUBLIC_METHOD stripped) then
      if Str.contains "{" stripped && Str.contains "get;" stripped then []
      else
        when (negb (has_doc (lookback lines i)))
          ("  Line " +:+ pretty (i + 1) +:+
           ": Public method missing XML documentation. " +:+
           "Add /// <summary> above the method.")
    else [])
    0 lines.

(** [^(public|private|protected|internal)\s+.*\basync\s+\w+.*\s+(\w+)\s*\(],
    then group 3, any run of characters other than a closing parenthesis,
    then [\)]. *)
Definition ASYNC_METHOD : regex :=
  seq [Bol;
       Group 1 (alt [Text "public"; Text "private"; Text "protected";
                     Text "internal"]);
       Plus s; Star AnyChar; WordB; Text "async"; Plus s; Plus w;
       Star AnyChar; Plus s; Group 2 (Plus w); Star s; ch "(";
       Group 3 (Star (NoneOf [Lit ")"])); ch ")"].

Definition check_cancellation_token (content : string) : list string :=
  for_each_line (λ i line,
    let stripped := Str.strip line in
    match match_ false ASYNC_METHOD stripped with
    | Some m =>
        let method_name := default "" (group 2 m) in
        let params := default "" (group 3 m) in
        when (negb (Str.contains "CancellationToken" params))
          ("  Line " +:+ pretty i +:+ ": Async method '" +:+ method_name +:+
           "' is missing a " +:+ "CancellationToken parameter.")
    | None => []
    end)
    1 (Str.splitlines content).

(** [^public\s+(sealed\s+)?(partial\s+)?(class|record|struct)\s+(\w+)] *)
Definition TYPE_DECL : regex :=
  seq [Bol; Text "public"; Plus s;
       Opt (Group 1 (seq [Text "sealed"; Plus s]));
       Opt (Group 2 (seq [Text "partial"; Plus s]));
       Group 3 (alt [Text "class"; Text "record"; Text "struct"]);
       Plus s; Group 4 (Plus w)].

(** The body of the loop of [check_sealed_record]. *)
Definition sealed_record_line (i : nat) (line : string) : list string :=
  let stripped := Str.strip line in
  match match_ false TYPE_DECL stripped with
  | Some m =>
      let is_sealed := is_some (group 1 m) in
      let kind := default "" (group 3 m) in
      let type_name := default "" (group 4 m) in
      if Str.endswith type_name "Command" || Str.endswith type_name "Query"
      then
        when (negb (bool_decide (kind = "record")) || negb is_sealed)
          (let expected := "sealed record" in
           let actual := (if is_sealed then "sealed " else "") +:+ kind in
           "  Line " +:+ pretty i +:+ ": '" +:+ type_name +:+
           "' should be declared as " +:+
           "'" +:+ expected +:+ "' but is '" +:+ actual +:+ "'.")
      else []
  | None => []
  end.

Definition check_sealed_record (content : string) : list string :=
  for_each_line sealed_record_line 1 (Str.splitlines content).

Definition all_warnings (content : string) : list string :=
  check_var_usage content ++ check_xml_docs content ++
  check_cancellation_token content ++ check_sealed_record content.

(** The reporting part of [main]. *)
Definition report (file_path : string) (all_warnings : list string)
    : outcome :=
  match all_warnings with
  | [] => Outcome 0 []
  | _ =>
      Outcome 0
        (("[lextech-dotnet] Coding standards warnings for " +:+
          file_path +:+ ":") :: all_warnings)
  end.

Definition main (stdin : option json) : result outcome :=
  match stdin with
  | None => Ok (Outcome 0 [])
  | Some payload =>
      '(file_path, content) ← extract_file_and_content payload;
      file_path ← str_method file_path;
      if negb (Str.endswith file_path ".cs") then Ok (Outcome 0 [])
      else if negb (truthy content) then Ok (Outcome 0 [])
      else
        content ← str_method content;
        Ok (report file_path (all_warnings content))
  end.

End CodingStandardsHook.

(** ** openapi_contract_hook.py *)

Module OpenapiContractHook.
Import Re.

Definition is_endpoint_file (file_path : string) : bool :=
  let basename := Str.basename file_path in
  Str.contains "Endpoint" basename && Str.endswith basename ".cs".

Definition check_with_name (content : string) : list string :=
  when (negb (Str.contains ".WithName(" content))
    "  Endpoint missing .WithName() - required for OpenAPI operationId mapping".

Definition check_produces (content : string) : list string :=
  when (negb (Str.contains ".Produces<" content) &&
        negb (Str.contains ".Produces(" content))
    "  Endpoint missing .Produces<T>() declarations for response types".

Definition check_with_tags (content : string) : list string :=
  when (negb (Str.contains ".WithTags(" content))
    "  Endpoint missing .WithTags() - required for OpenAPI tag grouping".

Definition check_summary_or_description (content : string) : list string :=
  when (negb (Str.contains ".WithSummary(" content) &&
        negb (Str.contains ".WithDescription(" content))
    "  Endpoint missing .WithSummary() or .WithDescription() for OpenAPI documentation".

Definition check_require_authorization (content : string) : list string :=
  when (negb (Str.contains ".RequireAuthorization(" content))
    "  Endpoint missing .RequireAuthorization() - all endpoints must have explicit authorization".

(** [\(\s*\w*(Command|Query)\s+\w+\s*[,)]] *)
Definition pattern : regex :=
  seq [ch "("; Star s; Star w; Group 1 (alt [Text "Command"; Text "Query"]);
       Plus s; Plus w; Star s; Chr (OneOf [Lit ","; Lit ")"])].

Definition check_direct_command_query_parameter (content : string)
    : list string :=
  when (is_some (search false pattern content))
    ("  Consider using a generated DTO from the OpenAPI contract instead of " +:+
     "the command/query directly").

Definition all_warnings (content : string) : list string :=
  check_with_name content ++ check_produces content ++
  check_with_tags content ++ check_summary_or_description content ++
  check_require_authorization content ++
  check_direct_command_query_parameter content.

(** The reporting part of [main]. *)
Definition report (file_path : string) (all_warnings : list string)
    : outcome :=
  match all_warnings with
  | [] => Outcome 0 []
  | _ =>
      Outcome 0
        (("[lextech-dotnet] OpenAPI contract warnings for " +:+
          file_path +:+ ":") :: all_warnings)
  end.

Definition main (stdin : option json) : result outcome :=
  match stdin with
  | None => Ok (Outcome 0 [])
  | Some payload =>
      '(file_path, content) ← extract_file_and_content payload;
      file_path ← str_arg file_path;
      if negb (is_endpoint_file file_path) then Ok (Outcome 0 [])
      else if negb (truthy content) then Ok (Outcome 0 [])
      else
        content ← str_arg content;
        Ok (report file_path (all_warnings content))
  end.

End OpenapiContractHook.

(** ** serilog_enforcer_hook.py *)

Module SerilogEnforcerHook.
Import Re.

Definition PII_PATTERNS : list string :=
  ["password"; "passwd"; "token"; "secret"; "creditcard"; "credit_card";
   "creditcardnumber"; "ssn"; "socialsecurity"; "social_security";
   "taxfilenumber"; "tfn"; "bankaccount"; "bank_account"; "apikey";
   "api_key"; "privatekey"; "private_key"].

Definition LEVELS : list regex :=
  [Text "Information"; Text "Warning"; Text "Error"; Text "Critical";
   Text "Debug"; Text "Trace"; Text "Fatal"].

(** [(?:_?[Ll]og(?:ger)?)\s*\.\s*(?:Log(?:LEVEL)?|LEVEL|Verbose|Write)\s*\(]
    with IGNORECASE, where LEVEL stands for
    [Information|Warning|Error|Critical|Debug|Trace|Fatal]. *)
Definition LOGGER_CALL_PATTERN : regex :=
  seq [Opt (ch "_"); Chr (OneOf [Lit "L"; Lit "l"]); Text "og";
       Opt (Text "ger"); Star s; ch "."; Star s;
       alt (seq [Text "Log"; Opt (alt LEVELS)] ::
            LEVELS ++ [Text "Verbose"; Text "Write"]);
       Star s; ch "("].

(** The four alternatives of INTERPOLATION_PATTERN: an opening parenthesis
    or a comma, white space, a dollar sign, optionally an at sign, and a
    double quote. *)
Definition INTERPOLATION_PATTERN : regex :=
  alt [seq [ch "("; Star s; Text "$"; Text dquote];
       seq [ch "("; Star s; Text "$@"; Text dquote];
       seq [ch ","; Star s; Text "$"; Text dquote];
       seq [ch ","; Star s; Text "$@"; Text dquote]].

Definition has_logger_usage (content : string) : bool :=
  let lower := Str.lower content in
  Str.contains "log" lower &&
  (Str.contains "_logger." lower || Str.contains "logger." lower ||
   Str.contains "log." lower || Str.contains "Log." content).

Definition is_comment (stripped : string) : bool :=
  Str.startswith stripped "//" || Str.startswith stripped "///" ||
  Str.startswith stripped "/*" || Str.startswith stripped "*".

Definition check_string_interpolation (content : string) : list string :=
  let lines := Str.splitlines content in
  for_each_line (λ i line,
    let stripped := Str.strip line in
    if is_comment stripped then []
    else if negb (is_some (search true LOGGER_CALL_PATTERN line)) then []
    else if is_some (search false INTERPOLATION_PATTERN line) then
      ["  Line " +:+ pretty i +:+ ": String interpolation ($" +:+ dquote +:+
       ") detected in log call. " +:+
       "Use Serilog message templates with {PropertyName} placeholders " +:+
       "instead. Example: _logger.LogInformation(" +:+ dquote +:+
       "Processing order {OrderId}" +:+ dquote +:+ ", orderId)"]
    else
      match lines !! i with
      | Some next_line =>
          when (is_some (search false INTERPOLATION_PATTERN next_line))
            ("  Line " +:+ pretty (i + 1) +:+ ": String interpolation ($" +:+
             dquote +:+ ") detected in " +:+
             "multi-line log call. Use Serilog message templates with " +:+
             "{PropertyName} placeholders instead.")
      | None => []
      end)
    1 lines.

(** [\{(\w+)\}] *)
Definition PLACEHOLDER : regex := seq [ch "{"; Group 1 (Plus w); ch "}"].
(** [\b(\w+)\s*:] *)
Definition NAMED_ARG : regex := seq [WordB; Group 1 (Plus w); Star s; ch ":"].

(** [for pii in PII_PATTERNS: if pii in name_lower: ...; break] *)
Definition is_pii (name : string) : bool :=
  let name_lower := Str.lower name in
  existsb (λ pii, Str.contains pii name_lower) PII_PATTERNS.

(** The body of the loop of [check_pii_parameters]; the loop's variables
    are [in_log_call] and [brace_depth]. *)
Definition pii_line (st : bool * Z) (i : nat) (line : string)
    : (bool * Z) * list string :=
  let '(in_log_call, brace_depth) := st in
  let stripped := Str.strip line in
  if is_comment stripped then (st, [])
  else
    let '(in_log_call, brace_depth) :=
      if is_some (search true LOGGER_CALL_PATTERN line)
      then (true, 0%Z) else (in_log_call, brace_depth) in
    if in_log_call then
      let brace_depth :=
        (brace_depth + (Z.of_nat (Str.count "(" line) -
                        Z.of_nat (Str.count ")" line)))%Z in
      let in_log_call := if (brace_depth <=? 0)%Z then false else in_log_call in
      let template_params := findall false PLACEHOLDER line in
      let named_args := findall false NAMED_ARG line in
      ((in_log_call, brace_depth),
       ((λ param,
           "  Line " +:+ pretty i +:+ ": PII-sensitive placeholder " +:+
           "{" +:+ param +:+ "} found in log call. " +:+
           "Never log sensitive data. Redact or remove " +:+
           "this parameter.") <$> filter (λ param, is_pii param = true) template_params) ++
       ((λ arg,
           "  Line " +:+ pretty i +:+ ": PII-sensitive named argument " +:+
           "'" +:+ arg +:+ "' found in log call. " +:+
           "Never log sensitive data.") <$> filter (λ arg, is_pii arg = true) named_args))
    else ((in_log_call, brace_depth), []).

Definition check_pii_parameters (content : string) : list string :=
  for_enumerate pii_line (false, 0%Z) 1 (Str.splitlines content).

Definition all_warnings (content : string) : list string :=
  check_string_interpolation content ++ check_pii_parameters content.

(** The reporting part of [main]. *)
Definition report (file_path : string) (all_warnings : list string)
    : outcome :=
  match all_warnings with
  | [] => Outcome 0 []
  | _ =>
      Outcome 0
        (("[lextech-dotnet] Serilog logging warnings for " +:+
          file_path +:+ ":") :: all_warnings)
  end.

Definition main (stdin : option json) : result outcome :=
  match stdin with
  | None => Ok (Outcome 0 [])
  | Some payload =>
      '(file_path, content) ← extract_file_and_content payload;
      file_path ← str_method file_path;
      if negb (Str.endswith file_path ".cs") then Ok (Outcome 0 [])
      else if negb (truthy content) then Ok (Outcome 0 [])
      else
        content ← str_method content;
        if negb (has_logger_usage content) then Ok (Outcome 0 [])
        else Ok (report file_path (all_warnings content))
  end.

End SerilogEnforcerHook.

(** * Properties *)

(** ** Edit descriptions of the three shapes *)

Definition write_payload (path text : string) : json :=
  JObj [("tool_name", JStr "Write");
        ("tool_input",
         JObj [("file_path", JStr path); ("content", JStr text)])].

Definition edit_payload (path fragment : string) : json :=
  JObj [("tool_name", JStr "Edit");
        ("tool_input",
         JObj [("file_path", JStr path); ("new_string", JStr fragment)])].

Definition multi_edit_payload (path : string) (fragments : list string)
    : json :=
  JObj [("tool_name", JStr "MultiEdit");
        ("tool_input",
         JObj [("file_path", JStr path);
               ("edits",
                JArr ((λ f, JObj [("new_string", JStr f)]) <$> fragments))])].

Definition nl : string := String Char.LF "".

(** ** What each hook does with an event

    An event is a path and a text: a payload that the normaliser turns into
    two strings.  For each hook, [*_applies] says whether [main] gets as far
    as its checks, and [*_diagnostics] lists the diagnostics of the event
    with their levels: a message is a [BLOCK] when the script keeps it
    among its blockers or tags it so, and a [WARN] otherwise. *)

Definition diagnostic := (string * string)%type.

Definition warn (messages : list string) : list diagnostic :=
  (λ m, ("WARN", m)) <$> messages.
Definition block (messages : list string) : list diagnostic :=
  (λ m, ("BLOCK", m)) <$> messages.

Definition sql_applies (p c : string) : bool :=
  Str.endswith p ".sql" &&
  (Str.contains "Infrastructure" p || Str.contains "infrastructure" p) &&
  Str.nonempty c.

(** The SQL hook has diagnostics to decide on when its WHERE check
    returns. *)
Definition sql_diagnostics (set_iter : gset string → list string)
    (p c : string) : result (list diagnostic) :=
  if sql_applies p c then
    blockers ← SqlFormatHook.blockers c;
    Ok (warn (SqlFormatHook.warnings set_iter c) ++ block blockers)
  else Ok [].

Definition layer_diagnostics (p c : string) : list diagnostic :=
  if Str.endswith p ".cs" && Str.nonempty c then
    match LayerDependencyHook.detect_layer p with
    | Some layer =>
        LayerDependencyHook.check_layer layer
          (LayerDependencyHook.extract_usings c) p
    | None => []
    end
  else [].

Definition coding_diagnostics (p c : string) : list diagnostic :=
  if Str.endswith p ".cs" && Str.nonempty c
  then warn (CodingStandardsHook.all_warnings c) else [].

Definition openapi_diagnostics (p c : string) : list diagnostic :=
  if OpenapiContractHook.is_endpoint_file p && Str.nonempty c
  then warn (OpenapiContractHook.all_warnings c) else [].

Definition serilog_diagnostics (p c : string) : list diagnostic :=
  if Str.endswith p ".cs" && Str.nonempty c &&
     SerilogEnforcerHook.has_logger_usage c
  then warn (SerilogEnforcerHook.all_warnings c) else [].

(** The outcome [o] is the decision on the diagnostics [ds]: the status is
    2 (block) when one of them is a BLOCK and 0 (allow) otherwise, every
    diagnostic is printed, as [shown] renders it, and nothing is printed
    when there is none. *)
Definition decides (o : outcome) (ds : list diagnostic)
    (shown : diagnostic → string) : Prop :=
  (exit_code o = 2%Z ↔ ∃ d, d ∈ ds ∧ d.1 = "BLOCK") ∧
  (exit_code o = 2%Z ∨ exit_code o = 0%Z) ∧
  (∀ d, d ∈ ds → shown d ∈ stderr o) ∧
  (ds = [] → stderr o = []).

(** The layer hook prints the level in front of the message. *)
Definition with_level (d : diagnostic) : string :=
  "  [" +:+ d.1 +:+ "] " +:+ d.2.

(** *** Layer patterns *)

(** One of the patterns occurs in the path. *)
Definition hit (patterns : list string) (path : string) : Prop :=
  ∃ pattern, pattern ∈ patterns ∧ Str.contains pattern path = true.

(** *** Messages *)

(** The messages of the six endpoint checks, in the order [main] runs
    them. *)
Definition six_warnings : list string :=
  ["  Endpoint missing .WithName() - required for OpenAPI operationId mapping";
   "  Endpoint missing .Produces<T>() declarations for response types";
   "  Endpoint missing .WithTags() - required for OpenAPI tag grouping";
   "  Endpoint missing .WithSummary() or .WithDescription() for OpenAPI documentation";
   "  Endpoint missing .RequireAuthorization() - all endpoints must have explicit authorization";
   "  Consider using a generated DTO from the OpenAPI contract instead of " +:+
   "the command/query directly"].

(** The message of the Application-layer check for one import. *)
Definition application_message (line_num : nat) (namespace : string)
    : string :=
  "  Line " +:+ pretty line_num +:+ ": Application layer cannot reference " +:+
  "'" +:+ namespace +:+ "'. Application must not depend on " +:+
  "Infrastructure. Use interfaces defined in Application.".

(** *** Line numbers *)

(** The message starts with the line number [n]. *)
Definition on_line (n : nat) (m : string) : Prop :=
  ∃ rest, m = "  Line " +:+ pretty n +:+ ": " +:+ rest.

(** The message carries the number of a line of the text, counted from 1. *)
Definition attributed (content m : string) : Prop :=
  ∃ n, 1 ≤ n ≤ length (Str.splitlines content) ∧ on_line n m.

(** ** Vocabulary of the further properties *)

(** The tool a payload names, [""] when it names none. *)
Definition tool_name_of (items : list (string * json)) : json :=
  default (JStr "") (lookup "tool_name" items).

(** An edit of a MultiEdit that the normaliser accepts, and the fragment it
    contributes: a dict whose [new_string], when present, is a string. *)
Definition fragment_of (e : json) (f : string) : Prop :=
  ∃ items, e = JObj items ∧
           default (JStr "") (lookup "new_string" items) = JStr f.

(** A value of [edits] the normaliser accepts, and the fragments it
    contributes. *)
Definition edits_of (v : json) (fragments : list string) : Prop :=
  ∃ es, iter v = Ok es ∧ Forall2 fragment_of es fragments.

(** The message of the Domain-layer check for one import. *)
Definition domain_message (line_num : nat) (namespace : string) : string :=
  "  Line " +:+ pretty line_num +:+ ": Domain layer cannot reference '" +:+
  namespace +:+ "'. " +:+
  "Domain must be pure -- no infrastructure, ORM, ASP.NET, " +:+
  "or serialization dependencies.".

(** The number of markers of the Domain list that occur in a namespace. *)
Definition domain_markers_in (namespace : string) : nat :=
  length (filter (λ forbidden, Str.contains forbidden namespace = true)
            LayerDependencyHook.DOMAIN_FORBIDDEN).

(** The variables of a loop after it has run over the lines. *)
Fixpoint loop_state {St Out : Type}
    (body : St → nat → string → St * list Out)
    (st : St) (start : nat) (lines : list string) : St :=
  match lines with
  | [] => st
  | line :: rest => loop_state body (body st start line).1 (S start) rest
  end.

(** Inside a logger call the parentheses opened so far outnumber those
    closed. *)
Definition in_open_call (st : bool * Z) : Prop :=
  st.1 = true → (0 < st.2)%Z.

(** What follows is, after optional white space, an at sign. *)
Definition at_sign_next (s : string) : Prop :=
  Str.startswith (Str.lstrip s) "@" = true.

(** Captured text no longer than [n]. *)
Definition captures_within (n : nat) (caps : Re.captures) : Prop :=
  Forall (λ cap, String.length cap.2 ≤ n) caps.

(** A run of [n] nines. *)
Fixpoint nines (n : nat) : string :=
  match n with
  | 0 => ""
  | S n' => String "9" (nines n')
  end.

(** A query that builds a string from a parameter and compares a column
    with a numeric literal of 4301 digits. *)
Definition long_literal_query : string :=
  "SELECT id FROM users WHERE name = 'a' + @suffix AND id = " +:+
  nines 4301.

(** A logger call written with a space before the dot. *)
Definition spaced_call : string :=
  "Log .Error($" +:+ dquote +:+ "failed for {user}" +:+ dquote +:+ ");".

(** ** The string methods and the matcher on sample inputs *)

Example splitlines_sample :
  Str.splitlines ("a" +:+ nl +:+ nl +:+ "b" +:+ String Char.CR nl +:+ "c" +:+ nl)
  = ["a"; ""; "b"; "c"] ∧
  Str.splitlines "" = [] ∧ Str.splitlines nl = [""].
Proof. repeat split. Qed.

Example split_sample :
  Str.split "." "a..b." = ["a"; ""; "b"; ""] ∧ Str.split "." "" = [""].
Proof. repeat split. Qed.

Example strip_sample :
  Str.strip ("  a b " +:+ nl) = "a b" ∧ Str.lstrip "  a b " = "a b " ∧
  Str.basename "src/Api/OrderEndpoints.cs" = "OrderEndpoints.cs" ∧
  Str.endswith "q.sql" ".sql" = true ∧ Str.endswith "sql" ".sql" = false ∧
  Str.contains "WHERE" "A WHERE B" = true ∧ Str.contains "" "" = true ∧
  Str.int "0042" = Some 42%N.
Proof. repeat split. Qed.

Example using_sample :
  Re.match_ false LayerDependencyHook.USING "using  Foo.Bar ;"
  = Some [(1, "Foo.Bar")] ∧
  Re.match_ false LayerDependencyHook.USING "using X = Foo.Bar;" = None ∧
  Re.match_ false LayerDependencyHook.USING_ALIAS "using X = Foo.Bar;"
  = Some [(1, "Foo.Bar")] ∧
  Re.match_ false LayerDependencyHook.USING "// using Foo;" = None.
Proof. repeat split. Qed.

Example type_decl_sample :
  Re.match_ false CodingStandardsHook.TYPE_DECL
    "public sealed partial record FooQuery(int Id);"
  = Some [(4, "FooQuery"); (3, "record"); (2, "partial "); (1, "sealed ")] ∧
  Re.match_ false CodingStandardsHook.TYPE_DECL "public class FooCommand"
  = Some [(4, "FooCommand"); (3, "class")] ∧
  Re.match_ false CodingStandardsHook.TYPE_DECL "internal class FooCommand"
  = None.
Proof. repeat split. Qed.

Example async_method_sample :
  Re.match_ false CodingStandardsHook.ASYNC_METHOD
    "public async Task<int> Run(int a)"
  = Some [(3, "int a"); (2, "Run"); (1, "public")].
Proof. reflexivity. Qed.

Example findall_sample :
  Re.findall false SqlFormatHook.PARAM "WHERE a = @Id AND b IN (@x1, @)"
  = ["Id"; "x1"] ∧
  Re.findall false SerilogEnforcerHook.NAMED_ARG "apiKey: 1, user : 2, ::"
  = ["apiKey"; "user"] ∧
  Re.findall false SerilogEnforcerHook.PLACEHOLDER "{A}{b_1} {} {c d}"
  = ["A"; "b_1"].
Proof. repeat split. Qed.

Example ignorecase_sample :
  is_some (Re.search true SqlFormatHook.CONCAT "select concat (a, b)") = true ∧
  is_some (Re.search true SqlFormatHook.CONCAT "select xconcat(a, b)") = false ∧
  is_some (Re.search false SqlFormatHook.CONCAT "select concat(a, b)") = false ∧
  is_some (Re.search true SerilogEnforcerHook.LOGGER_CALL_PATTERN
             "_logger.LogInformation(x)") = true ∧
  is_some (Re.search true SerilogEnforcerHook.LOGGER_CALL_PATTERN
             "LOG . write (x)") = true ∧
  is_some (Re.search true SerilogEnforcerHook.LOGGER_CALL_PATTERN
             "catalog.Find(x)") = false.
Proof. repeat split. Qed.

(** ** The three shapes, normalised *)

Lemma extract_write path text :
  extract_file_and_content (write_payload path text) = Ok (JStr path, JStr text).
Proof. reflexivity. Qed.

Lemma extract_edit path fragment :
  extract_file_and_content (edit_payload path fragment)
  = Ok (JStr path, JStr fragment).
Proof. reflexivity. Qed.

Lemma mapM_new_string fragments :
  mapM (λ e, get e "new_string" (JStr ""))
       ((λ f, JObj [("new_string", JStr f)]) <$> fragments)
  = Ok (JStr <$> fragments).
Proof.
  induction fragments as [|f fs IH]; [reflexivity|].
  cbn [fmap list_fmap mapM]. rewrite IH. reflexivity.
Qed.

Lemma mapM_join_item fragments :
  mapM join_item (JStr <$> fragments) = Ok fragments.
Proof.
  induction fragments as [|f fs IH]; [reflexivity|].
  cbn [fmap list_fmap mapM]. rewrite IH. reflexivity.
Qed.

Lemma extract_multi_edit_items path es :
  extract_file_and_content
    (JObj [("tool_name", JStr "MultiEdit");
           ("tool_input", JObj [("file_path", path); ("edits", JArr es)])])
  = (news ← mapM (λ e, get e "new_string" (JStr "")) es;
     parts ← mapM join_item news;
     mret (path, JStr (Str.join nl parts))).
Proof.
  transitivity
    ((news ← mapM (λ e, get e "new_string" (JStr "")) es;
      parts ← mapM join_item news;
      mret (JStr (Str.join nl parts))) ≫= λ content, mret (path, content));
    [reflexivity|].
  destruct (mapM _ es) as [news|]; [|reflexivity].
  cbn [mbind result_bind]. destruct (mapM join_item news); reflexivity.
Qed.

(** Shape (c): the text is the fragments joined by newlines. *)
Lemma extract_multi_edit path fragments :
  extract_file_and_content (multi_edit_payload path fragments)
  = Ok (JStr path, JStr (Str.join nl fragments)).
Proof.
  unfold multi_edit_payload. rewrite extract_multi_edit_items.
  rewrite mapM_new_string. cbn [mbind result_bind].
  rewrite mapM_join_item. reflexivity.
Qed.

Section MainOnEvents.
Context (payload : json) (p c : string).
Hypothesis Hevent : extract_file_and_content payload = Ok (JStr p, JStr c).

Lemma sql_main_event set_iter :
  SqlFormatHook.main set_iter (Some payload)
  = if sql_applies p c then
      blockers ← SqlFormatHook.blockers c;
      Ok (SqlFormatHook.report p (SqlFormatHook.warnings set_iter c)
            blockers)
    else Ok (Outcome 0 []).
Proof using Hevent.
  unfold SqlFormatHook.main, sql_applies. rewrite Hevent.
  cbn [mbind result_bind str_method truthy].
  destruct (Str.endswith p ".sql"), (Str.contains "Infrastructure" p),
    (Str.contains "infrastructure" p), c; reflexivity.
Qed.

Lemma layer_main_event :
  LayerDependencyHook.main (Some payload)
  = Ok (if Str.endswith p ".cs" && Str.nonempty c then
          match LayerDependencyHook.detect_layer p with
          | Some layer =>
              LayerDependencyHook.report p layer
                (LayerDependencyHook.check_layer layer
                   (LayerDependencyHook.extract_usings c) p)
          | None => Outcome 0 []
          end
        else Outcome 0 []).
Proof using Hevent.
  unfold LayerDependencyHook.main. rewrite Hevent.
  cbn [mbind result_bind str_method truthy].
  destruct (Str.endswith p ".cs"); [|reflexivity].
  destruct (Str.nonempty c); [|reflexivity].
  cbn [negb andb].
  destruct (LayerDependencyHook.detect_layer p) as [layer|]; [|reflexivity].
  destruct (LayerDependencyHook.extract_usings c) eqn:Hu; [|reflexivity].
  unfold LayerDependencyHook.check_layer.
  repeat case_bool_decide; reflexivity.
Qed.

Lemma coding_main_event :
  CodingStandardsHook.main (Some payload)
  = Ok (if Str.endswith p ".cs" && Str.nonempty c
        then CodingStandardsHook.report p (CodingStandardsHook.all_warnings c)
        else Outcome 0 []).
Proof using Hevent.
  unfold CodingStandardsHook.main. rewrite Hevent.
  cbn [mbind result_bind str_method truthy].
  destruct (Str.endswith p ".cs"), (Str.nonempty c); reflexivity.
Qed.

Lemma openapi_main_event :
  OpenapiContractHook.main (Some payload)
  = Ok (if OpenapiContractHook.is_endpoint_file p && Str.nonempty c
        then OpenapiContractHook.report p (OpenapiContractHook.all_warnings c)
        else Outcome 0 []).
Proof using Hevent.
  unfold OpenapiContractHook.main. rewrite Hevent.
  cbn [mbind result_bind str_arg truthy].
  destruct (OpenapiContractHook.is_endpoint_file p), (Str.nonempty c);
    reflexivity.
Qed.

Lemma serilog_main_event :
  SerilogEnforcerHook.main (Some payload)
  = Ok (if Str.endswith p ".cs" && Str.nonempty c &&
           SerilogEnforcerHook.has_logger_usage c
        then SerilogEnforcerHook.report p (SerilogEnforcerHook.all_warnings c)
        else Outcome 0 []).
Proof using Hevent.
  unfold SerilogEnforcerHook.main. rewrite Hevent.
  cbn [mbind result_bind str_method truthy].
  destruct (Str.endswith p ".cs"), (Str.nonempty c),
    (SerilogEnforcerHook.has_logger_usage c); reflexivity.
Qed.
End MainOnEvents.

(** ** Fail-open behaviour of the normaliser and of the entry points *)

(** Input that [json.loads] rejects is let through. *)
Lemma main_unparseable set_iter :
  SqlFormatHook.main set_iter None = Ok (Outcome 0 []) ∧
  LayerDependencyHook.main None = Ok (Outcome 0 []) ∧
  CodingStandardsHook.main None = Ok (Outcome 0 []) ∧
  OpenapiContractHook.main None = Ok (Outcome 0 []) ∧
  SerilogEnforcerHook.main None = Ok (Outcome 0 []).
Proof. repeat split. Qed.

(** A dict that names no tool and no path normalises to the inert event and
    is let through. *)
Lemma main_empty_object set_iter :
  extract_file_and_content (JObj []) = Ok (JStr "", JStr "") ∧
  SqlFormatHook.main set_iter (Some (JObj [])) = Ok (Outcome 0 []) ∧
  LayerDependencyHook.main (Some (JObj [])) = Ok (Outcome 0 []) ∧
  CodingStandardsHook.main (Some (JObj [])) = Ok (Outcome 0 []) ∧
  OpenapiContractHook.main (Some (JObj [])) = Ok (Outcome 0 []) ∧
  SerilogEnforcerHook.main (Some (JObj [])) = Ok (Outcome 0 []).
Proof. repeat split. Qed.

(** The normaliser raises exactly when the payload is not a dict, or its
    [tool_input] is not one, or a MultiEdit carries edits that are not a
    sequence of dicts with string fragments; the first case: *)
Lemma extract_not_a_dict payload :
  (∀ items, payload ≠ JObj items) →
  extract_file_and_content payload = Raise AttributeError.
Proof. intros Hno. destruct payload; try reflexivity. by destruct (Hno items). Qed.

(** A dict that names none of the three tools normalises to the empty
    text, whatever else it holds. *)
Lemma extract_unknown_tool items tool_input :
  eq_str (default (JStr "") (lookup "tool_name" items)) "Write" = false →
  eq_str (default (JStr "") (lookup "tool_name" items)) "Edit" = false →
  eq_str (default (JStr "") (lookup "tool_name" items)) "MultiEdit" = false →
  default (JObj []) (lookup "tool_input" items) = JObj tool_input →
  extract_file_and_content (JObj items)
  = Ok (default (JStr "") (lookup "file_path" tool_input), JStr "").
Proof.
  intros Hw He Hm Hi. unfold extract_file_and_content.
  cbn [get mbind result_bind]. rewrite Hi. cbn [get mbind result_bind].
  by rewrite Hw, He, Hm.
Qed.

(** An event without a path is let through by every hook, whatever its
    text. *)
Lemma main_no_path set_iter payload content :
  extract_file_and_content payload = Ok (JStr "", content) →
  SqlFormatHook.main set_iter (Some payload) = Ok (Outcome 0 []) ∧
  LayerDependencyHook.main (Some payload) = Ok (Outcome 0 []) ∧
  CodingStandardsHook.main (Some payload) = Ok (Outcome 0 []) ∧
  OpenapiContractHook.main (Some payload) = Ok (Outcome 0 []) ∧
  SerilogEnforcerHook.main (Some payload) = Ok (Outcome 0 []).
Proof.
  intros He.
  unfold SqlFormatHook.main, LayerDependencyHook.main,
    CodingStandardsHook.main, OpenapiContractHook.main,
    SerilogEnforcerHook.main.
  rewrite He. repeat split.
Qed.

(** C1.  Fail-open holds for input that is not JSON and for dicts that
    name no tool or no path, but not throughout: the JSON array [[]] is
    valid JSON and describes no edit, yet on it [payload.get] raises
    AttributeError in the normaliser, and every hook ends with that
    exception uncaught instead of status 0. *)
Theorem main_raises_on_json_array (set_iter : gset string → list string) :
  extract_file_and_content (JArr []) = Raise AttributeError ∧
  SqlFormatHook.main set_iter (Some (JArr [])) = Raise AttributeError ∧
  LayerDependencyHook.main (Some (JArr [])) = Raise AttributeError ∧
  CodingStandardsHook.main (Some (JArr [])) = Raise AttributeError ∧
  OpenapiContractHook.main (Some (JArr [])) = Raise AttributeError ∧
  SerilogEnforcerHook.main (Some (JArr [])) = Raise AttributeError.
Proof. repeat split. Qed.

(** ** Empty text *)

(** C9.  Whatever the path, an event whose text is empty makes every hook
    exit with status 0 and print nothing, although the SQL header check and
    the endpoint marker checks, run on the empty text, would each report the
    missing content. *)
Theorem empty_text_short_circuits
    (set_iter : gset string → list string) (payload : json) (p : string) :
  extract_file_and_content payload = Ok (JStr p, JStr "") →
  (SqlFormatHook.main set_iter (Some payload) = Ok (Outcome 0 []) ∧
   LayerDependencyHook.main (Some payload) = Ok (Outcome 0 []) ∧
   CodingStandardsHook.main (Some payload) = Ok (Outcome 0 []) ∧
   OpenapiContractHook.main (Some payload) = Ok (Outcome 0 []) ∧
   SerilogEnforcerHook.main (Some payload) = Ok (Outcome 0 [])) ∧
  SqlFormatHook.check_header_comment "" ≠ [] ∧
  OpenapiContractHook.check_with_name "" ≠ [] ∧
  OpenapiContractHook.check_produces "" ≠ [] ∧
  OpenapiContractHook.check_with_tags "" ≠ [] ∧
  OpenapiContractHook.check_summary_or_description "" ≠ [] ∧
  OpenapiContractHook.check_require_authorization "" ≠ [].
Proof.
  intros Hevent. split; [|by repeat split].
  rewrite (sql_main_event _ _ _ Hevent), (layer_main_event _ _ _ Hevent),
    (coding_main_event _ _ _ Hevent), (openapi_main_event _ _ _ Hevent),
    (serilog_main_event _ _ _ Hevent).
  unfold sql_applies. cbn [Str.nonempty].
  rewrite !andb_false_r. repeat split.
Qed.

Lemma empty_text_short_circuits_witness :
  extract_file_and_content (write_payload "db/Infrastructure/orders.sql" "")
  = Ok (JStr "db/Infrastructure/orders.sql", JStr "") ∧
  SqlFormatHook.main elements
    (Some (write_payload "db/Infrastructure/orders.sql" ""))
  = Ok (Outcome 0 []).
Proof.
  split; [reflexivity|].
  apply (empty_text_short_circuits elements
           (write_payload "db/Infrastructure/orders.sql" "")
           "db/Infrastructure/orders.sql").
  reflexivity.
Defined.

(** The three ways the text of an event can be empty. *)
Lemma empty_text_shapes path :
  extract_file_and_content (write_payload path "") = Ok (JStr path, JStr "") ∧
  extract_file_and_content (edit_payload path "") = Ok (JStr path, JStr "") ∧
  extract_file_and_content (multi_edit_payload path [""])
  = Ok (JStr path, JStr "") ∧
  extract_file_and_content (multi_edit_payload path [])
  = Ok (JStr path, JStr "").
Proof. repeat split. Qed.

(** ** Layer classification *)

Section DetectLayer.
Import LayerDependencyHook.

Lemma existsb_hit patterns path :
  existsb (λ pattern, Str.contains pattern path) patterns = true
  ↔ hit patterns path.
Proof.
  rewrite existsb_exists. unfold hit.
  split; intros (x & Hx & Hc); exists x; split; try done;
    by apply list_elem_of_In.
Qed.

(** [detect_layer_in] answers with the first entry of the table one of
    whose patterns occurs in the path. *)
Lemma detect_layer_in_first table path l :
  detect_layer_in table path = Some l ↔
  ∃ i patterns,
    table !! i = Some (l, patterns) ∧ hit patterns path ∧
    ∀ j e, j < i → table !! j = Some e → ¬ hit e.2 path.
Proof.
  induction table as [|[l0 pats0] table IH]; cbn [detect_layer_in].
  - split; [done|]. by intros (i & pats & ? & _).
  - destruct (existsb _ pats0) eqn:He.
    + apply existsb_hit in He. split.
      * intros [= <-]. exists 0, pats0. repeat split; [done|]. lia.
      * intros (i & pats & Hi & Hhit & Hfirst).
        destruct i as [|i]; [by simplify_eq/=|].
        destruct (Hfirst 0 (l0, pats0)); [lia|done|done].
    + assert (¬ hit pats0 path) as Hno.
      { rewrite <-existsb_hit, He. done. }
      rewrite IH. split.
      * intros (i & pats & Hi & Hhit & Hfirst). exists (S i), pats.
        repeat split; [done..|]. intros [|j] e Hj He'.
        -- by simplify_eq/=.
        -- apply (Hfirst j); [lia|done].
      * intros (i & pats & Hi & Hhit & Hfirst).
        destruct i as [|i]; [by simplify_eq/=|].
        exists i, pats. repeat split; [done..|].
        intros j e Hj He'. apply (Hfirst (S j)); [lia|done].
Qed.

Lemma detect_layer_in_none table path :
  detect_layer_in table path = None ↔
  ∀ i e, table !! i = Some e → ¬ hit e.2 path.
Proof.
  induction table as [|[l0 pats0] table IH]; cbn [detect_layer_in].
  - split; [|done]. by intros _ i e.
  - destruct (existsb _ pats0) eqn:He.
    + apply existsb_hit in He. split; [done|].
      intros Hno. by destruct (Hno 0 (l0, pats0)).
    + assert (¬ hit pats0 path) as Hno.
      { rewrite <-existsb_hit, He. done. }
      rewrite IH. split.
      * intros Hall [|i] e Hi; [by simplify_eq/=|]. by apply (Hall i).
      * intros Hall i e Hi. by apply (Hall (S i)).
Qed.

(** When some entry is hit, the answer is an entry no later than it. *)
Lemma detect_layer_in_earliest table path i l patterns :
  table !! i = Some (l, patterns) → hit patterns path →
  ∃ k l' patterns',
    k ≤ i ∧ table !! k = Some (l', patterns') ∧ hit patterns' path ∧
    detect_layer_in table path = Some l'.
Proof.
  revert i. induction table as [|[l0 pats0] table IH]; intros i Hi Hhit.
  - done.
  - cbn [detect_layer_in]. destruct (existsb _ pats0) eqn:He.
    + apply existsb_hit in He. exists 0, l0, pats0.
      repeat split; [lia|done..].
    + destruct i as [|i].
      * simplify_eq/=. apply existsb_hit in Hhit. congruence.
      * destruct (IH i Hi Hhit) as (k & l' & pats' & Hk & Hl & Hh & Hd).
        exists (S k), l', pats'. repeat split; [lia|done..].
Qed.
End DetectLayer.

(** C10.  The layers are tried in the order Domain, Application,
    Infrastructure, Api; the answer is the first of them one of whose
    patterns occurs in the path, so a path that carries the tokens of
    several layers belongs to the earliest of these. *)
Theorem detect_layer_first_match (path : string) :
  LayerDependencyHook.LAYER_PATTERNS.*1
  = ["Domain"; "Application"; "Infrastructure"; "Api"] ∧
  (∀ l,
     LayerDependencyHook.detect_layer path = Some l ↔
     ∃ i patterns,
       LayerDependencyHook.LAYER_PATTERNS !! i = Some (l, patterns) ∧
       hit patterns path ∧
       ∀ j e, j < i → LayerDependencyHook.LAYER_PATTERNS !! j = Some e →
              ¬ hit e.2 path) ∧
  (LayerDependencyHook.detect_layer path = None ↔
   ∀ i e, LayerDependencyHook.LAYER_PATTERNS !! i = Some e → ¬ hit e.2 path) ∧
  (∀ i j li pi lj pj,
     LayerDependencyHook.LAYER_PATTERNS !! i = Some (li, pi) → hit pi path →
     LayerDependencyHook.LAYER_PATTERNS !! j = Some (lj, pj) → hit pj path →
     ∃ k l patterns,
       k ≤ i ∧ k ≤ j ∧
       LayerDependencyHook.LAYER_PATTERNS !! k = Some (l, patterns) ∧
       LayerDependencyHook.detect_layer path = Some l) ∧
  (Str.contains "/Domain/" path = true → Str.contains "/Api/" path = true →
   LayerDependencyHook.detect_layer path = Some "Domain").
Proof.
  split; [reflexivity|]. split; [|split; [|split]].
  - intros l. apply detect_layer_in_first.
  - apply detect_layer_in_none.
  - intros i j li pi lj pj Hi Hhi Hj Hhj.
    destruct (detect_layer_in_earliest _ _ _ _ _ Hi Hhi)
      as (k & l & pats & Hk & Hl & Hh & Hd).
    destruct (detect_layer_in_earliest _ _ _ _ _ Hj Hhj)
      as (k' & l' & pats' & Hk' & Hl' & Hh' & Hd').
    destruct (decide (k ≤ j)) as [Hle|Hgt].
    + exists k, l, pats. by repeat split.
    + exists k', l', pats'. repeat split; [lia|done..].
  - intros Hc _. unfold LayerDependencyHook.detect_layer.
    cbn [LayerDependencyHook.detect_layer_in
           LayerDependencyHook.LAYER_PATTERNS existsb].
    rewrite Hc. by rewrite !orb_true_r.
Qed.

Lemma detect_layer_first_match_witness :
  LayerDependencyHook.detect_layer "src/Shop/Domain/Api/OrderDto.cs"
  = Some "Domain".
Proof.
  apply (detect_layer_first_match "src/Shop/Domain/Api/OrderDto.cs");
    reflexivity.
Defined.

(** ** The decision *)

Section Decision.

Lemma elem_of_warn d messages :
  d ∈ warn messages ↔ d.1 = "WARN" ∧ d.2 ∈ messages.
Proof.
  unfold warn. rewrite list_elem_of_fmap. destruct d as [lv m]. split.
  - intros (x & [= -> ->] & Hx). done.
  - intros [Hl Hm]. simpl in *. subst. by exists m.
Qed.

Lemma elem_of_block d messages :
  d ∈ block messages ↔ d.1 = "BLOCK" ∧ d.2 ∈ messages.
Proof.
  unfold block. rewrite list_elem_of_fmap. destruct d as [lv m]. split.
  - intros (x & [= -> ->] & Hx). done.
  - intros [Hl Hm]. simpl in *. subst. by exists m.
Qed.

Lemma sql_report_exit p warnings blockers :
  (exit_code (SqlFormatHook.report p warnings blockers) = 2%Z
   ↔ blockers ≠ []) ∧
  (exit_code (SqlFormatHook.report p warnings blockers) = 2%Z ∨
   exit_code (SqlFormatHook.report p warnings blockers) = 0%Z).
Proof. destruct blockers; cbn; split; (split || auto); done. Qed.

Lemma has_blockers_spec violations :
  LayerDependencyHook.has_blockers violations = true
  ↔ ∃ d, d ∈ violations ∧ d.1 = "BLOCK".
Proof.
  unfold LayerDependencyHook.has_blockers. rewrite existsb_exists.
  split; intros (d & Hd & Hb); exists d.
  - apply list_elem_of_In in Hd. by apply bool_decide_eq_true in Hb.
  - split; [by apply list_elem_of_In|by apply bool_decide_eq_true].
Qed.

Lemma layer_report_exit p layer violations :
  (exit_code (LayerDependencyHook.report p layer violations) = 2%Z
   ↔ ∃ d, d ∈ violations ∧ d.1 = "BLOCK") ∧
  (exit_code (LayerDependencyHook.report p layer violations) = 2%Z ∨
   exit_code (LayerDependencyHook.report p layer violations) = 0%Z).
Proof.
  rewrite <-has_blockers_spec.
  destruct violations as [|v vs]; [cbn; split; [split; done|auto]|].
  cbn [LayerDependencyHook.report exit_code].
  destruct (LayerDependencyHook.has_blockers (v :: vs));
    split; (split || auto); done.
Qed.

Lemma check_domain_layer_level usings p d :
  d ∈ LayerDependencyHook.check_domain_layer usings p → d.1 = "BLOCK".
Proof.
  unfold LayerDependencyHook.check_domain_layer.
  intros ([ln ns] & Hd & _)%list_elem_of_bind.
  apply list_elem_of_bind in Hd as (forbidden & Hd & _).
  unfold when in Hd. destruct (Str.contains _ _); [|by apply elem_of_nil in Hd].
  by apply list_elem_of_singleton in Hd as ->.
Qed.

Lemma check_application_layer_level usings p d :
  d ∈ LayerDependencyHook.check_application_layer usings p → d.1 = "BLOCK".
Proof.
  unfold LayerDependencyHook.check_application_layer.
  intros ([ln ns] & Hd & _)%list_elem_of_bind.
  apply list_elem_of_bind in Hd as (forbidden & Hd & _).
  unfold when in Hd. destruct (bool_decide _); [|by apply elem_of_nil in Hd].
  by apply list_elem_of_singleton in Hd as ->.
Qed.

Lemma check_api_layer_level usings p d :
  d ∈ LayerDependencyHook.check_api_layer usings p → d.1 = "WARN".
Proof.
  unfold LayerDependencyHook.check_api_layer.
  intros ([ln ns] & Hd & _)%list_elem_of_bind.
  apply list_elem_of_bind in Hd as (forbidden & Hd & _).
  unfold when in Hd. destruct (Str.contains _ _); [|by apply elem_of_nil in Hd].
  by apply list_elem_of_singleton in Hd as ->.
Qed.

(** A layer check blocks only in the Domain and Application layers. *)
Lemma check_layer_block layer usings p d :
  d ∈ LayerDependencyHook.check_layer layer usings p → d.1 = "BLOCK" →
  (layer = "Domain" ∧ d ∈ LayerDependencyHook.check_domain_layer usings p) ∨
  (layer = "Application" ∧
   d ∈ LayerDependencyHook.check_application_layer usings p).
Proof.
  unfold LayerDependencyHook.check_layer. intros Hd Hb.
  repeat case_bool_decide; [by left|by right| |by apply elem_of_nil in Hd].
  apply check_api_layer_level in Hd. congruence.
Qed.

Lemma coding_report_exit p ws :
  exit_code (CodingStandardsHook.report p ws) = 0%Z.
Proof. by destruct ws. Qed.
Lemma openapi_report_exit p ws :
  exit_code (OpenapiContractHook.report p ws) = 0%Z.
Proof. by destruct ws. Qed.
Lemma serilog_report_exit p ws :
  exit_code (SerilogEnforcerHook.report p ws) = 0%Z.
Proof. by destruct ws. Qed.

End Decision.

(** Without a BLOCK among them, diagnostics that are all printed leave the
    decision at allow. *)
Lemma decides_warn_only (header : string) (ws : list string) :
  decides (match ws with
           | [] => Outcome 0 []
           | _ => Outcome 0 (header :: ws)
           end)
    (warn ws) snd.
Proof.
  unfold decides. repeat apply conj.
  - by destruct ws.
  - intros (d & Hd%elem_of_warn & Hb). destruct Hd as [Hw _]. congruence.
  - destruct ws; by right.
  - intros d [_ Hd]%elem_of_warn. destruct ws as [|w ws].
    + by apply elem_of_nil in Hd.
    + cbn. by right.
  - by destruct ws.
Qed.

Lemma decides_nothing shown : decides (Outcome 0 []) [] shown.
Proof.
  unfold decides. repeat apply conj; cbn; try done.
  - intros (d & Hd & _). by apply elem_of_nil in Hd.
  - by right.
  - intros d Hd. by apply elem_of_nil in Hd.
Qed.

Lemma sql_report_decides p ws bs :
  decides (SqlFormatHook.report p ws bs) (warn ws ++ block bs) snd.
Proof.
  destruct (sql_report_exit p ws bs) as [Hiff Hor].
  unfold decides. repeat apply conj; try done.
  - rewrite Hiff. intros Hne. destruct bs as [|b bs]; [done|].
    exists ("BLOCK", b). split; [|done].
    apply elem_of_app. right. apply elem_of_block. split; [done|]. left.
  - rewrite Hiff. intros (d & [Hd|Hd]%elem_of_app & Hl).
    + apply elem_of_warn in Hd as [Hw _]. congruence.
    + apply elem_of_block in Hd as [_ Hd]. intros ->.
      by apply elem_of_nil in Hd.
  - intros d [[_ Hd]%elem_of_warn|[_ Hd]%elem_of_block]%elem_of_app.
    + destruct ws as [|w ws]; [by apply elem_of_nil in Hd|].
      destruct bs; cbn [SqlFormatHook.report stderr]; [by right|].
      apply elem_of_app. left. by right.
    + destruct bs as [|b bs]; [by apply elem_of_nil in Hd|].
      cbn [SqlFormatHook.report stderr].
      apply elem_of_app. right. right. apply elem_of_app. by left.
  - intros [Hw Hb]%app_eq_nil.
    destruct ws; [|done]. by destruct bs.
Qed.

Lemma layer_report_decides p layer vs :
  decides (LayerDependencyHook.report p layer vs) vs with_level.
Proof.
  destruct (layer_report_exit p layer vs) as [Hiff Hor].
  unfold decides. repeat apply conj; try done; try apply Hiff.
  - intros d Hd. destruct vs as [|v vs]; [by apply elem_of_nil in Hd|].
    cbn [LayerDependencyHook.report stderr]. right.
    apply elem_of_app. left. apply list_elem_of_fmap. by exists d.
  - by intros ->.
Qed.

(** C2.  The decision is not Block although a check has produced a BLOCK:
    on a query that concatenates a parameter into a string and compares a
    column with a literal of 4301 digits, the concatenation check returns
    its BLOCK message, the WHERE check raises the ValueError of [int], and
    the hook ends with this exception (a traceback and status 1) in place
    of status 2, for every visiting order of the parameter set. *)
Theorem long_literal_escapes_block (set_iter : gset string → list string) :
  SqlFormatHook.check_string_concatenation long_literal_query
  = ["  Line 1: String concatenation detected. " +:+
     "Use parameterized queries with @-prefixed parameters only."] ∧
  SqlFormatHook.check_non_parameterized_where long_literal_query
  = Raise ValueError ∧
  SqlFormatHook.main set_iter
    (Some (write_payload "src/Infrastructure/Sql/users.sql"
             long_literal_query))
  = Raise ValueError.
Proof.
  assert (SqlFormatHook.check_non_parameterized_where long_literal_query
          = Raise ValueError) as Hw by (vm_compute; reflexivity).
  split; [vm_compute; reflexivity|]. split; [exact Hw|].
  rewrite (sql_main_event _ _ _ (extract_write _ _)).
  assert (sql_applies "src/Infrastructure/Sql/users.sql" long_literal_query
          = true) as -> by (vm_compute; reflexivity).
  unfold SqlFormatHook.blockers. cbn zeta. rewrite Hw. reflexivity.
Qed.

(** ** Determinism *)

Section Determinism.
(** Two processes may visit the same set in different orders. *)
Variables set_iter1 set_iter2 : gset string → list string.
Hypothesis set_iter1_perm : ∀ X, set_iter1 X ≡ₚ elements X.
Hypothesis set_iter2_perm : ∀ X, set_iter2 X ≡ₚ elements X.

Lemma sorted_Permutation l1 l2 :
  l1 ≡ₚ l2 → SqlFormatHook.sorted l1 = SqlFormatHook.sorted l2.
Proof.
  intros Hp. unfold SqlFormatHook.sorted.
  apply (Sorted_unique String.le).
  - apply (Sorted_merge_sort String.le).
  - apply (Sorted_merge_sort String.le).
  - by rewrite !(merge_sort_Permutation String.le).
Qed.

(** The parameter-documentation check sorts what it collected from the
    set, so its message does not depend on the order of the visit. *)
Lemma check_parameter_documentation_order content :
  SqlFormatHook.check_parameter_documentation set_iter1 content
  = SqlFormatHook.check_parameter_documentation set_iter2 content.
Proof using set_iter1_perm set_iter2_perm.
  unfold SqlFormatHook.check_parameter_documentation.
  case_decide; [done|].
  set (params := list_to_set _ ∖ _).
  set (keep := λ param : string, Str.contains _ _ = false).
  assert ((λ param, "@" +:+ param) <$> filter keep (set_iter1 params)
          ≡ₚ (λ param, "@" +:+ param) <$> filter keep (set_iter2 params))
    as Hp.
  { by rewrite set_iter1_perm, set_iter2_perm. }
  rewrite (sorted_Permutation _ _ Hp).
  apply Permutation_length in Hp.
  destruct (_ <$> filter keep (set_iter1 params)),
    (_ <$> filter keep (set_iter2 params)); done.
Qed.

Lemma sql_main_order stdin :
  SqlFormatHook.main set_iter1 stdin = SqlFormatHook.main set_iter2 stdin.
Proof using set_iter1_perm set_iter2_perm.
  unfold SqlFormatHook.main, SqlFormatHook.warnings.
  destruct stdin as [payload|]; [|done].
  destruct (extract_file_and_content payload) as [[fp ct]|]; [|done].
  cbn [mbind result_bind]. destruct (str_method fp) as [p|]; [|done].
  cbn [mbind result_bind]. repeat (destruct (negb _ && _) || destruct (negb _));
    try done.
  destruct (str_method ct) as [c|]; [|done]. cbn [mbind result_bind].
  by rewrite check_parameter_documentation_order.
Qed.
End Determinism.

(** Once the payload is normalised, a hook looks at the path and the text
    only. *)
Lemma main_same_event payload1 payload2 :
  extract_file_and_content payload1 = extract_file_and_content payload2 →
  (∀ set_iter, SqlFormatHook.main set_iter (Some payload1)
               = SqlFormatHook.main set_iter (Some payload2)) ∧
  LayerDependencyHook.main (Some payload1)
  = LayerDependencyHook.main (Some payload2) ∧
  CodingStandardsHook.main (Some payload1)
  = CodingStandardsHook.main (Some payload2) ∧
  OpenapiContractHook.main (Some payload1)
  = OpenapiContractHook.main (Some payload2) ∧
  SerilogEnforcerHook.main (Some payload1)
  = SerilogEnforcerHook.main (Some payload2).
Proof.
  intros He.
  unfold SqlFormatHook.main, LayerDependencyHook.main,
    CodingStandardsHook.main, OpenapiContractHook.main,
    SerilogEnforcerHook.main.
  rewrite He. done.
Qed.

(** C8.  Two runs of a hook on the same path and text end alike, with the
    same status and the same lines on standard error in the same order,
    whichever shape of edit carried the text and in whichever order each
    process visits its sets. *)
Theorem hooks_deterministic
    (set_iter1 set_iter2 : gset string → list string)
    (payload1 payload2 path text : json) :
  (∀ X, set_iter1 X ≡ₚ elements X) →
  (∀ X, set_iter2 X ≡ₚ elements X) →
  extract_file_and_content payload1 = Ok (path, text) →
  extract_file_and_content payload2 = Ok (path, text) →
  SqlFormatHook.main set_iter1 (Some payload1)
  = SqlFormatHook.main set_iter2 (Some payload2) ∧
  LayerDependencyHook.main (Some payload1)
  = LayerDependencyHook.main (Some payload2) ∧
  CodingStandardsHook.main (Some payload1)
  = CodingStandardsHook.main (Some payload2) ∧
  OpenapiContractHook.main (Some payload1)
  = OpenapiContractHook.main (Some payload2) ∧
  SerilogEnforcerHook.main (Some payload1)
  = SerilogEnforcerHook.main (Some payload2).
Proof.
  intros H1 H2 He1 He2.
  assert (extract_file_and_content payload1
          = extract_file_and_content payload2) as He by congruence.
  destruct (main_same_event _ _ He) as (Hsql & Hrest).
  split; [|done].
  rewrite (sql_main_order set_iter1 set_iter2 H1 H2). apply Hsql.
Qed.

Lemma hooks_deterministic_witness :
  SqlFormatHook.main elements
    (Some (write_payload "db/Infrastructure/orders.sql"
             "SELECT id FROM orders WHERE id = @Id AND owner = @Owner"))
  = SqlFormatHook.main (λ X, reverse (elements X))
      (Some (edit_payload "db/Infrastructure/orders.sql"
               "SELECT id FROM orders WHERE id = @Id AND owner = @Owner")).
Proof.
  apply (hooks_deterministic elements (λ X, reverse (elements X))
           (write_payload "db/Infrastructure/orders.sql"
              "SELECT id FROM orders WHERE id = @Id AND owner = @Owner")
           (edit_payload "db/Infrastructure/orders.sql"
              "SELECT id FROM orders WHERE id = @Id AND owner = @Owner")
           (JStr "db/Infrastructure/orders.sql")
           (JStr "SELECT id FROM orders WHERE id = @Id AND owner = @Owner")).
  - intros X. reflexivity.
  - intros X. apply reverse_Permutation.
  - reflexivity.
  - reflexivity.
Defined.

(** ** Literals in a WHERE clause *)

(** C3.  Inside a WHERE clause the comparison [status = 0] is let through,
    while [status = 2] and [name = 'bob'] each draw exactly one blocking
    diagnostic: on the line that opens the clause, on a later line of the
    clause, and in a whole run of the hook on a SQL file of the
    infrastructure layer. *)
Theorem where_clause_literals (in_where : bool) (i : nat) :
  SqlFormatHook.where_line in_where i "WHERE status = 0" = Ok (true, []) ∧
  SqlFormatHook.where_line in_where i "WHERE status = 2"
  = Ok (true, ["  Line " +:+ pretty i +:+
               ": Hardcoded numeric literal (2) in WHERE clause. " +:+
               "Use a @-prefixed parameter instead."]) ∧
  SqlFormatHook.where_line in_where i "WHERE name = 'bob'"
  = Ok (true, ["  Line " +:+ pretty i +:+
               ": Hardcoded string literal in WHERE clause. " +:+
               "Use a @-prefixed parameter instead."]) ∧
  SqlFormatHook.where_line true i "  AND status = 0" = Ok (true, []) ∧
  SqlFormatHook.where_line true i "  AND status = 2"
  = Ok (true, ["  Line " +:+ pretty i +:+
               ": Hardcoded numeric literal (2) in WHERE clause. " +:+
               "Use a @-prefixed parameter instead."]) ∧
  SqlFormatHook.where_line true i "  AND name = 'bob'"
  = Ok (true, ["  Line " +:+ pretty i +:+
               ": Hardcoded string literal in WHERE clause. " +:+
               "Use a @-prefixed parameter instead."]) ∧
  sql_diagnostics elements "db/Infrastructure/orders.sql"
    ("-- Orders by status" +:+ nl +:+ "SELECT id FROM orders" +:+ nl +:+
     "WHERE status = 0") = Ok [] ∧
  sql_diagnostics elements "db/Infrastructure/orders.sql"
    ("-- Orders by status" +:+ nl +:+ "SELECT id FROM orders" +:+ nl +:+
     "WHERE status = 2")
  = Ok [("BLOCK",
         "  Line 3: Hardcoded numeric literal (2) in WHERE clause. " +:+
         "Use a @-prefixed parameter instead.")] ∧
  sql_diagnostics elements "db/Infrastructure/orders.sql"
    ("-- Orders by name" +:+ nl +:+ "SELECT id FROM orders" +:+ nl +:+
     "WHERE name = 'bob'")
  = Ok [("BLOCK",
         "  Line 3: Hardcoded string literal in WHERE clause. " +:+
         "Use a @-prefixed parameter instead.")] ∧
  SqlFormatHook.main elements
    (Some (write_payload "db/Infrastructure/orders.sql"
             ("-- Orders by status" +:+ nl +:+ "SELECT id FROM orders" +:+
              nl +:+ "WHERE status = 0")))
  = Ok (Outcome 0 []) ∧
  SqlFormatHook.main elements
    (Some (write_payload "db/Infrastructure/orders.sql"
             ("-- Orders by status" +:+ nl +:+ "SELECT id FROM orders" +:+
              nl +:+ "WHERE status = 2")))
  = Ok (Outcome 2
          ["[lextech-dotnet] BLOCKED: SQL injection risk in " +:+
           "db/Infrastructure/orders.sql:";
           "  Line 3: Hardcoded numeric literal (2) in WHERE clause. " +:+
           "Use a @-prefixed parameter instead.";
           "  Use parameterized queries with @-prefixed parameters. " +:+
           "Never concatenate user input into SQL strings."]) ∧
  SqlFormatHook.main elements
    (Some (write_payload "db/Infrastructure/orders.sql"
             ("-- Orders by name" +:+ nl +:+ "SELECT id FROM orders" +:+
              nl +:+ "WHERE name = 'bob'")))
  = Ok (Outcome 2
          ["[lextech-dotnet] BLOCKED: SQL injection risk in " +:+
           "db/Infrastructure/orders.sql:";
           "  Line 3: Hardcoded string literal in WHERE clause. " +:+
           "Use a @-prefixed parameter instead.";
           "  Use parameterized queries with @-prefixed parameters. " +:+
           "Never concatenate user input into SQL strings."]).
Proof.
  destruct in_where; repeat split; vm_compute; reflexivity.
Qed.

(** ** Endpoint files *)

Section Search.
Import Re.

(** A pattern that matches at the start of [s], whatever stands before,
    is found in every text that ends with [s]. *)
Lemma search_from_app ic r s :
  (∀ prev, is_some (match_here ic r prev s) = true) →
  ∀ pre prev, is_some (search_from ic r prev (pre +:+ s)) = true.
Proof.
  intros Hs pre. induction pre as [|a pre IH]; intros prev.
  - change ("" +:+ s) with s. specialize (Hs prev).
    destruct s; cbn [search_from];
      destruct (match_here ic r prev _); done.
  - change (String a pre +:+ s) with (String a (pre +:+ s)).
    cbn [search_from].
    destruct (match_here ic r prev _); [done|]. apply IH.
Qed.

Lemma pattern_matches_order_command prev post :
  is_some (match_here false OpenapiContractHook.pattern prev
             ("(OrderCommand command)" +:+ post)) = true.
Proof. vm_compute. reflexivity. Qed.
End Search.

(** C6.  An endpoint file whose text has none of the five builder calls
    and has the parameter list [(OrderCommand command)] somewhere draws the
    six warnings, in the order of the checks, and the hook ends with
    status 0. *)
Theorem endpoint_without_markers_six_warnings
    (payload : json) (p c pre post : string) :
  extract_file_and_content payload = Ok (JStr p, JStr c) →
  OpenapiContractHook.is_endpoint_file p = true →
  c = pre +:+ "(OrderCommand command)" +:+ post →
  Str.contains ".WithName(" c = false →
  Str.contains ".Produces<" c = false →
  Str.contains ".Produces(" c = false →
  Str.contains ".WithTags(" c = false →
  Str.contains ".WithSummary(" c = false →
  Str.contains ".WithDescription(" c = false →
  Str.contains ".RequireAuthorization(" c = false →
  OpenapiContractHook.all_warnings c = six_warnings ∧
  openapi_diagnostics p c = warn six_warnings ∧
  length (openapi_diagnostics p c) = 6 ∧
  OpenapiContractHook.main (Some payload)
  = Ok (Outcome 0
          (("[lextech-dotnet] OpenAPI contract warnings for " +:+ p +:+ ":")
             :: six_warnings)).
Proof.
  intros Hevent Hp Hc H1 H2 H3 H4 H5 H6 H7.
  assert (Str.nonempty c = true) as Hne.
  { rewrite Hc. by destruct pre. }
  assert (OpenapiContractHook.all_warnings c = six_warnings) as Hall.
  { unfold OpenapiContractHook.all_warnings,
      OpenapiContractHook.check_with_name, OpenapiContractHook.check_produces,
      OpenapiContractHook.check_with_tags,
      OpenapiContractHook.check_summary_or_description,
      OpenapiContractHook.check_require_authorization,
      OpenapiContractHook.check_direct_command_query_parameter.
    rewrite H1, H2, H3, H4, H5, H6, H7. unfold Re.search. rewrite Hc.
    rewrite (search_from_app _ _ _
               (λ prev, pattern_matches_order_command prev post)).
    reflexivity. }
  unfold openapi_diagnostics.
  rewrite (openapi_main_event _ _ _ Hevent), Hp, Hne, Hall.
  repeat split.
Qed.

Lemma endpoint_without_markers_six_warnings_witness :
  OpenapiContractHook.main
    (Some (write_payload "src/Api/Orders/OrderEndpoints.cs"
             "app.MapPost(route, (OrderCommand command) => Handle(command));"))
  = Ok (Outcome 0
          ["[lextech-dotnet] OpenAPI contract warnings for " +:+
           "src/Api/Orders/OrderEndpoints.cs" +:+ ":";
           "  Endpoint missing .WithName() - required for OpenAPI operationId mapping";
           "  Endpoint missing .Produces<T>() declarations for response types";
           "  Endpoint missing .WithTags() - required for OpenAPI tag grouping";
           "  Endpoint missing .WithSummary() or .WithDescription() for OpenAPI documentation";
           "  Endpoint missing .RequireAuthorization() - all endpoints must have explicit authorization";
           "  Consider using a generated DTO from the OpenAPI contract instead of " +:+
           "the command/query directly"]).
Proof.
  apply (endpoint_without_markers_six_warnings
           (write_payload "src/Api/Orders/OrderEndpoints.cs"
              "app.MapPost(route, (OrderCommand command) => Handle(command));")
           "src/Api/Orders/OrderEndpoints.cs"
           "app.MapPost(route, (OrderCommand command) => Handle(command));"
           "app.MapPost(route, " " => Handle(command));");
    reflexivity.
Defined.

(** ** Commands and queries that are not sealed records *)

Lemma for_each_line_app {Out : Type} (body : nat → string → list Out)
    start lines1 lines2 :
  for_each_line body start (lines1 ++ lines2)
  = for_each_line body start lines1 ++
    for_each_line body (start + length lines1) lines2.
Proof.
  unfold for_each_line. revert start.
  induction lines1 as [|l lines1 IH]; intros start; cbn.
  - by rewrite Nat.add_0_r.
  - rewrite IH, <-app_assoc. by rewrite Nat.add_succ_r.
Qed.

Lemma for_each_line_cons {Out : Type} (body : nat → string → list Out)
    start line lines :
  for_each_line body start (line :: lines)
  = body start line ++ for_each_line body (S start) lines.
Proof. reflexivity. Qed.

(** C7.  The declaration line [public class FooCommand] draws exactly one
    warning that names FooCommand, wherever it stands in the file: the one
    of the sealed-record check, on its line.  In a run of the hook on a file
    that holds just this line it is the only diagnostic that names
    FooCommand (the missing-documentation warning of the same line does not
    name the type), and the only diagnostic at all once the declaration is
    documented. *)
Theorem foo_command_one_warning (before after : list string) :
  (∀ i, CodingStandardsHook.sealed_record_line i "public class FooCommand"
        = ["  Line " +:+ pretty i +:+ ": 'FooCommand' should be declared as " +:+
           "'sealed record' but is 'class'."]) ∧
  for_each_line CodingStandardsHook.sealed_record_line 1
    (before ++ "public class FooCommand" :: after)
  = for_each_line CodingStandardsHook.sealed_record_line 1 before ++
    ["  Line " +:+ pretty (1 + length before) +:+
     ": 'FooCommand' should be declared as " +:+
     "'sealed record' but is 'class'."] ++
    for_each_line CodingStandardsHook.sealed_record_line
      (2 + length before) after ∧
  CodingStandardsHook.check_sealed_record "public class FooCommand"
  = ["  Line 1: 'FooCommand' should be declared as 'sealed record' " +:+
     "but is 'class'."] ∧
  coding_diagnostics "src/Application/Orders/FooCommand.cs"
    "public class FooCommand"
  = [("WARN",
      "  Line 1: Public type declaration missing XML documentation. " +:+
      "Add /// <summary> above the declaration.");
     ("WARN",
      "  Line 1: 'FooCommand' should be declared as 'sealed record' " +:+
      "but is 'class'.")] ∧
  filter (λ m, Str.contains "FooCommand" m = true)
    (CodingStandardsHook.all_warnings "public class FooCommand")
  = ["  Line 1: 'FooCommand' should be declared as 'sealed record' " +:+
     "but is 'class'."] ∧
  CodingStandardsHook.main
    (Some (write_payload "src/Application/Orders/FooCommand.cs"
             ("/// <summary>Places an order.</summary>" +:+ nl +:+
              "public class FooCommand")))
  = Ok (Outcome 0
          ["[lextech-dotnet] Coding standards warnings for " +:+
           "src/Application/Orders/FooCommand.cs:";
           "  Line 2: 'FooCommand' should be declared as 'sealed record' " +:+
           "but is 'class'."]).
Proof.
  assert (∀ i, CodingStandardsHook.sealed_record_line i "public class FooCommand"
               = ["  Line " +:+ pretty i +:+
                  ": 'FooCommand' should be declared as " +:+
                  "'sealed record' but is 'class'."]) as Hline.
  { intros i. vm_compute. reflexivity. }
  split; [exact Hline|]. split.
  - rewrite for_each_line_app, for_each_line_cons, Hline. reflexivity.
  - repeat split; vm_compute; reflexivity.
Qed.

(** ** Imports of the Application layer *)

Lemma Char_eqb_eq a b : Char.eqb a b = true ↔ a = b.
Proof.
  unfold Char.eqb, Char.code. rewrite N.eqb_eq. split; [|by intros ->].
  intros H. rewrite <-(Ascii.ascii_N_embedding a), <-(Ascii.ascii_N_embedding b).
  by rewrite H.
Qed.

Lemma split_nonempty sep s : Str.split sep s ≠ [].
Proof.
  destruct s as [|c s]; cbn; [done|].
  destruct (Char.eqb c sep); [done|]. by destruct (Str.split sep s).
Qed.

(** The pieces of [split], put together again with the separator between
    them, are the string that was split, and no piece holds the
    separator. *)
Lemma join_split sep s : Str.join (String sep "") (Str.split sep s) = s.
Proof.
  induction s as [|c s IH]; [done|]. cbn [Str.split].
  destruct (Char.eqb c sep) eqn:Hc.
  - apply Char_eqb_eq in Hc as ->.
    destruct (Str.split sep s) as [|x xs] eqn:Hs;
      [by destruct (split_nonempty sep s)|].
    change (Str.join (String sep "") ("" :: x :: xs))
      with (String sep (Str.join (String sep "") (x :: xs))).
    by rewrite IH.
  - destruct (Str.split sep s) as [|x xs] eqn:Hs;
      [by destruct (split_nonempty sep s)|].
    rewrite <-IH. by destruct xs.
Qed.

Lemma split_pieces sep s piece :
  piece ∈ Str.split sep s → Str.count sep piece = 0.
Proof.
  revert piece. induction s as [|c s IH]; intros piece; cbn [Str.split].
  - by intros ->%list_elem_of_singleton.
  - destruct (Char.eqb c sep) eqn:Hc.
    + intros [->|H]%elem_of_cons; [done|by apply IH].
    + destruct (Str.split sep s) as [|x xs] eqn:Hs;
        [by destruct (split_nonempty sep s)|].
      intros [->|H]%elem_of_cons.
      * cbn. assert (Char.eqb sep c = false) as ->.
        { destruct (Char.eqb sep c) eqn:Hc'; [|done].
          apply Char_eqb_eq in Hc' as ->.
          by rewrite (proj2 (Char_eqb_eq c c) eq_refl) in Hc. }
        apply IH. left.
      * apply IH. by right.
Qed.

Lemma check_application_layer_import usings p :
  LayerDependencyHook.check_application_layer usings p
  = usings ≫= λ u,
      if bool_decide ("Infrastructure" ∈ Str.split "." u.2)
      then [("BLOCK", application_message u.1 u.2)] else [].
Proof.
  unfold LayerDependencyHook.check_application_layer.
  induction usings as [|[ln ns] usings IH]; [done|].
  cbn [mbind list_bind]. f_equal; [|exact IH].
  unfold LayerDependencyHook.APPLICATION_FORBIDDEN. cbn [mbind list_bind fst snd].
  unfold when. rewrite app_nil_r. by case_bool_decide.
Qed.

Lemma list_bind_nil {A B : Type} (f : A → list B) (l : list A) :
  (∀ x, x ∈ l → f x = []) → l ≫= f = [].
Proof.
  induction l as [|a l IH]; intros Hf; [done|].
  cbn [mbind list_bind]. rewrite (Hf a) by left.
  apply IH. intros x Hx. apply Hf. by right.
Qed.

(** C4.  In a file of the Application layer an import draws a blocking
    diagnostic exactly when [Infrastructure] is one of the pieces of its
    namespace between the dots: the diagnostics of the file are one BLOCK
    for each such import and nothing else, and the hook ends with status 2
    exactly when there is such an import.  [Foo.InfrastructureHelpers]
    draws nothing; [Foo.Infrastructure.Data] is blocked. *)
Theorem application_layer_segment_exact (payload : json) (p c : string) :
  extract_file_and_content payload = Ok (JStr p, JStr c) →
  Str.endswith p ".cs" = true →
  LayerDependencyHook.detect_layer p = Some "Application" →
  layer_diagnostics p c
  = (LayerDependencyHook.extract_usings c ≫= λ u,
       if bool_decide ("Infrastructure" ∈ Str.split "." u.2)
       then [("BLOCK", application_message u.1 u.2)] else []) ∧
  (∃ o, LayerDependencyHook.main (Some payload) = Ok o ∧
        (exit_code o = 2%Z
         ↔ ∃ u, u ∈ LayerDependencyHook.extract_usings c ∧
                "Infrastructure" ∈ Str.split "." u.2) ∧
        ((∀ u, u ∈ LayerDependencyHook.extract_usings c →
               "Infrastructure" ∉ Str.split "." u.2) → o = Outcome 0 [])) ∧
  (∀ ns, Str.join "." (Str.split "." ns) = ns ∧
         ∀ piece, piece ∈ Str.split "." ns → Str.count "." piece = 0) ∧
  Str.split "." "Foo.InfrastructureHelpers" = ["Foo"; "InfrastructureHelpers"] ∧
  Str.split "." "Foo.Infrastructure.Data" = ["Foo"; "Infrastructure"; "Data"] ∧
  LayerDependencyHook.main
    (Some (write_payload "src/Shop.Application/Orders/PlaceOrder.cs"
             "using Foo.InfrastructureHelpers;"))
  = Ok (Outcome 0 []) ∧
  LayerDependencyHook.main
    (Some (write_payload "src/Shop.Application/Orders/PlaceOrder.cs"
             "using Foo.Infrastructure.Data;"))
  = Ok (Outcome 2
          ["[lextech-dotnet] BLOCKED: Layer dependency violation in " +:+
           "src/Shop.Application/Orders/PlaceOrder.cs (Application layer):";
           "  [BLOCK] " +:+ application_message 1 "Foo.Infrastructure.Data";
           "  Dependency direction: Domain (pure) -> Application -> " +:+
           "Infrastructure -> API. Inner layers must not reference outer layers."]).
Proof.
  intros Hevent Hcs Hlayer.
  assert (layer_diagnostics p c
          = (LayerDependencyHook.extract_usings c ≫= λ u,
               if bool_decide ("Infrastructure" ∈ Str.split "." u.2)
               then [("BLOCK", application_message u.1 u.2)] else []))
    as Hdiag.
  { unfold layer_diagnostics. rewrite Hcs, Hlayer.
    destruct c as [|a c]; [reflexivity|]. cbn [Str.nonempty andb].
    unfold LayerDependencyHook.check_layer.
    rewrite bool_decide_eq_false_2 by done.
    rewrite bool_decide_eq_true_2 by done.
    apply check_application_layer_import. }
  assert (LayerDependencyHook.main (Some payload)
          = Ok (LayerDependencyHook.report p "Application"
                  (layer_diagnostics p c))) as Hmain.
  { rewrite (layer_main_event _ _ _ Hevent). unfold layer_diagnostics.
    rewrite Hcs, Hlayer. by destruct (Str.nonempty c). }
  split; [exact Hdiag|]. split; [|split; [|by repeat split]].
  - eexists. split; [exact Hmain|].
    destruct (layer_report_exit p "Application" (layer_diagnostics p c))
      as [Hiff _].
    split.
    + rewrite Hiff, Hdiag. split.
      * intros (d & (u & Hd & Hu)%list_elem_of_bind & _).
        exists u. split; [done|]. case_bool_decide; [done|].
        by apply elem_of_nil in Hd.
      * intros (u & Hu & Hseg).
        exists ("BLOCK", application_message u.1 u.2). split; [|done].
        apply list_elem_of_bind. exists u. split; [|done].
        rewrite bool_decide_eq_true_2 by done. left.
    + intros Hnone. rewrite Hdiag.
      assert ((LayerDependencyHook.extract_usings c ≫= λ u,
                 if bool_decide ("Infrastructure" ∈ Str.split "." u.2)
                 then [("BLOCK", application_message u.1 u.2)] else [])
              = []) as ->; [|done].
      apply list_bind_nil. intros u Hu.
      rewrite bool_decide_eq_false_2; [done|]. by apply Hnone.
  - intros ns. split; [apply (join_split "." ns)|].
    intros piece. apply split_pieces.
Qed.

Lemma application_layer_segment_exact_witness :
  layer_diagnostics "src/Shop.Application/Orders/PlaceOrder.cs"
    ("using System;" +:+ nl +:+ "using Foo.Infrastructure.Data;")
  = (LayerDependencyHook.extract_usings
       ("using System;" +:+ nl +:+ "using Foo.Infrastructure.Data;") ≫= λ u,
       if bool_decide ("Infrastructure" ∈ Str.split "." u.2)
       then [("BLOCK", application_message u.1 u.2)] else []).
Proof.
  apply (application_layer_segment_exact
           (write_payload "src/Shop.Application/Orders/PlaceOrder.cs"
              ("using System;" +:+ nl +:+ "using Foo.Infrastructure.Data;"))
           "src/Shop.Application/Orders/PlaceOrder.cs"
           ("using System;" +:+ nl +:+ "using Foo.Infrastructure.Data;"));
    reflexivity.
Defined.

(** ** Line numbers of the diagnostics *)

Lemma for_enumerate_elem {St Out : Type}
    (body : St → nat → string → St * list Out) st start lines (x : Out) :
  x ∈ for_enumerate body st start lines →
  ∃ st' k line, lines !! k = Some line ∧ x ∈ (body st' (start + k) line).2.
Proof.
  revert st start. induction lines as [|l lines IH]; intros st start; cbn.
  - by intros ?%elem_of_nil.
  - destruct (body st start l) as [st' out] eqn:Hb.
    intros [H|H]%elem_of_app.
    + exists st, 0, l. by rewrite Nat.add_0_r, Hb.
    + apply IH in H as (st'' & k & line & Hk & Hx).
      exists st'', (S k), line. by rewrite Nat.add_succ_r.
Qed.

Lemma for_enumerate_raising_elem {St Out : Type}
    (body : St → nat → string → result (St * list Out)) st start lines
    (outs : list Out) (x : Out) :
  for_enumerate_raising body st start lines = Ok outs →
  x ∈ outs →
  ∃ st' k line st'' out,
    lines !! k = Some line ∧ body st' (start + k) line = Ok (st'', out) ∧
    x ∈ out.
Proof.
  revert st start outs.
  induction lines as [|l lines IH]; intros st start outs; cbn.
  - intros [= <-]. by intros ?%elem_of_nil.
  - destruct (body st start l) as [[st1 out]|] eqn:Hb; [|done].
    cbn [mbind result_bind].
    destruct (for_enumerate_raising body st1 (S start) lines)
      as [rest|] eqn:Hrest; [|done].
    cbn [mbind result_bind]. intros [= <-] [H|H]%elem_of_app.
    + exists st, 0, l, st1, out. by rewrite Nat.add_0_r.
    + destruct (IH _ _ _ Hrest H) as (st' & k & line & st'' & o & Hk & Ho & Hx).
      exists st', (S k), line, st'', o. by rewrite Nat.add_succ_r.
Qed.

Lemma for_each_line_elem {Out : Type} (body : nat → string → list Out)
    start lines (x : Out) :
  x ∈ for_each_line body start lines →
  ∃ k line, lines !! k = Some line ∧ x ∈ body (start + k) line.
Proof.
  intros (_ & k & line & Hk & Hx)%for_enumerate_elem. by exists k, line.
Qed.

(** Take apart a membership in the messages of a loop body, one case for
    each message the body can append. *)
Ltac split_messages H :=
  repeat first
    [ progress cbn [fst snd] in H
    | match type of H with
      | _ ∈ [] => by apply elem_of_nil in H
      | _ ∈ _ ++ _ => apply elem_of_app in H as [H|H]
      | _ ∈ [_] => apply list_elem_of_singleton in H; simplify_eq
      | _ ∈ when _ _ => unfold when in H
      | _ ∈ _ <$> _ => apply list_elem_of_fmap in H as (? & -> & ?)
      | context [if ?c then _ else _] => destruct c eqn:?
      | context [match ?c with _ => _ end] => destruct c eqn:?
      end ].

(** Close [attributed content m] for a message that starts with the number
    of a line whose index is known to be in range. *)
Ltac line_number :=
  repeat match goal with
         | H : _ !! _ = Some _ |- _ => apply lookup_lt_Some in H
         end;
  eexists; split; [|eexists; reflexivity]; lia.

Section Attribution.
Variable content : string.

Lemma check_var_usage_attributed m :
  m ∈ CodingStandardsHook.check_var_usage content → attributed content m.
Proof.
  intros (k & line & Hk & Hm)%for_each_line_elem.
  split_messages Hm; line_number.
Qed.

Lemma check_xml_docs_attributed m :
  m ∈ CodingStandardsHook.check_xml_docs content → attributed content m.
Proof.
  intros (k & line & Hk & Hm)%for_each_line_elem.
  split_messages Hm; line_number.
Qed.

Lemma check_cancellation_token_attributed m :
  m ∈ CodingStandardsHook.check_cancellation_token content →
  attributed content m.
Proof.
  intros (k & line & Hk & Hm)%for_each_line_elem.
  split_messages Hm; line_number.
Qed.

Lemma check_sealed_record_attributed m :
  m ∈ CodingStandardsHook.check_sealed_record content → attributed content m.
Proof.
  intros (k & line & Hk & Hm)%for_each_line_elem.
  unfold CodingStandardsHook.sealed_record_line in Hm.
  split_messages Hm; line_number.
Qed.

Lemma check_string_interpolation_attributed m :
  m ∈ SerilogEnforcerHook.check_string_interpolation content →
  attributed content m.
Proof.
  intros (k & line & Hk & Hm)%for_each_line_elem.
  split_messages Hm; line_number.
Qed.

Lemma check_pii_parameters_attributed m :
  m ∈ SerilogEnforcerHook.check_pii_parameters content →
  attributed content m.
Proof.
  intros ([a b] & k & line & Hk & Hm)%for_enumerate_elem.
  unfold SerilogEnforcerHook.pii_line in Hm.
  split_messages Hm; line_number.
Qed.

Lemma check_string_concatenation_attributed m :
  m ∈ SqlFormatHook.check_string_concatenation content →
  attributed content m.
Proof.
  intros (k & line & Hk & Hm)%for_each_line_elem.
  split_messages Hm; line_number.
Qed.

Lemma check_non_parameterized_where_attributed literals m :
  SqlFormatHook.check_non_parameterized_where content = Ok literals →
  m ∈ literals →
  attributed content m.
Proof.
  intros Hw Hm.
  destruct (for_enumerate_raising_elem _ _ _ _ _ _ Hw Hm)
    as (st & k & line & st' & out & Hk & Hb & Hx).
  unfold SqlFormatHook.where_line in Hb. cbn zeta in Hb.
  repeat case_match; simplify_eq;
    try (destruct (Str.int _) as [value|];
         cbn [or_raise mbind result_bind] in Hb; [|done]; simplify_eq);
    split_messages Hx; line_number.
Qed.

(** The imports found in the text carry the numbers of their lines. *)
Lemma extract_usings_line ln ns :
  (ln, ns) ∈ LayerDependencyHook.extract_usings content →
  1 ≤ ln ≤ length (Str.splitlines content).
Proof.
  intros (k & line & Hk & Hu)%for_each_line_elem.
  unfold LayerDependencyHook.matched_namespace in Hu.
  apply lookup_lt_Some in Hk. split_messages Hu; lia.
Qed.

Lemma check_layers_attributed p d :
  d ∈ LayerDependencyHook.check_domain_layer
        (LayerDependencyHook.extract_usings content) p ++
      LayerDependencyHook.check_application_layer
        (LayerDependencyHook.extract_usings content) p ++
      LayerDependencyHook.check_api_layer
        (LayerDependencyHook.extract_usings content) p →
  attributed content d.2.
Proof.
  intros Hd.
  repeat (apply elem_of_app in Hd as [Hd|Hd]);
    apply list_elem_of_bind in Hd as ([ln ns] & Hd & Hu%extract_usings_line);
    apply list_elem_of_bind in Hd as (tok & Hd & _);
    split_messages Hd; (eexists; split; [|eexists; reflexivity]; lia).
Qed.

(** The checks that look at the file as a whole give no line. *)
Lemma whole_file_checks_no_line set_iter m n :
  m ∈ SqlFormatHook.check_header_comment content ++
      SqlFormatHook.check_parameter_documentation set_iter content ++
      OpenapiContractHook.all_warnings content →
  ¬ on_line n m.
Proof.
  unfold SqlFormatHook.check_header_comment,
    SqlFormatHook.check_parameter_documentation,
    OpenapiContractHook.all_warnings, OpenapiContractHook.check_with_name,
    OpenapiContractHook.check_produces, OpenapiContractHook.check_with_tags,
    OpenapiContractHook.check_summary_or_description,
    OpenapiContractHook.check_require_authorization,
    OpenapiContractHook.check_direct_command_query_parameter.
  intros Hm [rest Heq].
  split_messages Hm; discriminate Heq.
Qed.
End Attribution.

(** C5 as stated fails on the whole-file checks: the missing-header warning of a SQL file with no
    header comment names no line. *)
Lemma header_comment_diagnostic_unattributed :
  ∃ m, m ∈ SqlFormatHook.check_header_comment "SELECT 1" ∧
       ¬ attributed "SELECT 1" m.
Proof.
  eexists. split; [left|].
  intros (n & _ & rest & Heq). discriminate Heq.
Qed.

(** C5, as the scripts have it.  Every diagnostic of a check that walks the
    text line by line (the four coding-standards checks, the two logging
    checks, the two blocking SQL checks, and the three layer checks on the
    imports of the text) starts with the number of a line of the text,
    counted from 1; for the WHERE check these are the diagnostics it
    returns, as it has none when it raises.  The diagnostics of the checks that look at the file as
    a whole (the SQL header and parameter-documentation checks and the six
    endpoint checks) name no line. *)
Theorem line_checks_attributed
    (set_iter : gset string → list string) (content p : string) :
  (∀ m, m ∈ CodingStandardsHook.check_var_usage content ++
            CodingStandardsHook.check_xml_docs content ++
            CodingStandardsHook.check_cancellation_token content ++
            CodingStandardsHook.check_sealed_record content ++
            SerilogEnforcerHook.check_string_interpolation content ++
            SerilogEnforcerHook.check_pii_parameters content ++
            SqlFormatHook.check_string_concatenation content →
        attributed content m) ∧
  (∀ literals m,
     SqlFormatHook.check_non_parameterized_where content = Ok literals →
     m ∈ literals → attributed content m) ∧
  (∀ d, d ∈ LayerDependencyHook.check_domain_layer
              (LayerDependencyHook.extract_usings content) p ++
            LayerDependencyHook.check_application_layer
              (LayerDependencyHook.extract_usings content) p ++
            LayerDependencyHook.check_api_layer
              (LayerDependencyHook.extract_usings content) p →
        attributed content d.2) ∧
  (∀ m n, m ∈ SqlFormatHook.check_header_comment content ++
              SqlFormatHook.check_parameter_documentation set_iter content ++
              OpenapiContractHook.all_warnings content →
          ¬ on_line n m).
Proof.
  split; [|split; [|split]].
  - intros m Hm.
    repeat (apply elem_of_app in Hm as [Hm|Hm]);
      eauto using check_var_usage_attributed, check_xml_docs_attributed,
        check_cancellation_token_attributed, check_sealed_record_attributed,
        check_string_interpolation_attributed, check_pii_parameters_attributed,
        check_string_concatenation_attributed.
  - apply check_non_parameterized_where_attributed.
  - intros d. apply check_layers_attributed.
  - intros m n. apply whole_file_checks_no_line.
Qed.

Lemma line_checks_attributed_witness :
  attributed ("int total = 0;" +:+ nl +:+ "var count = 1;")
    ("  Line 2: Use explicit type instead of 'var'. " +:+
     "Lextech standard forbids var usage.").
Proof.
  apply (line_checks_attributed elements
           ("int total = 0;" +:+ nl +:+ "var count = 1;") "src/Totals.cs").
  vm_compute. left.
Defined.

(** * Further properties of the scripts *)

(** ** Loops that append nothing *)

Lemma for_enumerate_stable {St Out : Type}
    (body : St → nat → string → St * list Out) st start lines :
  (∀ i line, line ∈ lines → body st i line = (st, [])) →
  for_enumerate body st start lines = [].
Proof.
  revert start. induction lines as [|l lines IH]; intros start Hb; [done|].
  cbn. rewrite (Hb start l) by left. cbn. apply IH.
  intros i line Hl. apply Hb. by right.
Qed.

Lemma for_enumerate_raising_stable {St Out : Type}
    (body : St → nat → string → result (St * list Out)) st start lines :
  (∀ i line, line ∈ lines → body st i line = Ok (st, [])) →
  for_enumerate_raising body st start lines = Ok ([] : list Out).
Proof.
  revert start. induction lines as [|l lines IH]; intros start Hb; [done|].
  cbn. rewrite (Hb start l) by left. cbn [mbind result_bind].
  rewrite IH; [done|]. intros i line Hl. apply Hb. by right.
Qed.

Lemma for_each_line_nothing {Out : Type} (body : nat → string → list Out)
    start lines :
  (∀ i line, line ∈ lines → body i line = []) →
  for_each_line body start lines = [].
Proof.
  intros Hb. apply for_enumerate_stable. intros i line Hl. by rewrite Hb.
Qed.

(** Settle a statement about every line of a text that is given in full. *)
Ltac each_line :=
  let line := fresh "line" in
  let Hl := fresh "Hl" in
  intros line Hl; vm_compute in Hl;
  repeat (apply elem_of_cons in Hl as [->|Hl]; [reflexivity|]);
  by apply elem_of_nil in Hl.

(** ** Patterns that cannot match *)

Lemma Char_eqb_refl a : Char.eqb a a = true.
Proof. by apply Char_eqb_eq. Qed.

Lemma startswith_empty s : Str.startswith s "" = true.
Proof. by destruct s. Qed.

Section MatcherFacts.
Import Re.

(** A literal that is not a prefix of the subject does not match. *)
Lemma lit_not_prefix {R : Type} p prev s
    (k : option ascii → string → option R) :
  Str.startswith s p = false → lit false p prev s k = None.
Proof.
  revert prev s. induction p as [|a p IH]; intros prev s; [by destruct s|].
  destruct s as [|c s]; [by cbn|]. cbn [Str.startswith lit].
  unfold atom_match_ic. cbn [atom_match andb orb].
  rewrite orb_false_r.
  destruct (Char.eqb a c); [apply IH|done].
Qed.

(** A pattern that opens with the character [c] does not match a subject
    that opens otherwise. *)
Lemma match_here_first_char c r prev s :
  head s ≠ Some c → match_here false (Seq (ch c) r) prev s = None.
Proof.
  intros Hh. unfold match_here, ch. cbn [rmatch].
  destruct s as [|a s]; [done|].
  cbn [cclass_match existsb]. unfold atom_match_ic. cbn [atom_match andb].
  rewrite !orb_false_r.
  destruct (Char.eqb c a) eqn:Hc; [|done].
  apply Char_eqb_eq in Hc as ->. by destruct Hh.
Qed.

Lemma head_count c s : Str.count c s = 0 → head s ≠ Some c.
Proof.
  destruct s as [|a s]; [done|]. cbn. intros Hc [= ->].
  by rewrite Char_eqb_refl in Hc.
Qed.

Lemma count_tail c a s : Str.count c (String a s) = 0 → Str.count c s = 0.
Proof. cbn. lia. Qed.

Lemma search_from_first_char c r prev s :
  Str.count c s = 0 → search_from false (Seq (ch c) r) prev s = None.
Proof.
  revert prev. induction s as [|a s IH]; intros prev Hc.
  - cbn [search_from]. by rewrite match_here_first_char.
  - cbn [search_from].
    rewrite match_here_first_char by (by apply head_count).
    apply IH. by eapply count_tail.
Qed.

Lemma findall_go_first_char c r prev s :
  Str.count c s = 0 → findall_go false (Seq (ch c) r) 0 prev s = [].
Proof.
  revert prev. induction s as [|a s IH]; intros prev Hc.
  - cbn [findall_go]. by rewrite match_here_first_char.
  - cbn [findall_go].
    rewrite match_here_first_char by (by apply head_count).
    apply IH. by eapply count_tail.
Qed.

Lemma search_from_skip c r pre s :
  Str.count c pre = 0 →
  (∀ prev, search_from false (Seq (ch c) r) prev s = None) →
  ∀ prev, search_from false (Seq (ch c) r) prev (pre +:+ s) = None.
Proof.
  intros Hc Hs. induction pre as [|a pre IH]; intros prev; [apply Hs|].
  change (String a pre +:+ s) with (String a (pre +:+ s)).
  cbn [search_from]. rewrite match_here_first_char.
  - apply IH. by eapply count_tail.
  - cbn. intros [= ->]. cbn in Hc. by rewrite Char_eqb_refl in Hc.
Qed.

Lemma space_or_at c s :
  at_sign_next (String c s) →
  (Char.is_space c = true ∧ at_sign_next s) ∨
  (Char.is_space c = false ∧ c = "@"%char).
Proof.
  unfold at_sign_next. cbn [Str.lstrip].
  destruct (Char.is_space c); [by left|]. right. split; [done|].
  cbn in H. apply andb_true_iff in H as [H _]. by apply Char_eqb_eq in H.
Qed.

(** White space followed by an at sign, before a continuation that wants
    something else: the run of white space fails wherever it stops. *)
Lemma star_space_gap {R : Type} (k : option ascii → string → option R) :
  (∀ p s, at_sign_next s → k p s = None) →
  ∀ prev s, at_sign_next s → star false Re.s prev s k = None.
Proof.
  intros Hk prev s. revert prev. induction s as [|c s IH]; intros prev Hs.
  - by apply Hk.
  - cbn [star]. unfold Re.s. cbn [cclass_match existsb].
    unfold atom_match_ic. cbn [atom_match andb]. rewrite !orb_false_r.
    destruct (space_or_at _ _ Hs) as [[-> Hs']|[-> ->]].
    + rewrite IH by done. by apply Hk.
    + by apply Hk.
Qed.

Lemma at_sign_next_head s c :
  at_sign_next s → Char.is_space c = false → c ≠ "@"%char → head s ≠ Some c.
Proof.
  destruct s as [|a s]; [done|]. intros Hs Hc Hn [= ->].
  destruct (space_or_at _ _ Hs) as [[? _]|[_ ?]]; congruence.
Qed.

Lemma equals_then_gap r prev rest :
  (∀ p s, at_sign_next s → match_here false r p s = None) →
  at_sign_next rest →
  match_here false (Seq (ch "=") (Seq (Star Re.s) r)) prev (String "=" rest)
  = None.
Proof.
  intros Hr Hrest. unfold match_here. cbn [rmatch ch].
  assert (cclass_match false (OneOf [Lit "="]) "=" = true) as -> by done.
  by apply star_space_gap.
Qed.

Lemma eq_string_gap prev rest :
  at_sign_next rest →
  match_here false SqlFormatHook.EQ_STRING prev (String "=" rest) = None.
Proof.
  intros Hr. unfold SqlFormatHook.EQ_STRING. cbn [seq foldr].
  apply equals_then_gap; [|done]. intros p s Hs.
  apply match_here_first_char. by apply at_sign_next_head.
Qed.

Lemma eq_number_gap prev rest :
  at_sign_next rest →
  match_here false SqlFormatHook.EQ_NUMBER prev (String "=" rest) = None.
Proof.
  intros Hr. unfold SqlFormatHook.EQ_NUMBER. cbn [seq foldr].
  apply equals_then_gap; [|done]. intros p s Hs.
  unfold match_here. cbn [rmatch]. destruct s as [|c s]; [done|].
  unfold Re.d. cbn [cclass_match existsb].
  unfold atom_match_ic. cbn [atom_match andb]. rewrite !orb_false_r.
  destruct (Char.is_digit c) eqn:Hd; [|done]. exfalso.
  destruct (space_or_at _ _ Hs) as [[Hsp _]|[_ ->]]; [|done].
  revert Hd Hsp. clear.
  destruct c as [[] [] [] [] [] [] [] []]; vm_compute; congruence.
Qed.
End MatcherFacts.

(** ** The normaliser *)

Lemma mapM_fragments_ok es fragments :
  Forall2 fragment_of es fragments →
  mapM (λ e, get e "new_string" (JStr "")) es = Ok (JStr <$> fragments).
Proof.
  induction 1 as [|e f es fs (items & -> & Hf) _ IH]; [reflexivity|].
  cbn [mapM]. cbn [get mbind result_bind]. rewrite Hf.
  change (mapM ?f es) with (mapM (λ e, get e "new_string" (JStr "")) es) in *.
  by rewrite IH.
Qed.

Lemma mapM_fragments_inv es news parts :
  mapM (λ e, get e "new_string" (JStr "")) es = Ok news →
  mapM join_item news = Ok parts →
  Forall2 fragment_of es parts.
Proof.
  revert news parts. induction es as [|e es IH]; intros news parts.
  - intros [= <-] [= <-]. constructor.
  - cbn [mapM].
    change (mapM ?f es) with (mapM (λ e, get e "new_string" (JStr "")) es).
    destruct e as [| | | | |items]; try done. cbn [get mbind result_bind].
    destruct (mapM _ es) as [news'|] eqn:Hes; [|done].
    cbn [mbind result_bind mret result_ret]. intros [= <-].
    cbn [mapM].
    destruct (default (JStr "") (lookup "new_string" items))
      as [| | |f| |] eqn:Hf; try done.
    cbn [join_item mbind result_bind].
    change (mapM ?f news') with (mapM join_item news').
    destruct (mapM join_item news') as [parts'|] eqn:Hn; [|done].
    cbn [mbind result_bind mret result_ret]. intros [= <-].
    constructor; [by exists items|]. by eapply IH.
Qed.

(** The normaliser on a dict whose [tool_input] is a dict. *)
Lemma extract_dict items ti :
  default (JObj []) (lookup "tool_input" items) = JObj ti →
  extract_file_and_content (JObj items)
  = (content ←
       (if eq_str (tool_name_of items) "Write" then
          Ok (default (JStr "") (lookup "content" ti))
        else if eq_str (tool_name_of items) "Edit" then
          Ok (default (JStr "") (lookup "new_string" ti))
        else if eq_str (tool_name_of items) "MultiEdit" then
          es ← iter (default (JArr []) (lookup "edits" ti));
          news ← mapM (λ e, get e "new_string" (JStr "")) es;
          parts ← mapM join_item news;
          mret (JStr (Str.join nl parts))
        else Ok (JStr ""));
     mret (default (JStr "") (lookup "file_path" ti), content)).
Proof.
  intros Hi. unfold extract_file_and_content, tool_name_of.
  cbn [get mbind result_bind]. rewrite Hi. reflexivity.
Qed.

Lemma multi_edit_not_other items :
  eq_str (tool_name_of items) "MultiEdit" = true →
  eq_str (tool_name_of items) "Write" = false ∧
  eq_str (tool_name_of items) "Edit" = false.
Proof.
  destruct (tool_name_of items); try done. cbn.
  by intros ->%bool_decide_eq_true.
Qed.

(** X1.  The normaliser returns, rather than raises, exactly on a payload
    that is a dict whose [tool_input] (an empty dict when the key is
    missing) is a dict and, when the tool is MultiEdit, whose [edits] (an
    empty list when missing) can be iterated and holds only dicts whose
    [new_string], when present, is a string.  The types of [file_path] and
    of the content of a Write or an Edit play no part. *)
Theorem extract_ok_iff (payload : json) :
  (∃ r, extract_file_and_content payload = Ok r) ↔
  ∃ items ti,
    payload = JObj items ∧
    default (JObj []) (lookup "tool_input" items) = JObj ti ∧
    (eq_str (tool_name_of items) "MultiEdit" = true →
     ∃ fragments, edits_of (default (JArr []) (lookup "edits" ti)) fragments).
Proof.
  split.
  - intros [r Hr]. destruct payload as [| | | | |items]; try done.
    destruct (default (JObj []) (lookup "tool_input" items))
      as [| | | | |ti] eqn:Hi;
      try (unfold extract_file_and_content in Hr;
           cbn [get mbind result_bind] in Hr; rewrite Hi in Hr; done).
    exists items, ti. split; [done|]. split; [done|]. intros Hm.
    rewrite (extract_dict _ _ Hi) in Hr.
    destruct (multi_edit_not_other _ Hm) as [Hw He].
    rewrite Hw, He, Hm in Hr.
    destruct (iter _) as [es|] eqn:Hes; [|done]. cbn [mbind result_bind] in Hr.
    destruct (mapM _ es) as [news|] eqn:Hnews; [|done].
    cbn [mbind result_bind] in Hr.
    destruct (mapM join_item news) as [parts|] eqn:Hparts; [|done].
    exists parts, es. split; [done|]. by eapply mapM_fragments_inv.
  - intros (items & ti & -> & Hi & Hm). rewrite (extract_dict _ _ Hi).
    destruct (eq_str (tool_name_of items) "Write"); [by eexists|].
    destruct (eq_str (tool_name_of items) "Edit"); [by eexists|].
    destruct (eq_str (tool_name_of items) "MultiEdit"); [|by eexists].
    destruct (Hm eq_refl) as (fragments & es & Hes & Hfr).
    rewrite Hes. cbn [mbind result_bind].
    rewrite (mapM_fragments_ok _ _ Hfr). cbn [mbind result_bind].
    rewrite mapM_join_item. by eexists.
Qed.

Lemma extract_ok_iff_witness :
  ∃ items ti,
    edit_payload "src/Order.cs" "sealed" = JObj items ∧
    default (JObj []) (lookup "tool_input" items) = JObj ti ∧
    (eq_str (tool_name_of items) "MultiEdit" = true →
     ∃ fragments, edits_of (default (JArr []) (lookup "edits" ti)) fragments).
Proof.
  apply (proj1 (extract_ok_iff (edit_payload "src/Order.cs" "sealed"))).
  eexists. reflexivity.
Defined.

(** X2.  The text of a MultiEdit is its fragments in order, joined by
    newlines; an edit without [new_string] counts as an empty fragment, and
    the path is [file_path], or empty when that is missing. *)
Theorem multi_edit_text
    (items ti : list (string * json)) (fragments : list string) :
  eq_str (tool_name_of items) "MultiEdit" = true →
  default (JObj []) (lookup "tool_input" items) = JObj ti →
  edits_of (default (JArr []) (lookup "edits" ti)) fragments →
  extract_file_and_content (JObj items)
  = Ok (default (JStr "") (lookup "file_path" ti),
        JStr (Str.join nl fragments)).
Proof.
  intros Hm Hi (es & Hes & Hfr). rewrite (extract_dict _ _ Hi).
  destruct (multi_edit_not_other _ Hm) as [-> ->].
  rewrite Hm, Hes. cbn [mbind result_bind].
  rewrite (mapM_fragments_ok _ _ Hfr). cbn [mbind result_bind].
  rewrite mapM_join_item. reflexivity.
Qed.

Lemma multi_edit_text_witness :
  extract_file_and_content
    (JObj [("tool_input",
            JObj [("edits",
                   JArr [JObj [("new_string", JStr "int a;")];
                         JObj [("old_string", JStr "x")];
                         JObj [("new_string", JStr "int b;")]])]);
           ("tool_name", JStr "MultiEdit")])
  = Ok (JStr "", JStr ("int a;" +:+ nl +:+ "" +:+ nl +:+ "int b;")).
Proof.
  apply (multi_edit_text
           [("tool_input",
             JObj [("edits",
                    JArr [JObj [("new_string", JStr "int a;")];
                          JObj [("old_string", JStr "x")];
                          JObj [("new_string", JStr "int b;")]])]);
            ("tool_name", JStr "MultiEdit")]
           [("edits",
             JArr [JObj [("new_string", JStr "int a;")];
                   JObj [("old_string", JStr "x")];
                   JObj [("new_string", JStr "int b;")]])]
           ["int a;"; ""; "int b;"]).
  - reflexivity.
  - reflexivity.
  - eexists. split; [reflexivity|].
    repeat constructor; eexists; (split; [reflexivity|reflexivity]).
Defined.

(** ** Files outside the scope of a hook *)

(** X3.  A hook does not look at the text of a file outside its scope, so
    it lets the file through whatever the text is, even a text that is not
    a string: the SQL hook outside [.sql] files of an infrastructure path,
    the layer, coding-standards and logging hooks outside [.cs] files, the
    layer hook also on a path of no layer, and the endpoint hook outside
    endpoint files. *)
Theorem out_of_scope_let_through
    (set_iter : gset string → list string) (payload : json) (p : string)
    (content : json) :
  extract_file_and_content payload = Ok (JStr p, content) →
  (Str.endswith p ".sql" = false ∨
   Str.contains "Infrastructure" p = false ∧
   Str.contains "infrastructure" p = false →
   SqlFormatHook.main set_iter (Some payload) = Ok (Outcome 0 [])) ∧
  (Str.endswith p ".cs" = false →
   LayerDependencyHook.main (Some payload) = Ok (Outcome 0 []) ∧
   CodingStandardsHook.main (Some payload) = Ok (Outcome 0 []) ∧
   SerilogEnforcerHook.main (Some payload) = Ok (Outcome 0 [])) ∧
  (LayerDependencyHook.detect_layer p = None →
   LayerDependencyHook.main (Some payload) = Ok (Outcome 0 [])) ∧
  (OpenapiContractHook.is_endpoint_file p = false →
   OpenapiContractHook.main (Some payload) = Ok (Outcome 0 [])).
Proof.
  intros He.
  unfold SqlFormatHook.main, LayerDependencyHook.main,
    CodingStandardsHook.main, OpenapiContractHook.main,
    SerilogEnforcerHook.main.
  rewrite He. cbn [mbind result_bind str_method str_arg].
  split; [|split; [|split]].
  - intros [-> | [-> ->]]; [done|]. by destruct (Str.endswith p ".sql").
  - by intros ->.
  - intros ->. destruct (Str.endswith p ".cs"); [|done].
    by destruct (truthy content).
  - by intros ->.
Qed.

Lemma out_of_scope_let_through_witness :
  SqlFormatHook.main elements
    (Some (JObj [("tool_name", JStr "Write");
                 ("tool_input",
                  JObj [("file_path", JStr "db/Reports/orders.sql");
                        ("content", JArr [JNum 1])])]))
  = Ok (Outcome 0 []).
Proof.
  apply (proj1 (out_of_scope_let_through elements
                  (JObj [("tool_name", JStr "Write");
                         ("tool_input",
                          JObj [("file_path", JStr "db/Reports/orders.sql");
                                ("content", JArr [JNum 1])])])
                  "db/Reports/orders.sql" (JArr [JNum 1]) eq_refl)).
  right. split; reflexivity.
Defined.

(** ** The layer hook *)

Lemma using_needs_keyword s :
  Str.startswith s "using" = false →
  Re.match_ false LayerDependencyHook.USING s = None ∧
  Re.match_ false LayerDependencyHook.USING_ALIAS s = None.
Proof.
  intros Hs. unfold Re.match_, Re.match_here.
  split; cbn [LayerDependencyHook.USING LayerDependencyHook.USING_ALIAS
         Re.seq foldr Re.rmatch]; by rewrite lit_not_prefix.
Qed.

(** X4.  A text none of whose lines, once stripped, starts with [using]
    holds no import, and the layer hook lets it through in every layer. *)
Theorem no_using_no_report (payload : json) (p c : string) :
  extract_file_and_content payload = Ok (JStr p, JStr c) →
  (∀ line, line ∈ Str.splitlines c →
           Str.startswith (Str.strip line) "using" = false) →
  LayerDependencyHook.extract_usings c = [] ∧
  LayerDependencyHook.main (Some payload) = Ok (Outcome 0 []).
Proof.
  intros Hevent Hlines.
  assert (LayerDependencyHook.extract_usings c = []) as Hu.
  { apply for_each_line_nothing. intros i line Hl.
    destruct (using_needs_keyword _ (Hlines line Hl)) as [H1 H2].
    cbn beta zeta. by rewrite H1, H2. }
  split; [done|].
  rewrite (layer_main_event _ _ _ Hevent), Hu.
  destruct (_ && _); [|done].
  destruct (LayerDependencyHook.detect_layer p) as [layer|]; [|done].
  unfold LayerDependencyHook.check_layer. by repeat case_bool_decide.
Qed.

Lemma no_using_no_report_witness :
  LayerDependencyHook.extract_usings
    ("namespace Shop.Domain;" +:+ nl +:+ "// using Dapper;" +:+ nl +:+
     "public class Order { }") = [] ∧
  LayerDependencyHook.main
    (Some (write_payload "src/Shop.Domain/Order.cs"
             ("namespace Shop.Domain;" +:+ nl +:+ "// using Dapper;" +:+ nl +:+
              "public class Order { }")))
  = Ok (Outcome 0 []).
Proof.
  apply (no_using_no_report
           (write_payload "src/Shop.Domain/Order.cs"
              ("namespace Shop.Domain;" +:+ nl +:+ "// using Dapper;" +:+
               nl +:+ "public class Order { }"))
           "src/Shop.Domain/Order.cs"
           ("namespace Shop.Domain;" +:+ nl +:+ "// using Dapper;" +:+ nl +:+
            "public class Order { }")).
  - reflexivity.
  - each_line.
Defined.

Lemma detect_layer_in_names table p l :
  LayerDependencyHook.detect_layer_in table p = Some l → l ∈ table.*1.
Proof.
  induction table as [|[l0 pats] table IH]; [done|].
  cbn [LayerDependencyHook.detect_layer_in].
  destruct (existsb _ pats).
  - intros [= ->]. left.
  - intros H. right. by apply IH.
Qed.

(** X5.  A layer, when one is detected, is one of the four names, and a
    file of the Infrastructure layer or of no layer has no layer
    diagnostics: the hook lets it through whatever it imports. *)
Theorem unchecked_layers (payload : json) (p c : string) :
  extract_file_and_content payload = Ok (JStr p, JStr c) →
  (∀ l, LayerDependencyHook.detect_layer p = Some l →
        l ∈ ["Domain"; "Application"; "Infrastructure"; "Api"]) ∧
  (LayerDependencyHook.detect_layer p = None ∨
   LayerDependencyHook.detect_layer p = Some "Infrastructure" →
   layer_diagnostics p c = [] ∧
   LayerDependencyHook.main (Some payload) = Ok (Outcome 0 [])).
Proof.
  intros Hevent. split.
  - intros l Hl. by apply detect_layer_in_names in Hl.
  - intros Hl. rewrite (layer_main_event _ _ _ Hevent).
    unfold layer_diagnostics.
    destruct (_ && _); [|done]. by destruct Hl as [-> | ->].
Qed.

Lemma unchecked_layers_witness :
  layer_diagnostics "src/Shop.Infrastructure/Data/OrderRepository.cs"
    "using Shop.Api.Controllers;" = [] ∧
  LayerDependencyHook.main
    (Some (write_payload "src/Shop.Infrastructure/Data/OrderRepository.cs"
             "using Shop.Api.Controllers;"))
  = Ok (Outcome 0 []).
Proof.
  apply (proj2 (unchecked_layers
                  (write_payload
                     "src/Shop.Infrastructure/Data/OrderRepository.cs"
                     "using Shop.Api.Controllers;")
                  "src/Shop.Infrastructure/Data/OrderRepository.cs"
                  "using Shop.Api.Controllers;" eq_refl)).
  right. reflexivity.
Defined.

(** X6.  A file of the Api layer is never blocked: every diagnostic of the
    layer hook on it is a WARN and the hook ends with status 0. *)
Theorem api_layer_never_blocks (payload : json) (p c : string) :
  extract_file_and_content payload = Ok (JStr p, JStr c) →
  LayerDependencyHook.detect_layer p = Some "Api" →
  ∃ o, LayerDependencyHook.main (Some payload) = Ok o ∧
       exit_code o = 0%Z ∧
       ∀ d, d ∈ layer_diagnostics p c → d.1 = "WARN".
Proof.
  intros Hevent Hl.
  assert (∀ d, d ∈ layer_diagnostics p c → d.1 = "WARN") as Hw.
  { intros d. unfold layer_diagnostics. rewrite Hl.
    destruct (_ && _); [|by intros ?%elem_of_nil].
    apply check_api_layer_level. }
  eexists. split; [apply (layer_main_event _ _ _ Hevent)|]. split; [|done].
  rewrite Hl. destruct (Str.endswith p ".cs" && Str.nonempty c) eqn:Hg; [|done].
  destruct (layer_report_exit p "Api"
              (LayerDependencyHook.check_layer "Api"
                 (LayerDependencyHook.extract_usings c) p)) as [Hiff [H2|H0]];
    [|done].
  apply Hiff in H2 as (d & Hd & Hb).
  assert (d.1 = "WARN"); [|congruence].
  apply Hw. unfold layer_diagnostics. by rewrite Hg, Hl.
Qed.

Lemma api_layer_never_blocks_witness :
  ∃ o, LayerDependencyHook.main
         (Some (write_payload "src/Shop.Api/OrderEndpoints.cs"
                  "using Shop.Infrastructure.Persistence;")) = Ok o ∧
       exit_code o = 0%Z ∧
       ∀ d, d ∈ layer_diagnostics "src/Shop.Api/OrderEndpoints.cs"
                  "using Shop.Infrastructure.Persistence;" → d.1 = "WARN".
Proof.
  apply (api_layer_never_blocks
           (write_payload "src/Shop.Api/OrderEndpoints.cs"
              "using Shop.Infrastructure.Persistence;")
           "src/Shop.Api/OrderEndpoints.cs"
           "using Shop.Infrastructure.Persistence;");
    reflexivity.
Defined.

(** X7.  In a file of the Domain layer an import whose namespace holds one
    of the forbidden markers anywhere in it blocks the edit: the hook ends
    with status 2 and prints the BLOCK that names the import and its
    line. *)
Theorem domain_layer_blocks
    (payload : json) (p c : string) (ln : nat) (ns forbidden : string) :
  extract_file_and_content payload = Ok (JStr p, JStr c) →
  Str.endswith p ".cs" = true →
  LayerDependencyHook.detect_layer p = Some "Domain" →
  (ln, ns) ∈ LayerDependencyHook.extract_usings c →
  forbidden ∈ LayerDependencyHook.DOMAIN_FORBIDDEN →
  Str.contains forbidden ns = true →
  ∃ o, LayerDependencyHook.main (Some payload) = Ok o ∧ exit_code o = 2%Z ∧
       ("BLOCK", domain_message ln ns) ∈ layer_diagnostics p c ∧
       with_level ("BLOCK", domain_message ln ns) ∈ stderr o.
Proof.
  intros Hevent Hcs Hl Hu Hf Hc.
  assert (Str.nonempty c = true) as Hne.
  { destruct c; [|done]. by apply elem_of_nil in Hu. }
  set (d := ("BLOCK", domain_message ln ns) : diagnostic).
  assert (layer_diagnostics p c
          = LayerDependencyHook.check_layer "Domain"
              (LayerDependencyHook.extract_usings c) p) as Heq.
  { unfold layer_diagnostics. by rewrite Hcs, Hne, Hl. }
  assert (d ∈ layer_diagnostics p c) as Hd.
  { rewrite Heq. unfold LayerDependencyHook.check_layer.
    rewrite bool_decide_eq_true_2 by done.
    unfold LayerDependencyHook.check_domain_layer.
    apply list_elem_of_bind. exists (ln, ns). split; [|done].
    apply list_elem_of_bind. exists forbidden. split; [|done].
    rewrite Hc. left. }
  eexists. split; [apply (layer_main_event _ _ _ Hevent)|].
  rewrite Hcs, Hne, Hl. cbn [andb]. rewrite <-Heq.
  destruct (layer_report_decides p "Domain" (layer_diagnostics p c))
    as (Hiff & _ & Hshown & _).
  split; [apply Hiff; by exists d|].
  split; [done|]. by apply Hshown.
Qed.

Lemma domain_layer_blocks_witness :
  ∃ o, LayerDependencyHook.main
         (Some (write_payload "src/Shop.Domain/Order.cs"
                  "using System.Data.SqlClient;")) = Ok o ∧
       exit_code o = 2%Z ∧
       ("BLOCK", domain_message 1 "System.Data.SqlClient")
       ∈ layer_diagnostics "src/Shop.Domain/Order.cs"
           "using System.Data.SqlClient;" ∧
       with_level ("BLOCK", domain_message 1 "System.Data.SqlClient")
       ∈ stderr o.
Proof.
  apply (domain_layer_blocks
           (write_payload "src/Shop.Domain/Order.cs"
              "using System.Data.SqlClient;")
           "src/Shop.Domain/Order.cs" "using System.Data.SqlClient;"
           1 "System.Data.SqlClient" "System.Data").
  - reflexivity.
  - reflexivity.
  - reflexivity.
  - vm_compute. left.
  - vm_compute. do 4 right. left.
  - reflexivity.
Defined.

(** The first piece of a split is a prefix of the string. *)
Lemma split_head_prefix sep s x xs :
  Str.split sep s = x :: xs → Str.startswith s x = true.
Proof.
  revert x xs. induction s as [|c s IH]; intros x xs; cbn [Str.split].
  - by intros [= <- <-].
  - destruct (Char.eqb c sep).
    + by intros [= <- <-].
    + destruct (Str.split sep s) as [|y ys] eqn:Hs;
        [by destruct (split_nonempty sep s)|].
      intros [= <- <-]. cbn [Str.startswith].
      rewrite Char_eqb_refl. by eapply IH.
Qed.

(** Every piece of a split occurs in the string. *)
Lemma split_piece_contained sep s piece :
  piece ∈ Str.split sep s → Str.contains piece s = true.
Proof.
  revert piece. induction s as [|c s IH]; intros piece; cbn [Str.split].
  - by intros ->%list_elem_of_singleton.
  - cbn [Str.contains]. destruct (Char.eqb c sep).
    + intros [->|H]%elem_of_cons; [done|].
      rewrite (IH _ H). apply orb_true_r.
    + destruct (Str.split sep s) as [|y ys] eqn:Hs;
        [by destruct (split_nonempty sep s)|].
      intros [->|H]%elem_of_cons.
      * cbn [Str.startswith]. rewrite Char_eqb_refl.
        by rewrite (split_head_prefix _ _ _ _ Hs).
      * rewrite (IH piece); [apply orb_true_r|by right].
Qed.

Lemma length_bind_when {A B : Type} (P : A → bool) (x : A → B) (l : list A) :
  length (l ≫= λ a, when (P a) (x a)) = length (filter (λ a, P a = true) l).
Proof.
  induction l as [|a l IH]; [done|]. cbn [mbind list_bind].
  rewrite length_app, IH, filter_cons. unfold when.
  destruct (P a) eqn:HP; case_decide; try done; congruence.
Qed.

(** X8.  The Domain rule is at least as strict as the Application rule:
    a namespace with the piece [Infrastructure] between its dots holds
    [Infrastructure] as a substring, so on the same imports the Domain check
    reports no fewer violations, and some whenever the Application check
    does.  It is strictly stricter: [Foo.InfrastructureHelpers] passes in
    Application and is blocked in Domain. *)
Theorem domain_at_least_application
    (usings : list (nat * string)) (p : string) :
  length (LayerDependencyHook.check_application_layer usings p)
  ≤ length (LayerDependencyHook.check_domain_layer usings p) ∧
  (LayerDependencyHook.check_application_layer usings p ≠ [] →
   LayerDependencyHook.check_domain_layer usings p ≠ []) ∧
  LayerDependencyHook.check_application_layer
    [(1, "Foo.InfrastructureHelpers")] p = [] ∧
  LayerDependencyHook.check_domain_layer
    [(1, "Foo.InfrastructureHelpers")] p ≠ [].
Proof.
  assert (length (LayerDependencyHook.check_application_layer usings p)
          ≤ length (LayerDependencyHook.check_domain_layer usings p)) as Hle.
  { rewrite check_application_layer_import.
    unfold LayerDependencyHook.check_domain_layer.
    induction usings as [|[ln ns] usings IH]; [done|].
    cbn [mbind list_bind snd fst]. rewrite !length_app.
    apply Nat.add_le_mono; [|exact IH].
    case_bool_decide as Hseg; [|cbn; lia].
    apply split_piece_contained in Hseg.
    unfold LayerDependencyHook.DOMAIN_FORBIDDEN. cbn [mbind list_bind].
    rewrite Hseg. cbn. lia. }
  split; [done|]. split; [|split; [reflexivity|done]].
  intros Ha Hd. rewrite Hd in Hle.
  destruct (LayerDependencyHook.check_application_layer usings p);
    [done|cbn in Hle; lia].
Qed.

Lemma domain_at_least_application_witness :
  LayerDependencyHook.check_domain_layer
    [(3, "Acme.Infrastructure.Data")] "src/Domain/Order.cs" ≠ [].
Proof.
  apply (proj1 (proj2 (domain_at_least_application
                         [(3, "Acme.Infrastructure.Data")]
                         "src/Domain/Order.cs"))).
  vm_compute. discriminate.
Defined.

(** X9.  The Domain check does not stop at the first marker it finds: an
    import draws one BLOCK for every marker of the list that occurs in its
    namespace, so the number of violations is the sum of these counts, and
    [Microsoft.EntityFrameworkCore.Infrastructure] is reported twice. *)
Theorem domain_one_block_per_marker
    (usings : list (nat * string)) (p : string) :
  length (LayerDependencyHook.check_domain_layer usings p)
  = sum_list ((λ u, domain_markers_in u.2) <$> usings) ∧
  domain_markers_in "Microsoft.EntityFrameworkCore.Infrastructure" = 2.
Proof.
  split; [|reflexivity].
  unfold LayerDependencyHook.check_domain_layer.
  induction usings as [|[ln ns] usings IH]; [done|].
  cbn [mbind list_bind fmap list_fmap sum_list sum_list_with snd].
  rewrite length_app. f_equal; [|exact IH].
  apply (length_bind_when (λ f, Str.contains f ns)).
Qed.

(** ** The SQL hook *)

(** X10.  A text without an at sign has no parameter, and the
    parameter-documentation check says nothing about it. *)
Theorem no_parameters_no_warning
    (set_iter : gset string → list string) (c : string) :
  Str.count "@" c = 0 →
  Re.findall false SqlFormatHook.PARAM c = [] ∧
  SqlFormatHook.check_parameter_documentation set_iter c = [].
Proof.
  intros Hc.
  assert (Re.findall false SqlFormatHook.PARAM c = []) as Hf
    by by apply findall_go_first_char.
  split; [done|]. unfold SqlFormatHook.check_parameter_documentation.
  rewrite Hf. by case_decide.
Qed.

Lemma no_parameters_no_warning_witness :
  Re.findall false SqlFormatHook.PARAM "SELECT id FROM orders WHERE done = 1"
  = [] ∧
  SqlFormatHook.check_parameter_documentation elements
    "SELECT id FROM orders WHERE done = 1" = [].
Proof.
  apply (no_parameters_no_warning elements
           "SELECT id FROM orders WHERE done = 1").
  reflexivity.
Defined.

(** Upper-casing leaves a character that is not a letter alone, and turns
    no other character into it. *)
Lemma upper_keeps_symbol (a c : ascii) :
  Char.is_alpha a = false → Char.eqb a (Char.upper c) = Char.eqb a c.
Proof.
  intros Ha. unfold Char.upper. destruct (Char.is_lower c) eqn:Hl; [|done].
  destruct (Char.eqb a c) eqn:Hac.
  { apply Char_eqb_eq in Hac as ->. unfold Char.is_alpha in Ha.
    rewrite Hl in Ha. by destruct (Char.is_upper c). }
  destruct (Char.eqb a (ascii_of_N _)) eqn:Hau; [exfalso|reflexivity].
  apply Char_eqb_eq in Hau. subst a.
  revert Hl Ha. clear.
  destruct c as [[] [] [] [] [] [] [] []]; vm_compute; congruence.
Qed.

Lemma is_comment_upper s :
  SqlFormatHook.is_comment (Str.upper s) = SqlFormatHook.is_comment s.
Proof.
  unfold SqlFormatHook.is_comment.
  destruct s as [|c [|d s]]; cbn [Str.upper Str.map Str.startswith];
    rewrite ?upper_keeps_symbol, ?startswith_empty by done; reflexivity.
Qed.

(** X11.  A line that, once stripped, starts with [--], [/*] or [*] is
    skipped by both blocking checks and leaves the WHERE state as it was.
    Hence a text made of such lines only is never blocked, whatever the
    lines hold; a line that starts with the star of a select list counts as
    one of them. *)
Theorem comment_lines_never_block
    (set_iter : gset string → list string) (payload : json) (p c : string) :
  extract_file_and_content payload = Ok (JStr p, JStr c) →
  (∀ line, line ∈ Str.splitlines c →
           SqlFormatHook.is_comment (Str.strip line) = true) →
  SqlFormatHook.blockers c = Ok [] ∧
  ∃ o, SqlFormatHook.main set_iter (Some payload) = Ok o ∧ exit_code o = 0%Z.
Proof.
  intros Hevent Hlines.
  assert (SqlFormatHook.blockers c = Ok []) as Hb.
  { unfold SqlFormatHook.blockers,
      SqlFormatHook.check_string_concatenation,
      SqlFormatHook.check_non_parameterized_where. cbn zeta.
    rewrite for_each_line_nothing, for_enumerate_raising_stable; [done| |].
    - intros i line Hl. unfold SqlFormatHook.where_line. cbn zeta.
      by rewrite is_comment_upper, (Hlines line Hl).
    - intros i line Hl. cbn beta zeta. by rewrite (Hlines line Hl). }
  split; [done|]. rewrite (sql_main_event _ _ _ Hevent), Hb.
  destruct (sql_applies p c); [|by eexists].
  cbn [mbind result_bind]. eexists. split; [done|].
  unfold SqlFormatHook.report. by destruct (SqlFormatHook.warnings set_iter c).
Qed.

Lemma comment_lines_never_block_witness :
  SqlFormatHook.blockers
    ("-- WHERE name = 'bob'" +:+ nl +:+
     "* FROM users WHERE name = 'bob' + @suffix") = Ok [] ∧
  ∃ o, SqlFormatHook.main elements
         (Some (write_payload "db/Infrastructure/users.sql"
                  ("-- WHERE name = 'bob'" +:+ nl +:+
                   "* FROM users WHERE name = 'bob' + @suffix"))) = Ok o ∧
       exit_code o = 0%Z.
Proof.
  apply (comment_lines_never_block elements
           (write_payload "db/Infrastructure/users.sql"
              ("-- WHERE name = 'bob'" +:+ nl +:+
               "* FROM users WHERE name = 'bob' + @suffix"))
           "db/Infrastructure/users.sql"
           ("-- WHERE name = 'bob'" +:+ nl +:+
            "* FROM users WHERE name = 'bob' + @suffix")).
  - reflexivity.
  - each_line.
Defined.

(** X12.  The WHERE check starts outside a clause and enters one only at a
    line that holds the word WHERE, in any letter case: a text without such
    a line draws nothing from it, whatever literals it compares with. *)
Theorem no_where_no_report (c : string) :
  (∀ line, line ∈ Str.splitlines c →
           Str.contains "WHERE" (Str.upper (Str.strip line)) = false) →
  SqlFormatHook.check_non_parameterized_where c = Ok [].
Proof.
  intros Hlines. apply for_enumerate_raising_stable. intros i line Hl.
  unfold SqlFormatHook.where_line. cbn zeta.
  rewrite (Hlines line Hl). by destruct (SqlFormatHook.is_comment _).
Qed.

Lemma no_where_no_report_witness :
  SqlFormatHook.check_non_parameterized_where
    ("UPDATE orders" +:+ nl +:+ "SET status = 5, owner = 'bob'") = Ok [].
Proof.
  apply (no_where_no_report
           ("UPDATE orders" +:+ nl +:+ "SET status = 5, owner = 'bob'")).
  each_line.
Defined.

(** X13.  A line with a single equals sign that is followed, after
    optional white space, by an at sign draws nothing from the WHERE check,
    inside a clause or not: a comparison with a parameter is never
    reported. *)
Theorem parameter_comparison_not_flagged
    (in_where : bool) (i : nat) (line pre rest : string) :
  Str.strip line = pre +:+ "=" +:+ rest →
  Str.count "=" pre = 0 →
  Str.count "=" rest = 0 →
  at_sign_next rest →
  ∃ in_where', SqlFormatHook.where_line in_where i line = Ok (in_where', []).
Proof.
  intros Hline Hpre Hrest Hat.
  assert (Re.search false SqlFormatHook.EQ_STRING (Str.strip line) = None)
    as Hs.
  { rewrite Hline. apply (search_from_skip "="); [done|]. intros prev.
    change ("=" +:+ rest) with (String "=" rest).
    cbn [Re.search_from]. rewrite eq_string_gap by done.
    by apply (search_from_first_char "="). }
  assert (Re.search false SqlFormatHook.EQ_NUMBER (Str.strip line) = None)
    as Hn.
  { rewrite Hline. apply (search_from_skip "="); [done|]. intros prev.
    change ("=" +:+ rest) with (String "=" rest).
    cbn [Re.search_from]. rewrite eq_number_gap by done.
    by apply (search_from_first_char "="). }
  unfold SqlFormatHook.where_line. cbn zeta. rewrite Hs, Hn.
  repeat match goal with |- context [if ?c then _ else _] => destruct c end;
    by eexists.
Qed.

Lemma parameter_comparison_not_flagged_witness :
  ∃ in_where',
    SqlFormatHook.where_line true 4 "  WHERE o.customer_id =  @CustomerId"
    = Ok (in_where', []).
Proof.
  apply (parameter_comparison_not_flagged true 4
           "  WHERE o.customer_id =  @CustomerId"
           "WHERE o.customer_id " "  @CustomerId");
    reflexivity.
Defined.

(** ** The logging hook *)

(** X14.  A text with no line on which the logger-call pattern is found
    draws no logging diagnostic, from either check: the interpolation check
    looks at such lines only, and the sensitive-data check never enters a
    call. *)
Theorem no_logger_call_no_diagnostic (c : string) :
  (∀ line, line ∈ Str.splitlines c →
           Re.search true SerilogEnforcerHook.LOGGER_CALL_PATTERN line = None) →
  SerilogEnforcerHook.check_string_interpolation c = [] ∧
  SerilogEnforcerHook.check_pii_parameters c = [].
Proof.
  intros Hlines. split.
  - apply for_each_line_nothing. intros i line Hl. cbn beta zeta.
    rewrite (Hlines line Hl). by destruct (SerilogEnforcerHook.is_comment _).
  - apply for_enumerate_stable. intros i line Hl.
    unfold SerilogEnforcerHook.pii_line.
    rewrite (Hlines line Hl). by destruct (SerilogEnforcerHook.is_comment _).
Qed.

Lemma no_logger_call_no_diagnostic_witness :
  SerilogEnforcerHook.check_string_interpolation
    ("catalog.Find(id);" +:+ nl +:+ "var s = new {Password = pw, token: t};")
  = [] ∧
  SerilogEnforcerHook.check_pii_parameters
    ("catalog.Find(id);" +:+ nl +:+ "var s = new {Password = pw, token: t};")
  = [].
Proof.
  apply (no_logger_call_no_diagnostic
           ("catalog.Find(id);" +:+ nl +:+
            "var s = new {Password = pw, token: t};")).
  each_line.
Defined.

Lemma pii_line_in_open_call st i line :
  in_open_call st → in_open_call (SerilogEnforcerHook.pii_line st i line).1.
Proof.
  destruct st as [in_call depth].
  unfold in_open_call, SerilogEnforcerHook.pii_line.
  intros Hst.
  destruct (SerilogEnforcerHook.is_comment _); [done|].
  destruct (is_some _).
  - cbn [fst snd]. destruct (_ <=? 0)%Z eqn:Hd; cbn [fst snd]; [done|].
    intros _. by apply Z.leb_gt in Hd.
  - destruct in_call; cbn [fst snd]; [|done].
    destruct (_ <=? 0)%Z eqn:Hd; cbn [fst snd]; [done|].
    intros _. by apply Z.leb_gt in Hd.
Qed.

(** X15.  The sensitive-data check scans a line only when the line holds a
    logger call or the loop is inside one, and after any lines the loop is
    inside a call only while the parentheses counted since the call opened
    are unbalanced: once they balance, later lines are not scanned until
    the next call. *)
Theorem pii_scan_scope
    (lines : list string) (start i : nat) (st : bool * Z) (line : string) :
  in_open_call
    (loop_state SerilogEnforcerHook.pii_line (false, 0%Z) start lines) ∧
  ((SerilogEnforcerHook.pii_line st i line).2 ≠ [] →
   st.1 = true ∨
   is_some (Re.search true SerilogEnforcerHook.LOGGER_CALL_PATTERN line)
   = true).
Proof.
  split.
  - assert (∀ st0, in_open_call st0 →
              in_open_call
                (loop_state SerilogEnforcerHook.pii_line st0 start lines))
      as Hinv.
    { revert start. induction lines as [|l lines IH]; intros start st0 H0;
        [done|]. cbn [loop_state]. apply IH. by apply pii_line_in_open_call. }
    apply Hinv. by intros [=].
  - destruct st as [in_call depth]. unfold SerilogEnforcerHook.pii_line.
    destruct (SerilogEnforcerHook.is_comment _); [done|].
    destruct (is_some _); [by right|].
    destruct in_call; [by left|done].
Qed.

Lemma pii_scan_scope_witness :
  (false, 0%Z).1 = true ∨
  is_some (Re.search true SerilogEnforcerHook.LOGGER_CALL_PATTERN
             ("_logger.LogInformation(" +:+ dquote +:+ "{Password}" +:+
              dquote +:+ ", p);"))
  = true.
Proof.
  apply (proj2 (pii_scan_scope [] 1 1 (false, 0%Z)
                  ("_logger.LogInformation(" +:+ dquote +:+ "{Password}" +:+
                   dquote +:+ ", p);"))).
  vm_compute. discriminate.
Defined.

(** X16.  The quick test for logger usage is not implied by the
    logger-call pattern: the pattern allows white space before the dot, the
    quick test does not.  On a call written with a space before the dot the
    checks would report the interpolation, yet the quick test fails and the
    hook prints nothing, for every path. *)
Theorem bail_out_hides_spaced_call (p : string) :
  ¬ (∀ c, SerilogEnforcerHook.all_warnings c ≠ [] →
          SerilogEnforcerHook.has_logger_usage c = true) ∧
  SerilogEnforcerHook.has_logger_usage spaced_call = false ∧
  SerilogEnforcerHook.all_warnings spaced_call ≠ [] ∧
  SerilogEnforcerHook.main (Some (write_payload p spaced_call))
  = Ok (Outcome 0 []).
Proof.
  split; [|split; [reflexivity|split; [done|]]].
  - intros H. by specialize (H spaced_call ltac:(done)).
  - rewrite (serilog_main_event _ _ _ (extract_write p _)).
    assert (SerilogEnforcerHook.has_logger_usage spaced_call = false) as ->
      by reflexivity.
    by rewrite andb_false_r.
Qed.

(** ** The coding-standards hook *)

Lemma public_needed s :
  Str.startswith s "public" = false →
  Re.match_ false CodingStandardsHook.PUBLIC_TYPE s = None ∧
  Re.match_ false CodingStandardsHook.PUBLIC_METHOD s = None ∧
  Re.match_ false CodingStandardsHook.TYPE_DECL s = None.
Proof.
  intros Hs. unfold Re.match_, Re.match_here.
  repeat split;
    cbn [CodingStandardsHook.PUBLIC_TYPE CodingStandardsHook.PUBLIC_METHOD
         CodingStandardsHook.TYPE_DECL Re.seq foldr Re.rmatch];
    by rewrite lit_not_prefix.
Qed.

(** X17.  The documentation check and the sealed-record check see only
    declarations that start with [public]: a text none of whose stripped
    lines starts with it draws nothing from either, so a command or query
    declared internal, or without a modifier, is not held to the
    sealed-record rule. *)
Theorem public_declarations_only (c : string) :
  (∀ line, line ∈ Str.splitlines c →
           Str.startswith (Str.strip line) "public" = false) →
  CodingStandardsHook.check_xml_docs c = [] ∧
  CodingStandardsHook.check_sealed_record c = [].
Proof.
  intros Hlines. split; apply for_each_line_nothing; intros i line Hl;
    destruct (public_needed _ (Hlines line Hl)) as (H1 & H2 & H3).
  - cbn beta zeta. by rewrite H1, H2.
  - unfold CodingStandardsHook.sealed_record_line. cbn zeta. by rewrite H3.
Qed.

Lemma public_declarations_only_witness :
  CodingStandardsHook.check_xml_docs
    ("internal class FooCommand" +:+ nl +:+ "class BarQuery") = [] ∧
  CodingStandardsHook.check_sealed_record
    ("internal class FooCommand" +:+ nl +:+ "class BarQuery") = [].
Proof.
  apply (public_declarations_only
           ("internal class FooCommand" +:+ nl +:+ "class BarQuery")).
  each_line.
Defined.

Lemma modifier_needed s :
  Str.startswith s "public" = false → Str.startswith s "private" = false →
  Str.startswith s "protected" = false → Str.startswith s "internal" = false →
  Re.match_ false CodingStandardsHook.ASYNC_METHOD s = None.
Proof.
  intros H1 H2 H3 H4. unfold Re.match_, Re.match_here.
  cbn [CodingStandardsHook.ASYNC_METHOD Re.seq Re.alt foldr foldl Re.rmatch].
  by rewrite !lit_not_prefix.
Qed.

(** X18.  The cancellation-token check sees only lines that start with one
    of the four access modifiers: an async method declared without one, or
    with another keyword first, is not checked. *)
Theorem async_methods_need_modifier (c : string) :
  (∀ line, line ∈ Str.splitlines c →
           Str.startswith (Str.strip line) "public" = false ∧
           Str.startswith (Str.strip line) "private" = false ∧
           Str.startswith (Str.strip line) "protected" = false ∧
           Str.startswith (Str.strip line) "internal" = false) →
  CodingStandardsHook.check_cancellation_token c = [].
Proof.
  intros Hlines. apply for_each_line_nothing. intros i line Hl. cbn beta zeta.
  destruct (Hlines line Hl) as (H1 & H2 & H3 & H4).
  by rewrite modifier_needed.
Qed.

Lemma async_methods_need_modifier_witness :
  CodingStandardsHook.check_cancellation_token
    ("async Task Run()" +:+ nl +:+ "static async Task Main(string[] args)")
  = [].
Proof.
  apply (async_methods_need_modifier
           ("async Task Run()" +:+ nl +:+
            "static async Task Main(string[] args)")).
  intros line Hl; vm_compute in Hl;
    repeat (apply elem_of_cons in Hl as [->|Hl]; [by repeat split|]);
    by apply elem_of_nil in Hl.
Defined.

(** ** The endpoint hook *)

Lemma rev_app_rev_app s a b :
  String.rev_app (String.rev_app s a) b = String.rev_app a (s +:+ b).
Proof.
  revert a. induction s as [|c s IH]; intros a; [done|].
  cbn [String.rev_app]. rewrite IH. reflexivity.
Qed.

Lemma append_empty s : s +:+ "" = s.
Proof.
  induction s as [|c s IH]; [done|].
  change (String c s +:+ "") with (String c (s +:+ "")). by rewrite IH.
Qed.

Lemma basename_go_plain cur name :
  Str.count "/" name = 0 →
  Str.basename_go cur name = String.rev (String.rev_app name cur).
Proof.
  revert cur. induction name as [|c name IH]; intros cur Hc; [done|].
  cbn [Str.basename_go String.rev_app].
  destruct (Char.eqb c "/") eqn:Hs.
  - apply Char_eqb_eq in Hs as ->. done.
  - apply IH. cbn in Hc. lia.
Qed.

Lemma basename_go_dir cur dir name :
  Str.basename_go cur (dir +:+ "/" +:+ name) = Str.basename_go "" name.
Proof.
  revert cur. induction dir as [|c dir IH]; intros cur.
  - reflexivity.
  - change (String c dir +:+ "/" +:+ name)
      with (String c (dir +:+ "/" +:+ name)).
    cbn [Str.basename_go]. by destruct (Char.eqb c "/").
Qed.

(** X19.  Whether a file is an endpoint file depends on its name alone,
    not on the directories above it: a file under a directory called
    Endpoints is an endpoint file only if its own name holds [Endpoint] and
    ends in [.cs]. *)
Theorem endpoint_file_by_name (dir name : string) :
  Str.count "/" name = 0 →
  Str.basename (dir +:+ "/" +:+ name) = name ∧
  OpenapiContractHook.is_endpoint_file (dir +:+ "/" +:+ name)
  = Str.contains "Endpoint" name && Str.endswith name ".cs".
Proof.
  intros Hn.
  assert (Str.basename (dir +:+ "/" +:+ name) = name) as Hb.
  { unfold Str.basename. rewrite basename_go_dir, basename_go_plain by done.
    unfold String.rev. rewrite rev_app_rev_app. cbn [String.rev_app].
    apply append_empty. }
  split; [done|]. unfold OpenapiContractHook.is_endpoint_file. by rewrite Hb.
Qed.

Lemma endpoint_file_by_name_witness :
  Str.basename ("src/Api/Endpoints" +:+ "/" +:+ "OrderService.cs")
  = "OrderService.cs" ∧
  OpenapiContractHook.is_endpoint_file
    ("src/Api/Endpoints" +:+ "/" +:+ "OrderService.cs")
  = Str.contains "Endpoint" "OrderService.cs" &&
    Str.endswith "OrderService.cs" ".cs".
Proof.
  apply (endpoint_file_by_name "src/Api/Endpoints" "OrderService.cs").
  reflexivity.
Defined.

(** ** The window of the doc-comment scan *)

Lemma has_doc_no_summary (above : list string) :
  Forall (λ l, Str.startswith (Str.strip l) "/// <summary>" = false ∧
               Str.startswith (Str.strip l) "/// <inheritdoc" = false) above →
  CodingStandardsHook.has_doc above = false.
Proof.
  induction 1 as [|l above [Hs Hi] _ IH]; [done|].
  cbn [CodingStandardsHook.has_doc]. rewrite Hs, Hi. cbn [orb].
  by repeat case_match.
Qed.

Lemma lookback_window (before above after : list string) :
  length above = 4 →
  CodingStandardsHook.lookback (before ++ above ++ after) (length before + 4)
  = reverse above.
Proof.
  intros Hl. unfold CodingStandardsHook.lookback.
  rewrite app_assoc, take_app_length'; [|by rewrite length_app, Hl].
  rewrite reverse_app, take_app_length'; [done|by rewrite length_reverse].
Qed.

(** X22.  The scan for a doc comment looks at the four lines above a
    declaration and no further: when none of these four opens a summary or
    an inheritdoc, a public type declaration is reported as undocumented
    whatever stands above them, so a summary opened five or more lines
    above its declaration is not seen. *)
Theorem distant_summary_not_seen
    (c : string) (before above after : list string) (decl : string) :
  Str.splitlines c = before ++ above ++ decl :: after →
  length above = 4 →
  Forall (λ l, Str.startswith (Str.strip l) "/// <summary>" = false ∧
               Str.startswith (Str.strip l) "/// <inheritdoc" = false) above →
  is_some (Re.match_ false CodingStandardsHook.PUBLIC_TYPE (Str.strip decl))
  = true →
  ("  Line " +:+ pretty (length before + 4 + 1) +:+
   ": Public type declaration missing XML documentation. " +:+
   "Add /// <summary> above the declaration.")
  ∈ CodingStandardsHook.check_xml_docs c.
Proof.
  intros Hc Hl Ha Hd. unfold CodingStandardsHook.check_xml_docs.
  cbn zeta. rewrite Hc.
  rewrite for_each_line_app, for_each_line_app, for_each_line_cons.
  rewrite !elem_of_app. right. right. left. left.
  rewrite Hl, Nat.add_0_l, (lookback_window before above (decl :: after) Hl).
  rewrite Hd, has_doc_no_summary by (by apply Forall_reverse).
  cbn. apply list_elem_of_singleton. reflexivity.
Qed.

Lemma distant_summary_not_seen_witness :
  ("  Line " +:+ pretty (length ["/// <summary>"] + 4 + 1) +:+
   ": Public type declaration missing XML documentation. " +:+
   "Add /// <summary> above the declaration.")
  ∈ CodingStandardsHook.check_xml_docs
      ("/// <summary>" +:+ nl +:+ "/// Handles orders." +:+ nl +:+
       "/// </summary>" +:+ nl +:+ "/// <remarks>Thread safe.</remarks>" +:+
       nl +:+ "[Serializable]" +:+ nl +:+ "public sealed class Orders").
Proof.
  apply (distant_summary_not_seen _ ["/// <summary>"]
           ["/// Handles orders."; "/// </summary>";
            "/// <remarks>Thread safe.</remarks>"; "[Serializable]"]
           [] "public sealed class Orders").
  - reflexivity.
  - reflexivity.
  - repeat constructor.
  - reflexivity.
Defined.

(** ** More on the WHERE loop and on sensitive names *)

(** X20.  A line that holds one of the clause-ending keywords, in any
    letter case, is never examined by the WHERE check, and the loop is
    outside a clause after it unless the line is a comment: literals on a
    line that also holds ORDER BY, UPDATE or DELETE, such as a one-line
    DELETE with its WHERE clause, go unreported. *)
Theorem terminator_line_not_checked
    (in_where : bool) (i : nat) (line kw : string) :
  kw ∈ SqlFormatHook.WHERE_END →
  Str.contains kw (Str.upper (Str.strip line)) = true →
  (∃ in_where',
     SqlFormatHook.where_line in_where i line = Ok (in_where', [])) ∧
  (SqlFormatHook.is_comment (Str.upper (Str.strip line)) = false →
   SqlFormatHook.where_line in_where i line = Ok (false, [])).
Proof.
  intros Hkw Hc.
  assert (existsb (λ kw, Str.contains kw (Str.upper (Str.strip line)))
            SqlFormatHook.WHERE_END = true) as He.
  { apply existsb_exists. exists kw. split; [by apply list_elem_of_In|done]. }
  unfold SqlFormatHook.where_line. cbn zeta. rewrite He.
  destruct (SqlFormatHook.is_comment _); [by split; [eexists|]|].
  destruct (Str.contains "WHERE" _); [by split; [eexists|]|].
  destruct in_where; by split; [eexists|].
Qed.

Lemma terminator_line_not_checked_witness :
  (∃ in_where',
     SqlFormatHook.where_line false 1
       "delete from users where name = 'bob' and age = 42"
     = Ok (in_where', [])) ∧
  (SqlFormatHook.is_comment
     (Str.upper
        (Str.strip "delete from users where name = 'bob' and age = 42"))
   = false →
   SqlFormatHook.where_line false 1
     "delete from users where name = 'bob' and age = 42" = Ok (false, [])).
Proof.
  apply (terminator_line_not_checked false 1
           "delete from users where name = 'bob' and age = 42" "DELETE").
  - vm_compute. do 8 right. left.
  - reflexivity.
Defined.

Lemma startswith_app s x post :
  Str.startswith s x = true → Str.startswith (s +:+ post) x = true.
Proof.
  revert x. induction s as [|c s IH]; intros [|a x]; try done.
  - intros _. apply startswith_empty.
  - change (String c s +:+ post) with (String c (s +:+ post)).
    cbn [Str.startswith]. intros [-> Hx]%andb_true_iff. by rewrite IH.
Qed.

Lemma contains_app_r x s post :
  Str.contains x s = true → Str.contains x (s +:+ post) = true.
Proof.
  induction s as [|c s IH].
  - cbn [Str.contains]. rewrite orb_false_r. intros Hx.
    destruct x; [|done]. change ("" +:+ post) with post.
    destruct post; cbn [Str.contains]; by rewrite ?startswith_empty.
  - change (String c s +:+ post) with (String c (s +:+ post)).
    cbn [Str.contains]. intros [Hx|Hx]%orb_true_iff.
    + change (String c (s +:+ post)) with (String c s +:+ post).
      by rewrite (startswith_app _ _ post Hx).
    + rewrite (IH Hx). apply orb_true_r.
Qed.

Lemma contains_app_l x pre s :
  Str.contains x s = true → Str.contains x (pre +:+ s) = true.
Proof.
  intros Hx. induction pre as [|c pre IH]; [done|].
  change (String c pre +:+ s) with (String c (pre +:+ s)).
  cbn [Str.contains]. rewrite IH. apply orb_true_r.
Qed.

Lemma lower_app a b : Str.lower (a +:+ b) = Str.lower a +:+ Str.lower b.
Proof.
  unfold Str.lower. induction a as [|c a IH]; [done|].
  change (String c a +:+ b) with (String c (a +:+ b)).
  cbn [Str.map]. by rewrite IH.
Qed.

(** X21.  A name is sensitive as soon as a sensitive term occurs anywhere
    in it, in any letter case: whatever holds a sensitive name holds a
    sensitive term too, so a placeholder such as TokenizerVersion is
    reported like Token. *)
Theorem sensitive_name_within (pre name post : string) :
  SerilogEnforcerHook.is_pii name = true →
  SerilogEnforcerHook.is_pii (pre +:+ name +:+ post) = true.
Proof.
  unfold SerilogEnforcerHook.is_pii. rewrite !existsb_exists.
  intros (pii & Hin & Hc). exists pii. split; [done|].
  rewrite !lower_app. by apply contains_app_l, contains_app_r.
Qed.

Lemma sensitive_name_within_witness :
  SerilogEnforcerHook.is_pii ("Last" +:+ "Token" +:+ "izerVersion") = true.
Proof.
  apply (sensitive_name_within "Last" "Token" "izerVersion"). reflexivity.
Defined.

(** ** Decisions of the hooks *)

Lemma take_length n s : String.length (Str.take n s) ≤ String.length s.
Proof.
  revert s. induction n as [|n IH]; intros [|c s]; cbn; try lia.
  specialize (IH s). lia.
Qed.

Lemma lstrip_length s : String.length (Str.lstrip s) ≤ String.length s.
Proof.
  induction s as [|c s IH]; [done|]. cbn [Str.lstrip].
  destruct (Char.is_space c); cbn; lia.
Qed.

Lemma rev_app_length s t :
  String.length (String.rev_app s t) = String.length s + String.length t.
Proof.
  revert t. induction s as [|c s IH]; intros t; [done|].
  cbn [String.rev_app]. rewrite IH. cbn. lia.
Qed.

Lemma strip_length s : String.length (Str.strip s) ≤ String.length s.
Proof.
  unfold Str.strip, Str.rstrip, String.rev.
  rewrite rev_app_length. cbn.
  pose proof (lstrip_length (String.rev_app (Str.lstrip s) "")) as H1.
  rewrite rev_app_length in H1. cbn in H1.
  pose proof (lstrip_length s). lia.
Qed.

Section CaptureLength.
Context {R : Type} (ic : bool).

Lemma star_continues cl prev s (k : option ascii → string → option R) res :
  Re.star ic cl prev s k = Some res →
  ∃ prev' s', k prev' s' = Some res ∧ String.length s' ≤ String.length s.
Proof.
  revert prev. induction s as [|c s IH]; intros prev; cbn [Re.star].
  - intros H. by exists prev, "".
  - destruct (Re.cclass_match ic cl c).
    + destruct (Re.star ic cl (Some c) s k) as [r|] eqn:Hs.
      * intros [= <-]. destruct (IH _ Hs) as (p' & s' & Hk & Hl).
        exists p', s'. split; [done|]. cbn. lia.
      * intros H. by exists prev, (String c s).
    + intros H. by exists prev, (String c s).
Qed.

Lemma lit_continues p prev s (k : option ascii → string → option R) res :
  Re.lit ic p prev s k = Some res →
  ∃ prev' s', k prev' s' = Some res ∧ String.length s' ≤ String.length s.
Proof.
  revert prev s. induction p as [|a p IH]; intros prev s; cbn [Re.lit].
  - intros H. by exists prev, s.
  - destruct s as [|c s]; [done|].
    destruct (Re.atom_match_ic ic (Re.Lit a) c); [|done].
    intros (p' & s' & Hk & Hl)%IH. exists p', s'. split; [done|]. cbn. lia.
Qed.

Lemma rmatch_continues n r prev s caps
    (k : option ascii → string → Re.captures → option R) res :
  String.length s ≤ n →
  captures_within n caps →
  Re.rmatch ic r prev s caps k = Some res →
  ∃ prev' s' caps',
    k prev' s' caps' = Some res ∧ String.length s' ≤ String.length s ∧
    captures_within n caps'.
Proof.
  revert prev s caps k.
  induction r as [|cl|cl|cl|p|r1 IH1 r2 IH2|r1 IH1 r2 IH2|r1 IH1|g r1 IH1| |];
    intros prev s caps k Hn Hcaps; cbn [Re.rmatch].
  - intros H. by exists prev, s, caps.
  - destruct s as [|c s]; [done|]. destruct (Re.cclass_match ic cl c); [|done].
    intros H. exists (Some c), s, caps. split; [done|]. split; [cbn; lia|done].
  - intros (p' & s' & Hk & Hl)%star_continues. by exists p', s', caps.
  - destruct s as [|c s]; [done|]. destruct (Re.cclass_match ic cl c); [|done].
    intros (p' & s' & Hk & Hl)%star_continues. exists p', s', caps.
    split; [done|]. split; [cbn; lia|done].
  - intros (p' & s' & Hk & Hl)%lit_continues. by exists p', s', caps.
  - intros H. apply IH1 in H as (p1 & s1 & caps1 & H & Hl1 & Hc1); [|done..].
    apply IH2 in H as (p2 & s2 & caps2 & H & Hl2 & Hc2); [|lia|done].
    exists p2, s2, caps2. split; [done|]. split; [lia|done].
  - destruct (Re.rmatch ic r1 prev s caps k) as [x|] eqn:H1.
    + intros [= <-]. by apply IH1 in H1.
    + intros H. by apply IH2 in H.
  - destruct (Re.rmatch ic r1 prev s caps k) as [x|] eqn:H1.
    + intros [= <-]. by apply IH1 in H1.
    + intros H. by exists prev, s, caps.
  - intros H. apply IH1 in H as (p1 & s1 & caps1 & H & Hl1 & Hc1); [|done..].
    eexists p1, s1, _. split; [exact H|]. split; [done|].
    constructor; [|done]. cbn. pose proof (take_length
      (String.length s - String.length s1) s). lia.
  - destruct (xorb _ _); [|done]. intros H. by exists prev, s, caps.
  - destruct prev; [done|]. intros H. by exists None, s, caps.
Qed.
End CaptureLength.

Lemma search_from_captures_within ic r prev s caps :
  Re.search_from ic r prev s = Some caps →
  captures_within (String.length s) caps.
Proof.
  assert (∀ n, String.length s ≤ n →
               Re.search_from ic r prev s = Some caps →
               captures_within n caps) as H; [|by apply H].
  intros n. revert prev. induction s as [|c s IH]; intros prev Hn;
    cbn [Re.search_from]; unfold Re.match_here.
  - destruct (Re.rmatch _ _ _ _ _ _) as [m|] eqn:Hm; [|done].
    intros [= <-].
    apply (rmatch_continues ic n) in Hm as (p' & s' & caps' & [= <-] & _ & Hc);
      [done|done|constructor].
  - destruct (Re.rmatch _ _ _ _ _ _) as [m|] eqn:Hm.
    + intros [= <-].
      apply (rmatch_continues ic n) in Hm as (p' & s' & caps' & [= <-] & _ & Hc);
        [done|done|constructor].
    + apply IH. cbn in Hn. lia.
Qed.

Lemma group_within n g caps :
  captures_within n caps →
  String.length (default "" (Re.group g caps)) ≤ n.
Proof.
  induction 1 as [|[m x] caps Hx _ IH]; cbn [Re.group]; [cbn; lia|].
  destruct (Nat.eqb g m); [exact Hx|exact IH].
Qed.

(** The number on a line within the digit limit is converted. *)
Lemma int_returns s :
  (N.of_nat (String.length s) ≤ Str.int_max_str_digits)%N →
  ∃ value, Str.int s = Some value.
Proof.
  intros Hs. unfold Str.int.
  destruct (N.ltb_spec Str.int_max_str_digits (N.of_nat (String.length s)));
    [lia|by eexists].
Qed.

Lemma where_line_returns in_where i line :
  (N.of_nat (String.length line) ≤ Str.int_max_str_digits)%N →
  ∃ st, SqlFormatHook.where_line in_where i line = Ok st.
Proof.
  intros Hlen. unfold SqlFormatHook.where_line. cbn zeta.
  repeat case_match; try by eexists.
  all: match goal with
       | H : Re.search _ _ _ = Some ?caps |- _ =>
           apply search_from_captures_within in H;
           apply (group_within _ 1) in H;
           destruct (int_returns (default "" (Re.group 1 caps))) as [v ->]
       end.
  all: try (cbn [or_raise mbind result_bind]; by eexists).
  all: pose proof (strip_length line); lia.
Qed.

Lemma check_non_parameterized_where_returns c :
  Forall (λ line, (N.of_nat (String.length line) ≤ Str.int_max_str_digits)%N)
    (Str.splitlines c) →
  ∃ literals, SqlFormatHook.check_non_parameterized_where c = Ok literals.
Proof.
  unfold SqlFormatHook.check_non_parameterized_where.
  intros Hlines. generalize false, 1.
  induction Hlines as [|line lines Hline _ IH];
    intros in_where start; cbn [for_enumerate_raising]; [by eexists|].
  destruct (where_line_returns in_where start line Hline) as [[st out] ->].
  cbn [mbind result_bind]. destruct (IH st (S start)) as [outs ->].
  by eexists.
Qed.

Lemma where_line_raises in_where i line e :
  SqlFormatHook.where_line in_where i line = Raise e → e = ValueError.
Proof.
  unfold SqlFormatHook.where_line. cbn zeta.
  repeat case_match; try done.
  all: destruct (Str.int _); cbn [or_raise mbind result_bind]; [done|].
  all: by intros [= <-].
Qed.

Lemma check_non_parameterized_where_raises c e :
  SqlFormatHook.check_non_parameterized_where c = Raise e → e = ValueError.
Proof.
  unfold SqlFormatHook.check_non_parameterized_where.
  generalize false, 1.
  induction (Str.splitlines c) as [|line lines IH]; intros in_where start;
    cbn [for_enumerate_raising]; [done|].
  destruct (SqlFormatHook.where_line in_where start line)
    as [[st out]|e'] eqn:Hl; cbn [mbind result_bind].
  - destruct (for_enumerate_raising _ st (S start) lines) as [outs|e'] eqn:Hr;
      cbn [mbind result_bind]; [done|].
    intros [= <-]. by eapply IH.
  - intros [= <-]. by eapply where_line_raises.
Qed.

(** X23.  The SQL hook decides on its diagnostics whenever the WHERE check
    returns: it then ends with status 2 or 0, with 2 exactly when one of
    the diagnostics is a BLOCK, prints them all, and a BLOCK comes from the
    concatenation check or the WHERE check only.  When the WHERE check
    raises, the exception is the ValueError of [int] and the hook ends with
    it.  The check returns on every text whose lines have at most 4300
    characters, as a literal is no longer than its line. *)
Theorem sql_decision_follows_diagnostics
    (set_iter : gset string → list string) (payload : json) (p c : string) :
  extract_file_and_content payload = Ok (JStr p, JStr c) →
  (∀ ds, sql_diagnostics set_iter p c = Ok ds →
         ∃ o, SqlFormatHook.main set_iter (Some payload) = Ok o ∧
              decides o ds snd) ∧
  (∀ ds d, sql_diagnostics set_iter p c = Ok ds → d ∈ ds → d.1 = "BLOCK" →
           d.2 ∈ SqlFormatHook.check_string_concatenation c ∨
           ∃ literals,
             SqlFormatHook.check_non_parameterized_where c = Ok literals ∧
             d.2 ∈ literals) ∧
  (∀ e, sql_diagnostics set_iter p c = Raise e →
        e = ValueError ∧
        SqlFormatHook.main set_iter (Some payload) = Raise e) ∧
  (Forall (λ line,
             (N.of_nat (String.length line) ≤ Str.int_max_str_digits)%N)
     (Str.splitlines c) →
   ∃ ds, sql_diagnostics set_iter p c = Ok ds).
Proof.
  intros Hevent. rewrite (sql_main_event _ _ _ Hevent).
  unfold sql_diagnostics, SqlFormatHook.blockers. cbn zeta.
  destruct (sql_applies p c).
  - destruct (SqlFormatHook.check_non_parameterized_where c)
      as [literals|e'] eqn:Hw; cbn [mbind result_bind].
    + split; [|split; [|split]].
      * intros ds [= <-]. eexists. split; [done|]. apply sql_report_decides.
      * intros ds d [= <-] [Hd|Hd]%elem_of_app Hb.
        -- apply elem_of_warn in Hd as [Hd _]. congruence.
        -- apply elem_of_block in Hd as [_ [Hd|Hd]%elem_of_app]; [by left|].
           right. by exists literals.
      * done.
      * intros _. by eexists.
    + split; [done|]. split; [done|]. split.
      * intros e [= <-]. split; [|done].
        by eapply check_non_parameterized_where_raises.
      * intros [literals Hl]%check_non_parameterized_where_returns.
        congruence.
  - split; [|split; [|split]].
    + intros ds [= <-]. eexists. split; [done|]. apply decides_nothing.
    + intros ds d [= <-] Hd. by apply elem_of_nil in Hd.
    + done.
    + intros _. by eexists.
Qed.

Lemma sql_decision_follows_diagnostics_witness :
  ∃ o, SqlFormatHook.main elements
         (Some (write_payload "db/Infrastructure/orders.sql"
                  "SELECT id FROM orders WHERE status = 2")) = Ok o ∧
       decides o
         [("WARN",
           "  SQL file is missing a header comment block. " +:+
           "Add a comment describing the query's purpose, parameters, " +:+
           "and author.");
          ("BLOCK",
           "  Line 1: Hardcoded numeric literal (2) in WHERE clause. " +:+
           "Use a @-prefixed parameter instead.")] snd.
Proof.
  apply (proj1 (sql_decision_follows_diagnostics elements
                  (write_payload "db/Infrastructure/orders.sql"
                     "SELECT id FROM orders WHERE status = 2")
                  "db/Infrastructure/orders.sql"
                  "SELECT id FROM orders WHERE status = 2" eq_refl)).
  vm_compute. reflexivity.
Defined.

(** X24.  On every event the layer hook ends with status 2 or 0, with 2
    exactly when one of its diagnostics is a BLOCK, and a BLOCK comes from
    the check of a Domain or an Application file only; the
    coding-standards, endpoint and logging hooks end with status 0 on every
    event and all their diagnostics are WARN.  Every diagnostic is
    printed. *)
Theorem layer_and_warning_hooks_decide (payload : json) (p c : string) :
  extract_file_and_content payload = Ok (JStr p, JStr c) →
  (∃ o, LayerDependencyHook.main (Some payload) = Ok o ∧
        decides o (layer_diagnostics p c) with_level) ∧
  (∃ o, CodingStandardsHook.main (Some payload) = Ok o ∧
        decides o (coding_diagnostics p c) snd ∧ exit_code o = 0%Z) ∧
  (∃ o, OpenapiContractHook.main (Some payload) = Ok o ∧
        decides o (openapi_diagnostics p c) snd ∧ exit_code o = 0%Z) ∧
  (∃ o, SerilogEnforcerHook.main (Some payload) = Ok o ∧
        decides o (serilog_diagnostics p c) snd ∧ exit_code o = 0%Z) ∧
  (∀ d, d ∈ layer_diagnostics p c → d.1 = "BLOCK" →
        (LayerDependencyHook.detect_layer p = Some "Domain" ∧
         d ∈ LayerDependencyHook.check_domain_layer
               (LayerDependencyHook.extract_usings c) p) ∨
        (LayerDependencyHook.detect_layer p = Some "Application" ∧
         d ∈ LayerDependencyHook.check_application_layer
               (LayerDependencyHook.extract_usings c) p)) ∧
  (∀ d, d ∈ coding_diagnostics p c ++ openapi_diagnostics p c ++
            serilog_diagnostics p c → d.1 = "WARN").
Proof.
  intros Hevent. repeat apply conj.
  - eexists. split; [apply (layer_main_event _ _ _ Hevent)|].
    unfold layer_diagnostics.
    destruct (Str.endswith p ".cs" && Str.nonempty c);
      [|apply decides_nothing].
    destruct (LayerDependencyHook.detect_layer p) as [layer|];
      [apply layer_report_decides|apply decides_nothing].
  - eexists. split; [apply (coding_main_event _ _ _ Hevent)|].
    unfold coding_diagnostics. destruct (_ && _).
    + split; [apply decides_warn_only|apply coding_report_exit].
    + split; [apply decides_nothing|done].
  - eexists. split; [apply (openapi_main_event _ _ _ Hevent)|].
    unfold openapi_diagnostics. destruct (_ && _).
    + split; [apply decides_warn_only|apply openapi_report_exit].
    + split; [apply decides_nothing|done].
  - eexists. split; [apply (serilog_main_event _ _ _ Hevent)|].
    unfold serilog_diagnostics. destruct (_ && _).
    + split; [apply decides_warn_only|apply serilog_report_exit].
    + split; [apply decides_nothing|done].
  - intros d Hd Hb. unfold layer_diagnostics in Hd.
    destruct (_ && _); [|by apply elem_of_nil in Hd].
    destruct (LayerDependencyHook.detect_layer p) as [layer|];
      [|by apply elem_of_nil in Hd].
    destruct (check_layer_block _ _ _ _ Hd Hb) as [[-> ?]|[-> ?]]; auto.
  - intros d Hd. unfold coding_diagnostics, openapi_diagnostics,
      serilog_diagnostics in Hd.
    repeat (apply elem_of_app in Hd as [Hd|Hd]);
      (destruct (_ && _); [|by apply elem_of_nil in Hd]);
      by apply elem_of_warn in Hd as [? _].
Qed.

Lemma layer_and_warning_hooks_decide_witness :
  ∃ o, LayerDependencyHook.main
         (Some (write_payload "src/Shop.Domain/Order.cs"
                  "using Shop.Infrastructure.Data;")) = Ok o ∧
       decides o
         (layer_diagnostics "src/Shop.Domain/Order.cs"
            "using Shop.Infrastructure.Data;") with_level.
Proof.
  exact (proj1 (layer_and_warning_hooks_decide
                  (write_payload "src/Shop.Domain/Order.cs"
                     "using Shop.Infrastructure.Data;")
                  "src/Shop.Domain/Order.cs"
                  "using Shop.Infrastructure.Data;" eq_refl)).
Defined.
